(** * Delta-converter: a shallow embedding of [converter.py]

    The development follows the Python class [DeltaConverter] of
    [k8s/o11y_cluster/delta-converter/converter.py], leaf first:

    - [Py]          exceptions with their message, and computations that
                    leave a trace of effects;
    - [Val]         Python values (parsed JSON, DataFrame cells) and dicts;
    - [PyLib]       models of the library functions the converter calls
                    ([float], [json.loads], [json.dumps]), used by the
                    concrete examples;
    - [Schema]      [_infer_column_type] and [_is_float];
    - [Frame]       the DataFrame stage of [_write_batch_to_delta]: renames,
                    [sample_user], the [avg_*] columns, the bookkeeping
                    columns and [_get_delta_schema];
    - [Normalizer]  [_parse_record], [_preprocess_complex_fields] and
                    [_flatten_dict];
    - [Pipeline]    [_save_processed_files], the retry loop of
                    [_write_batch_to_delta], [convert_statements],
                    [convert_slowlogs], [run] and [main];
    - [NormalizerFacts], [Lines], [Ledger], [SchemaFacts], [Cleanup],
      [PipelineFacts], [FrameFacts], [AuthUsers], [LedgerRun]
                    further properties: flat records, the lines of a log
                    file, the ledger files ([_get_processed_files_path],
                    [_load_processed_files]), the clean-up of a batch, whole
                    runs, the renames and the shape of the frame.

    Every Python exception is modelled by its message ([str(e)]); every
    effect on the outside world (an append to the Delta table, a line added to
    a ledger file, a [time.sleep]) is an event of the trace a computation
    returns together with its result.  Library functions ([json.loads],
    [float], [pd.to_datetime], ...) are parameters of the sections that use
    them.  Each module gives its definitions first, then their properties,
    then the properties of concrete inputs. *)

From Stdlib Require Import List String Ascii Bool Arith ZArith QArith Lia.
From Stdlib Require Import DecimalString.
Import ListNotations.
Close Scope Q_scope.
Open Scope string_scope.

(* ------------------------------------------------------------------ *)
(** ** Python substrate *)

Module Py.

(** [needle in hay] on Python strings. *)
Definition contains (needle hay : string) : bool :=
  match String.index 0 needle hay with
  | Some _ => true
  | None => false
  end.

(** [s.endswith(suffix)]. *)
Definition endswith (s suffix : string) : bool :=
  let n := String.length s in
  let k := String.length suffix in
  Nat.leb k n && String.eqb (String.substring (n - k) k s) suffix.

(** An exception, identified by [str(e)]. *)
Definition exn := string.

Section Effects.
(** [Ev] is the type of observable events. *)
Variable Ev : Type.

(** A computation yields the events it caused, then either raises or
    returns. *)
Definition M (A : Type) : Type := (list Ev * (exn + A))%type.

Definition ret {A} (a : A) : M A := ([], inr a).
Definition raise {A} (e : exn) : M A := ([], inl e).
Definition emit (ev : Ev) : M unit := ([ev], inr tt).

Definition bind {A B} (c : M A) (k : A -> M B) : M B :=
  match c with
  | (t, inl e) => (t, inl e)
  | (t, inr a) => let (t', r) := k a in ((t ++ t')%list, r)
  end.

Definition events {A} (c : M A) : list Ev := fst c.
Definition outcome {A} (c : M A) : exn + A := snd c.

Definition raises {A} (c : M A) : bool :=
  match outcome c with inl _ => true | inr _ => false end.
End Effects.

Arguments ret {Ev A} a.
Arguments raise {Ev A} e.
Arguments emit {Ev} ev.
Arguments bind {Ev A B} c k.
Arguments events {Ev A} c.
Arguments outcome {Ev A} c.
Arguments raises {Ev A} c.

End Py.

Notation "x <- c ;; k" := (Py.bind c (fun x => k))
(at level 61, c at next level, right associativity).
Notation "c ;;; k" := (Py.bind c (fun _ => k))
(at level 61, right associativity).


(* ------------------------------------------------------------------ *)
(** ** Python values *)

Module Val.

(** A Python float.  Finite floats are idealised as exact rationals: no
    rounding and no overflow. *)
Inductive pyfloat : Type :=
| FNaN
| FInf (negative : bool)
| FFin (q : Q).

(** The values a parsed JSON document and a DataFrame cell can hold.  A dict
    is its list of items in insertion order. *)
#[local] Set Warnings "-register-all".
Inductive pyval : Type :=
| PNone
| PBool (b : bool)
| PInt (z : Z)
| PFloat (x : pyfloat)
| PStr (s : string)
| PList (l : list pyval)
| PDict (d : list (string * pyval)).

(** [d[k] = v]: the value is replaced where the key stands, a new key goes
    to the end. *)
Fixpoint dict_set {V : Type} (d : list (string * V)) (k : string) (v : V)
  : list (string * V) :=
  match d with
  | [] => [(k, v)]
  | (k', v') :: d' =>
      if String.eqb k' k then (k', v) :: d' else (k', v') :: dict_set d' k v
  end.

(** [dict(items)] *)
Definition dict_of_items {V : Type} (items : list (string * V))
  : list (string * V) :=
  fold_left (fun d kv => dict_set d (fst kv) (snd kv)) items [].

(** [d.get(k)] *)
Fixpoint dict_get {V : Type} (d : list (string * V)) (k : string)
  : option V :=
  match d with
  | [] => None
  | (k', v) :: d' => if String.eqb k' k then Some v else dict_get d' k
  end.

Definition dict_keys {V : Type} (d : list (string * V)) : list string :=
  map fst d.

(** [isinstance(x, dict)] and [isinstance(x, (list, dict))] *)
Definition is_dict (x : pyval) : bool :=
  match x with PDict _ => true | _ => false end.

Definition is_collection (x : pyval) : bool :=
  match x with PList _ | PDict _ => true | _ => false end.

(** The truth value of a dict: [False] when it is empty *)
Definition truthy_dict (x : pyval) : bool :=
  match x with PDict (_ :: _) => true | _ => false end.

(** [pd.isna(x)] on a scalar *)
Definition isna (x : pyval) : bool :=
  match x with
  | PNone | PFloat FNaN => true
  | _ => false
  end.

(** [s.replace(c, '')] for a one-character [c] *)
Fixpoint remove_char (c : ascii) (s : string) : string :=
  match s with
  | EmptyString => EmptyString
  | String a s' =>
      if Ascii.eqb a c then remove_char c s' else String a (remove_char c s')
  end.

Definition is_digit (a : ascii) : bool :=
  let n := nat_of_ascii a in Nat.leb 48 n && Nat.leb n 57.

Fixpoint all_digits (s : string) : bool :=
  match s with
  | EmptyString => true
  | String a s' => is_digit a && all_digits s'
  end.

(** [s.isdigit()]; a character outside ASCII counts as no digit. *)
Definition isdigit (s : string) : bool :=
  match s with
  | EmptyString => false
  | _ => all_digits s
  end.

(** Induction on values, through the lists of a list and of a dict. *)
Section Induction.
Variable P : pyval -> Prop.
Hypothesis P_none : P PNone.
Hypothesis P_bool : forall b, P (PBool b).
Hypothesis P_int : forall z, P (PInt z).
Hypothesis P_float : forall x, P (PFloat x).
Hypothesis P_str : forall s, P (PStr s).
Hypothesis P_list : forall l, Forall P l -> P (PList l).
Hypothesis P_dict : forall d, Forall (fun kv => P (snd kv)) d -> P (PDict d).

Fixpoint pyval_induction (v : pyval) : P v :=
  match v with
  | PNone => P_none
  | PBool b => P_bool b
  | PInt z => P_int z
  | PFloat x => P_float x
  | PStr s => P_str s
  | PList l =>
      P_list l
        ((fix all (l : list pyval) : Forall P l :=
            match l with
            | [] => Forall_nil P
            | x :: r => Forall_cons x (pyval_induction x) (all r)
            end) l)
  | PDict d =>
      P_dict d
        ((fix all (d : list (string * pyval))
            : Forall (fun kv => P (snd kv)) d :=
            match d with
            | [] => Forall_nil _
            | kv :: r =>
                Forall_cons kv (pyval_induction (snd kv)) (all r)
            end) d)
  end.
End Induction.

(** *** Properties of dicts *)

Lemma dict_set_notin (V : Type) (d : list (string * V)) (k : string) (v : V) :
  ~ In k (map fst d) -> dict_set d k v = (d ++ [(k, v)])%list.
Proof.
  induction d as [| [k' v'] d IH]; simpl; intro H; [reflexivity|].
  destruct (String.eqb_spec k' k) as [-> | Hne].
  - exfalso. apply H. now left.
  - f_equal. apply IH. intro Hin. apply H. now right.
Qed.

Lemma fold_set_nodup (V : Type) (l acc : list (string * V)) :
  NoDup (map fst l) ->
  (forall k, In k (map fst l) -> ~ In k (map fst acc)) ->
  fold_left (fun d kv => dict_set d (fst kv) (snd kv)) l acc
  = (acc ++ l)%list.
Proof.
  revert acc. induction l as [| [k v] l IH]; intros acc Hnd Hdis; simpl.
  - now rewrite app_nil_r.
  - inversion Hnd as [| ? ? Hk Hnd']; subst.
    rewrite dict_set_notin by (apply Hdis; now left).
    rewrite IH; [now rewrite <- app_assoc | exact Hnd' |].
    intros k' Hk'. rewrite map_app, in_app_iff. simpl.
    intros [Hacc | [<- | []]].
    + apply (Hdis k'); [now right | exact Hacc].
    + exact (Hk Hk').
Qed.

Lemma dict_of_items_nodup (V : Type) (l : list (string * V)) :
  NoDup (map fst l) -> dict_of_items l = l.
Proof.
  intro Hnd. unfold dict_of_items.
  rewrite fold_set_nodup; [reflexivity | exact Hnd | intros k _ []].
Qed.

Lemma dict_get_set_same (V : Type) (d : list (string * V)) (k : string)
      (v : V) :
  dict_get (dict_set d k v) k = Some v.
Proof.
  induction d as [| [k' v'] d IH]; simpl.
  - now rewrite String.eqb_refl.
  - destruct (String.eqb_spec k' k) as [-> | Hne]; simpl.
    + now rewrite String.eqb_refl.
    + apply String.eqb_neq in Hne. now rewrite Hne.
Qed.

Lemma dict_get_set_other (V : Type) (d : list (string * V)) (k k' : string)
      (v : V) :
  k' <> k -> dict_get (dict_set d k' v) k = dict_get d k.
Proof.
  intro Hne. induction d as [| [k0 v0] d IH]; simpl.
  - apply String.eqb_neq in Hne. now rewrite Hne.
  - destruct (String.eqb_spec k0 k') as [-> | Hne0]; simpl.
    + apply String.eqb_neq in Hne. now rewrite Hne.
    + destruct (String.eqb k0 k); [reflexivity | exact IH].
Qed.

Lemma dict_get_fold_notin (V : Type) (l acc : list (string * V))
      (k : string) :
  ~ In k (map fst l) ->
  dict_get (fold_left (fun d kv => dict_set d (fst kv) (snd kv)) l acc) k
  = dict_get acc k.
Proof.
  revert acc. induction l as [| [k' v'] l IH]; intros acc H; simpl;
    [reflexivity|].
  rewrite IH by (intro Hin; apply H; now right).
  apply dict_get_set_other. intros ->. apply H. now left.
Qed.

Lemma keys_dict_set (V : Type) (d : list (string * V)) (k key : string)
      (v : V) :
  In key (map fst (dict_set d k v)) -> In key (map fst d) \/ key = k.
Proof.
  induction d as [| [k' v'] d IH]; simpl.
  - intros [<- | []]. now right.
  - destruct (String.eqb_spec k' k) as [-> | Hne]; simpl.
    + intros [<- | H]; [left; now left | left; now right].
    + intros [<- | H]; [left; now left|].
      destruct (IH H) as [H' | H']; [left; now right | now right].
Qed.

Lemma keys_fold_set (V : Type) (l acc : list (string * V)) (key : string) :
  In key (map fst (fold_left (fun d kv => dict_set d (fst kv) (snd kv))
                             l acc)) ->
  In key (map fst acc) \/ In key (map fst l).
Proof.
  revert acc. induction l as [| [k v] l IH]; intros acc H; simpl in *.
  - now left.
  - destruct (IH _ H) as [H' | H']; [| right; now right].
    apply keys_dict_set in H'. destruct H' as [H' | ->];
      [now left | right; now left].
Qed.

Lemma keys_dict_of_items (V : Type) (l : list (string * V)) (key : string) :
  In key (map fst (dict_of_items l)) -> In key (map fst l).
Proof.
  intro H. apply keys_fold_set in H. now destruct H.
Qed.

(** The value of a key set once in a list of items. *)
Lemma dict_get_of_items_unique (V : Type) (l1 l2 : list (string * V))
      (k : string) (v : V) :
  ~ In k (map fst l2) ->
  dict_get (dict_of_items (l1 ++ (k, v) :: l2)) k = Some v.
Proof.
  intro H2. unfold dict_of_items. rewrite fold_left_app. simpl.
  rewrite dict_get_fold_notin by exact H2.
  apply dict_get_set_same.
Qed.

End Val.

(* ------------------------------------------------------------------ *)
(** ** Library functions

    Models of the built-in and library functions the converter calls, on
    ASCII text.  The converter itself is stated over any such function; these
    are the ones the concrete runs use. *)

Module PyLib.
Import Val.

Definition is_space (a : ascii) : bool :=
  let n := nat_of_ascii a in
  Nat.eqb n 32 || (Nat.leb 9 n && Nat.leb n 13).

Fixpoint lstrip (l : list ascii) : list ascii :=
  match l with
  | [] => []
  | a :: l' => if is_space a then lstrip l' else l
  end.

(** [s.strip()] *)
Definition strip (l : list ascii) : list ascii :=
  rev (lstrip (rev (lstrip l))).

Definition lower (a : ascii) : ascii :=
  let n := nat_of_ascii a in
  if Nat.leb 65 n && Nat.leb n 90 then ascii_of_nat (n + 32) else a.

Definition digit_value (a : ascii) : Z :=
  Z.of_nat (nat_of_ascii a - 48).

(** A run of digits, an underscore allowed between two digits: the number
    read, how many digits it has, and what follows. *)
Fixpoint read_digits (acc : Z) (count : nat) (l : list ascii)
  : Z * nat * list ascii :=
  match l with
  | [] => (acc, count, [])
  | a :: l' =>
      if is_digit a then
        let acc' := (acc * 10 + digit_value a)%Z in
        match l' with
        | "_"%char :: ((b :: _) as l'') =>
            if is_digit b then read_digits acc' (S count) l''
            else (acc', S count, l')
        | _ => read_digits acc' (S count) l'
        end
      else (acc, count, l)
  end.

Definition read_sign (l : list ascii) : bool * list ascii :=
  match l with
  | "-"%char :: l' => (true, l')
  | "+"%char :: l' => (false, l')
  | _ => (false, l)
  end.

(** [mantissa * 10 ^ exponent] *)
Definition scale10 (mantissa exponent : Z) : Q :=
  if (0 <=? exponent)%Z
  then Qmake (mantissa * 10 ^ exponent) 1
  else Qmake mantissa (Z.to_pos (10 ^ (- exponent))).

(** Digits, an optional point and digits, an optional exponent; at least
    one digit before the exponent. *)
Definition read_decimal (l : list ascii) : option Q :=
  let '(int_part, n1, r1) := read_digits 0 0 l in
  let '(frac_part, n2, r2) :=
    match r1 with
    | "."%char :: r => read_digits 0 0 r
    | _ => (0%Z, 0, r1)
    end in
  let mantissa := (int_part * 10 ^ Z.of_nat n2 + frac_part)%Z in
  if Nat.eqb (n1 + n2) 0 then None
  else
    match r2 with
    | [] => Some (scale10 mantissa (- Z.of_nat n2))
    | e :: r3 =>
        if Ascii.eqb (lower e) "e" then
          let '(negative, r4) := read_sign r3 in
          let '(ex, n3, r5) := read_digits 0 0 r4 in
          match n3, r5 with
          | S _, [] =>
              Some (scale10 mantissa
                      ((if negative then - ex else ex) - Z.of_nat n2))
          | _, _ => None
          end
        else None
    end.

(** [float(s)]: [None] stands for [ValueError]. *)
Definition float_of_str (s : string) : option pyfloat :=
  let '(negative, r) := read_sign (strip (list_ascii_of_string s)) in
  let word := string_of_list_ascii (map lower r) in
  if String.eqb word "inf" || String.eqb word "infinity"
  then Some (FInf negative)
  else if String.eqb word "nan" then Some FNaN
  else match read_decimal r with
       | Some q => Some (FFin (if negative then Qopp q else q))
       | None => None
       end.

(** *** [json.loads] *)

Definition dq_code : nat := 34.
Definition backslash_code : nat := 92.

(** The double quote, as a text. *)
Definition dq : string := String (ascii_of_nat dq_code) EmptyString.

Definition is_char (a : ascii) (code : nat) : bool :=
  Nat.eqb (nat_of_ascii a) code.

Definition json_space (a : ascii) : bool :=
  let n := nat_of_ascii a in
  Nat.eqb n 32 || Nat.eqb n 9 || Nat.eqb n 10 || Nat.eqb n 13.

Fixpoint skip_ws (l : list ascii) : list ascii :=
  match l with
  | [] => []
  | a :: l' => if json_space a then skip_ws l' else l
  end.

Definition hex_value (a : ascii) : option N :=
  let n := N_of_ascii a in
  if (48 <=? n)%N && (n <=? 57)%N then Some (n - 48)%N
  else if (65 <=? n)%N && (n <=? 70)%N then Some (n - 55)%N
  else if (97 <=? n)%N && (n <=? 102)%N then Some (n - 87)%N
  else None.

Definition hex4 (a b c d : ascii) : option N :=
  match hex_value a, hex_value b, hex_value c, hex_value d with
  | Some x, Some y, Some z, Some w =>
      Some (((x * 16 + y) * 16 + z) * 16 + w)%N
  | _, _, _, _ => None
  end.

(** The UTF-8 bytes of a code point. *)
Definition utf8 (n : N) : list ascii :=
  if (n <? 128)%N then [ascii_of_N n]
  else if (n <? 2048)%N
  then [ascii_of_N (192 + n / 64); ascii_of_N (128 + n mod 64)]
  else if (n <? 65536)%N
  then [ascii_of_N (224 + n / 4096); ascii_of_N (128 + (n / 64) mod 64);
        ascii_of_N (128 + n mod 64)]
  else [ascii_of_N (240 + n / 262144);
        ascii_of_N (128 + (n / 4096) mod 64);
        ascii_of_N (128 + (n / 64) mod 64);
        ascii_of_N (128 + n mod 64)].

Definition simple_escape (a : ascii) : option ascii :=
  let n := nat_of_ascii a in
  if Nat.eqb n dq_code || Nat.eqb n backslash_code || Nat.eqb n 47
  then Some a
  else if Nat.eqb n 98 then Some (ascii_of_nat 8)
  else if Nat.eqb n 102 then Some (ascii_of_nat 12)
  else if Nat.eqb n 110 then Some (ascii_of_nat 10)
  else if Nat.eqb n 114 then Some (ascii_of_nat 13)
  else if Nat.eqb n 116 then Some (ascii_of_nat 9)
  else None.

(** The text of a JSON string, read after its opening quote: the bytes up to
    the closing quote with the escapes replaced, and what follows. *)
Fixpoint read_string (acc : list ascii) (l : list ascii)
  : option (string * list ascii) :=
  match l with
  | [] => None
  | a :: l' =>
      if is_char a dq_code
      then Some (string_of_list_ascii (rev acc), l')
      else if is_char a backslash_code then
        match l' with
        | [] => None
        | e :: l'' =>
            if is_char e 117 then
              match l'' with
              | h1 :: h2 :: h3 :: h4 :: r =>
                  match hex4 h1 h2 h3 h4 with
                  | None => None
                  | Some hi =>
                      match r with
                      | b :: u :: g1 :: g2 :: g3 :: g4 :: r' =>
                          match hex4 g1 g2 g3 g4 with
                          | Some lo =>
                              if is_char b backslash_code && is_char u 117
                                 && (55296 <=? hi)%N && (hi <? 56320)%N
                                 && (56320 <=? lo)%N && (lo <? 57344)%N
                              then read_string
                                     (rev (utf8 (65536 + (hi - 55296) * 1024
                                                 + (lo - 56320))%N) ++ acc)
                                     r'
                              else read_string (rev (utf8 hi) ++ acc) r
                          | None => read_string (rev (utf8 hi) ++ acc) r
                          end
                      | _ => read_string (rev (utf8 hi) ++ acc) r
                      end
                  end
              | _ => None
              end
            else
              match simple_escape e with
              | Some c => read_string (c :: acc) l''
              | None => None
              end
        end
      else if Nat.ltb (nat_of_ascii a) 32 then None
      else read_string (a :: acc) l'
  end.

(** A run of digits: the number, how many digits, what follows. *)
Fixpoint read_plain_digits (acc : Z) (count : nat) (l : list ascii)
  : Z * nat * list ascii :=
  match l with
  | [] => (acc, count, [])
  | a :: l' =>
      if is_digit a
      then read_plain_digits (acc * 10 + digit_value a)%Z (S count) l'
      else (acc, count, l)
  end.

(** A JSON number, read at its first character. *)
Definition read_number (l : list ascii) : option (pyval * list ascii) :=
  let '(negative, r0) :=
    match l with
    | "-"%char :: r => (true, r)
    | _ => (false, l)
    end in
  let '(int_part, n1, r1) :=
    match r0 with
    | "0"%char :: r => (0%Z, 1, r)
    | _ => read_plain_digits 0 0 r0
    end in
  if Nat.eqb n1 0 then None
  else
    let '(frac_part, n2, r2) :=
      match r1 with
      | "."%char :: r =>
          let '(f, n, r') := read_plain_digits 0 0 r in
          match n with
          | 0 => (0%Z, 0, r1)
          | S _ => (f, n, r')
          end
      | _ => (0%Z, 0, r1)
      end in
    let '(has_exp, ex, r3) :=
      match r2 with
      | e :: r =>
          if Ascii.eqb (lower e) "e" then
            let '(neg_e, r') :=
              match r with
              | "-"%char :: t => (true, t)
              | "+"%char :: t => (false, t)
              | _ => (false, r)
              end in
            let '(x, n, r'') := read_plain_digits 0 0 r' in
            match n with
            | 0 => (false, 0%Z, r2)
            | S _ => (true, if neg_e then (- x)%Z else x, r'')
            end
          else (false, 0%Z, r2)
      | [] => (false, 0%Z, r2)
      end in
    let sign := fun z : Z => if negative then (- z)%Z else z in
    match n2, has_exp with
    | 0, false => Some (PInt (sign int_part), r3)
    | _, _ =>
        Some (PFloat (FFin (scale10
                              (sign (int_part * 10 ^ Z.of_nat n2
                                     + frac_part)%Z)
                              (ex - Z.of_nat n2))), r3)
    end.

(** [l] starts with the characters of [word]: what follows. *)
Fixpoint after_word (word l : list ascii) : option (list ascii) :=
  match word, l with
  | [], _ => Some l
  | w :: word', a :: l' =>
      if Ascii.eqb w a then after_word word' l' else None
  | _ :: _, [] => None
  end.

Definition read_literal (l : list ascii) : option (pyval * list ascii) :=
  let try (word : string) (v : pyval) :=
    match after_word (list_ascii_of_string word) l with
    | Some r => Some (v, r)
    | None => None
    end in
  match try "true" (PBool true) with
  | Some x => Some x
  | None =>
  match try "false" (PBool false) with
  | Some x => Some x
  | None =>
  match try "null" PNone with
  | Some x => Some x
  | None =>
  match try "NaN" (PFloat FNaN) with
  | Some x => Some x
  | None =>
  match try "Infinity" (PFloat (FInf false)) with
  | Some x => Some x
  | None =>
  match try "-Infinity" (PFloat (FInf true)) with
  | Some x => Some x
  | None => read_number l
  end end end end end end.

(** A JSON value, the members of an object after its brace and the elements
    of an array after its bracket.  Every call consumes a character, so a
    text of [n] characters needs no more than [n + 1] units of fuel. *)
Fixpoint read_value (fuel : nat) (l : list ascii)
  : option (pyval * list ascii) :=
  match fuel with
  | 0 => None
  | S fuel' =>
      match skip_ws l with
      | [] => None
      | a :: r =>
          if is_char a 123 then
            match skip_ws r with
            | b :: r' =>
                if is_char b 125 then Some (PDict [], r')
                else read_members fuel' [] (b :: r')
            | [] => None
            end
          else if is_char a 91 then
            match skip_ws r with
            | b :: r' =>
                if is_char b 93 then Some (PList [], r')
                else read_elements fuel' [] (b :: r')
            | [] => None
            end
          else if is_char a dq_code then
            match read_string [] r with
            | Some (t, r') => Some (PStr t, r')
            | None => None
            end
          else read_literal (a :: r)
      end
  end
with read_members (fuel : nat) (acc : list (string * pyval)) (l : list ascii)
  : option (pyval * list ascii) :=
  match fuel with
  | 0 => None
  | S fuel' =>
      match skip_ws l with
      | a :: r =>
          if is_char a dq_code then
            match read_string [] r with
            | Some (k, r1) =>
                match skip_ws r1 with
                | c :: r2 =>
                    if is_char c 58 then
                      match read_value fuel' r2 with
                      | Some (v, r3) =>
                          match skip_ws r3 with
                          | d :: r4 =>
                              if is_char d 44
                              then read_members fuel' (dict_set acc k v) r4
                              else if is_char d 125
                              then Some (PDict (dict_set acc k v), r4)
                              else None
                          | [] => None
                          end
                      | None => None
                      end
                    else None
                | [] => None
                end
            | None => None
            end
          else None
      | [] => None
      end
  end
with read_elements (fuel : nat) (acc : list pyval) (l : list ascii)
  : option (pyval * list ascii) :=
  match fuel with
  | 0 => None
  | S fuel' =>
      match read_value fuel' l with
      | Some (v, r) =>
          match skip_ws r with
          | d :: r' =>
              if is_char d 44 then read_elements fuel' (v :: acc) r'
              else if is_char d 93 then Some (PList (rev (v :: acc)), r')
              else None
          | [] => None
          end
      | None => None
      end
  end.

(** [json.loads(s)]: [None] stands for [JSONDecodeError]. *)
Definition json_loads (s : string) : option pyval :=
  let l := list_ascii_of_string s in
  match read_value (S (List.length l)) l with
  | Some (v, rest) =>
      match skip_ws rest with
      | [] => Some v
      | _ :: _ => None
      end
  | None => None
  end.

(** *** [json.dumps] *)

(** The backslash, as a text. *)
Definition bs : string := String (ascii_of_nat backslash_code) EmptyString.

Definition hex_digit (n : nat) : ascii :=
  if Nat.ltb n 10 then ascii_of_nat (48 + n) else ascii_of_nat (87 + n).

Definition escape_char (a : ascii) : string :=
  let n := nat_of_ascii a in
  if Nat.eqb n dq_code then bs ++ dq
  else if Nat.eqb n backslash_code then bs ++ bs
  else if Nat.eqb n 10 then bs ++ "n"
  else if Nat.eqb n 13 then bs ++ "r"
  else if Nat.eqb n 9 then bs ++ "t"
  else if Nat.eqb n 8 then bs ++ "b"
  else if Nat.eqb n 12 then bs ++ "f"
  else if Nat.ltb n 32
  then bs ++ "u00" ++ String (hex_digit (n / 16))
                             (String (hex_digit (n mod 16)) EmptyString)
  else String a EmptyString.

Fixpoint escape (s : string) : string :=
  match s with
  | EmptyString => EmptyString
  | String a s' => escape_char a ++ escape s'
  end.

Definition quoted (s : string) : string := dq ++ escape s ++ dq.

Definition int_text (z : Z) : string :=
  NilZero.string_of_int (Z.to_int z).

(** The text of a float.  An idealised float that is no whole number has no
    shortest decimal form; it is written as a fraction. *)
Definition float_text (x : pyfloat) : string :=
  match x with
  | FNaN => "NaN"
  | FInf false => "Infinity"
  | FInf true => "-Infinity"
  | FFin q =>
      let r := Qred q in
      match Qden r with
      | xH => int_text (Qnum r) ++ ".0"
      | d => int_text (Qnum r) ++ "/" ++ int_text (Zpos d)
      end
  end.

(** [', '.join(parts)] *)
Fixpoint join_comma (parts : list string) : string :=
  match parts with
  | [] => ""
  | [p] => p
  | p :: rest => p ++ ", " ++ join_comma rest
  end.

(** [json.dumps(v, ensure_ascii=False, default=str)] *)
Fixpoint json_dumps (v : pyval) : string :=
  match v with
  | PNone => "null"
  | PBool true => "true"
  | PBool false => "false"
  | PInt z => int_text z
  | PFloat x => float_text x
  | PStr s => quoted s
  | PList l => "[" ++ join_comma (map json_dumps l) ++ "]"
  | PDict d =>
      "{" ++ join_comma
               ((fix members (d : list (string * pyval)) : list string :=
                   match d with
                   | [] => []
                   | (k, x) :: d' =>
                       (quoted k ++ ": " ++ json_dumps x) :: members d'
                   end) d)
          ++ "}"
  end.

End PyLib.

(* ------------------------------------------------------------------ *)
(** ** Type inferrer and schema builder *)

Module Schema.
Import Val.

(** The Arrow types the converter uses; timestamps carry [tz='UTC']. *)
Inductive arrow_type : Type :=
| pa_string
| pa_int64
| pa_float64
| pa_bool
| pa_timestamp_us
| pa_timestamp_ns.

Section Inferrer.

(** [float(s)] on a string: the float, or [None] when it raises
    [ValueError]. *)
Variable float_of_str : string -> option pyfloat.

(** [_is_float(x)]: [float(x)] raises [TypeError] on [None], lists and
    dicts. *)
Definition _is_float (x : pyval) : bool :=
  match x with
  | PBool _ | PInt _ | PFloat _ => true
  | PStr s => match float_of_str s with Some _ => true | None => false end
  | PNone | PList _ | PDict _ => false
  end.

(** [series.dropna()] *)
Definition dropna (series : list pyval) : list pyval :=
  filter (fun x => negb (isna x)) series.

(** [x not in ['None', '']] *)
Definition not_none_text (x : pyval) : bool :=
  match x with
  | PStr s => negb (String.eqb s "None" || String.eqb s "")
  | _ => true
  end.

(** [isinstance(x, (int, bool)) or
     (isinstance(x, str) and x.replace('-', '').isdigit())] *)
Definition int_candidate (x : pyval) : bool :=
  match x with
  | PInt _ | PBool _ => true
  | PStr s => isdigit (remove_char "-" s)
  | _ => false
  end.

(** [isinstance(x, (int, float)) or self._is_float(x)] *)
Definition float_candidate (x : pyval) : bool :=
  match x with
  | PInt _ | PBool _ | PFloat _ => true
  | _ => _is_float x
  end.

(** [_infer_column_type(series)] *)
Definition _infer_column_type (series : list pyval) : arrow_type :=
  let non_null := dropna series in
  match non_null with
  | [] => pa_string
  | _ :: _ =>
      if existsb is_collection non_null then pa_string
      else if forallb int_candidate (filter not_none_text non_null)
           then pa_int64
      else if forallb float_candidate (filter not_none_text non_null)
           then pa_float64
      else pa_string
  end.

(** The rules of the inferrer in the words of the specification: an integer
    text is an optional leading minus followed by digits, and every value of
    the sample is tested. *)
Definition signed_digits (s : string) : bool :=
  match s with
  | String "-" s' => isdigit s'
  | _ => isdigit s
  end.

Definition spec_int_value (x : pyval) : bool :=
  match x with
  | PInt _ | PBool _ => true
  | PStr s => signed_digits s
  | _ => false
  end.

Definition spec_infer_column_type (sample : list pyval) : arrow_type :=
  if existsb is_collection sample then pa_string
  else if forallb spec_int_value sample then pa_int64
  else if forallb float_candidate sample then pa_float64
  else pa_string.

(** The properties of a value the rules of the inferrer talk about. *)
Inductive Collection : pyval -> Prop :=
| coll_list l : Collection (PList l)
| coll_dict d : Collection (PDict d).

(** The texts both numeric tests pass over. *)
Inductive Skipped : pyval -> Prop :=
| skip_none : Skipped (PStr "None")
| skip_empty : Skipped (PStr "").

Definition minus_or_digit (a : ascii) : Prop :=
  a = "-"%char \/ is_digit a = true.

(** An int, a bool, or a text made of digits and minus signs with at least
    one digit. *)
Inductive IntLike : pyval -> Prop :=
| il_int z : IntLike (PInt z)
| il_bool b : IntLike (PBool b)
| il_str s :
    Forall minus_or_digit (list_ascii_of_string s) ->
    Exists (fun a => is_digit a = true) (list_ascii_of_string s) ->
    IntLike (PStr s).

(** A number, or a text [float] accepts. *)
Inductive FloatLike : pyval -> Prop :=
| fl_int z : FloatLike (PInt z)
| fl_bool b : FloatLike (PBool b)
| fl_float x : FloatLike (PFloat x)
| fl_str s x : float_of_str s = Some x -> FloatLike (PStr s).

(** *** Properties of the inferrer *)

Lemma is_collection_iff (x : pyval) :
  is_collection x = true <-> Collection x.
Proof.
  split.
  - destruct x; simpl; try discriminate; constructor.
  - now destruct 1.
Qed.

Lemma not_none_text_iff (x : pyval) :
  not_none_text x = false <-> Skipped x.
Proof.
  split.
  - destruct x; simpl; try discriminate.
    rewrite negb_false_iff, orb_true_iff, !String.eqb_eq.
    intros [-> | ->]; constructor.
  - now destruct 1.
Qed.

Lemma all_digits_remove_minus (s : string) :
  all_digits (remove_char "-" s) = true <->
  Forall minus_or_digit (list_ascii_of_string s).
Proof.
  induction s as [| a s IH]; simpl.
  - split; [constructor | reflexivity].
  - destruct (Ascii.eqb_spec a "-") as [-> | Hne].
    + rewrite IH. split.
      * intro H. constructor; [now left | exact H].
      * now inversion 1.
    + simpl. rewrite andb_true_iff, IH. split.
      * intros [Ha H]. constructor; [now right | exact H].
      * inversion 1 as [| ? ? [Hm | Hd] Hrest]; subst; [congruence | auto].
Qed.

Lemma isdigit_remove_minus (s : string) :
  isdigit (remove_char "-" s) = true <->
  Forall minus_or_digit (list_ascii_of_string s) /\
  Exists (fun a => is_digit a = true) (list_ascii_of_string s).
Proof.
  induction s as [| a s IH]; simpl.
  - split; [discriminate | intros [_ H]; inversion H].
  - destruct (Ascii.eqb_spec a "-") as [-> | Hne].
    + rewrite IH. split.
      * intros [H1 H2]. split; [constructor; [now left | exact H1] |].
        now apply Exists_cons_tl.
      * intros [H1 H2]. inversion H1; subst. split; [assumption|].
        inversion H2; subst; [discriminate | assumption].
    + simpl. rewrite andb_true_iff, all_digits_remove_minus. split.
      * intros [Ha H]. split; [constructor; [now right | exact H] |].
        now apply Exists_cons_hd.
      * intros [H1 _]. inversion H1 as [| ? ? [Hm | Hd] Hrest]; subst;
          [congruence | auto].
Qed.

Lemma int_candidate_iff (x : pyval) :
  int_candidate x = true <-> IntLike x.
Proof.
  split.
  - destruct x; simpl; try discriminate; try constructor.
    + now apply isdigit_remove_minus.
    + now apply isdigit_remove_minus.
  - destruct 1; simpl; auto. now apply isdigit_remove_minus.
Qed.

Lemma float_candidate_iff (x : pyval) :
  float_candidate x = true <-> FloatLike x.
Proof.
  split.
  - destruct x; simpl; try discriminate; try constructor.
    destruct (float_of_str s) eqn:E; [| discriminate].
    intros _. now apply fl_str with p.
  - destruct 1 as [| | | s x E]; simpl; auto. now rewrite E.
Qed.

Lemma forallb_considered (test : pyval -> bool) (P : pyval -> Prop)
      (sample : list pyval) :
  (forall x, test x = true <-> P x) ->
  forallb test (filter not_none_text sample) = true <->
  Forall (fun x => Skipped x \/ P x) sample.
Proof.
  intro Htest. induction sample as [| x l IH]; simpl.
  - split; [constructor | reflexivity].
  - destruct (not_none_text x) eqn:E; simpl.
    + rewrite andb_true_iff, IH, Htest. split.
      * intros [H1 H2]. constructor; [now right | exact H2].
      * inversion 1 as [| ? ? [Hs | Hp] Hrest]; subst; [| auto].
        apply not_none_text_iff in Hs. congruence.
    + rewrite IH. split.
      * intro H. constructor; [left; now apply not_none_text_iff | exact H].
      * now inversion 1.
Qed.


Lemma no_collection_iff (sample : list pyval) :
  existsb is_collection sample = false <-> ~ Exists Collection sample.
Proof.
  rewrite <- not_true_iff_false, existsb_exists, Exists_exists.
  split; intros H (y & Hy & Hc); apply H; exists y; split; auto;
    now apply is_collection_iff.
Qed.

Lemma dropna_nil_iff (series : list pyval) :
  dropna series = [] <-> Forall (fun x => isna x = true) series.
Proof.
  unfold dropna. induction series as [| x l IH]; simpl.
  - split; [constructor | reflexivity].
  - destruct (isna x) eqn:E; simpl.
    + rewrite IH. split; [now constructor | now inversion 1].
    + split; [discriminate | inversion 1; congruence].
Qed.

(** C10. A column all of whose values are null (the sample left by
    [dropna] is empty) is inferred as string; the inferrer is a total
    function, so it returns on every series. *)
Theorem infer_all_null_is_string (series : list pyval) :
  Forall (fun x => isna x = true) series ->
  dropna series = [] /\ _infer_column_type series = pa_string.
Proof.
  intro H. apply dropna_nil_iff in H. split; [exact H|].
  unfold _infer_column_type. now rewrite H.
Qed.

End Inferrer.



(** C10, on a column of [None] and NaN. *)
Lemma infer_all_null_is_string_witness :
  dropna [PNone; PFloat FNaN; PNone] = []
  /\ _infer_column_type PyLib.float_of_str [PNone; PFloat FNaN; PNone]
     = pa_string.
Proof.
  apply (infer_all_null_is_string PyLib.float_of_str
           [PNone; PFloat FNaN; PNone]).
  repeat constructor.
Defined.

End Schema.

(* ------------------------------------------------------------------ *)
(** ** The DataFrame stage of the batch writer *)

Module Frame.
Import Val Schema.

(** The pandas dtypes a column of a batch can have. *)
Inductive dtype : Type :=
| dt_object
| dt_string
| dt_bool
| dt_int32
| dt_int64
| dt_float32
| dt_float64
| dt_datetime64.

Record column : Type := {
  c_name : string;
  c_dtype : dtype;
  c_cells : list pyval
}.

(** A DataFrame: its number of rows and its columns in order. *)
Record DataFrame : Type := {
  df_len : nat;
  df_columns : list column
}.

Definition named (name : string) (c : column) : bool :=
  String.eqb (c_name c) name.

(** [name in df.columns] *)
Definition has_col (df : DataFrame) (name : string) : bool :=
  existsb (named name) (df_columns df).

(** [df[name]] *)
Definition get_col (df : DataFrame) (name : string) : option column :=
  find (named name) (df_columns df).

(** [df[name] = series]: in place when the column exists, else a new last
    column. *)
Definition set_col (df : DataFrame) (name : string) (dt : dtype)
           (cells : list pyval) : DataFrame :=
  let c := {| c_name := name; c_dtype := dt; c_cells := cells |} in
  {| df_len := df_len df;
     df_columns :=
       if has_col df name
       then map (fun c' => if named name c' then c else c') (df_columns df)
       else (df_columns df ++ [c])%list |}.

(** [df.rename(columns={old: new})] *)
Definition rename_col (df : DataFrame) (old new : string) : DataFrame :=
  {| df_len := df_len df;
     df_columns :=
       map (fun c => if named old c
                     then {| c_name := new; c_dtype := c_dtype c;
                             c_cells := c_cells c |}
                     else c) (df_columns df) |}.

(** [df[name] = scalar] *)
Definition set_scalar (df : DataFrame) (name : string) (dt : dtype)
           (v : pyval) : DataFrame :=
  set_col df name dt (repeat v (df_len df)).

(** The type of a field of [_get_delta_schema], from the name and the dtype
    of the column. *)
Definition field_type (name : string) (dt : dtype) : arrow_type :=
  if in_dec string_dec name ["processed_at"; "batch_num"]
  then pa_timestamp_us
  else if in_dec string_dec name ["summary_begin_time"; "summary_end_time"]
  then pa_timestamp_ns
  else if in_dec string_dec name ["first_seen"; "last_seen"]
  then match dt with
       | dt_object | dt_string => pa_string
       | _ => pa_timestamp_ns
       end
  else if in_dec string_dec name
            ["is_internal"; "prepared"; "plan_in_cache"; "plan_in_binding"]
  then pa_bool
  else if in_dec string_dec name ["index_names"; "backoff_types"; "auth_users"]
  then pa_string
  else match dt with
       | dt_int64 | dt_int32 => pa_int64
       | dt_float64 | dt_float32 => pa_float64
       | _ => pa_string
       end.

(** [_get_delta_schema(df)]: the fields, all nullable, in column order. *)
Definition _get_delta_schema (df : DataFrame) : list (string * arrow_type) :=
  map (fun c => (c_name c, field_type (c_name c) (c_dtype c)))
      (df_columns df).

(** The renames of [_write_batch_to_delta], lines 477-514, in order. *)
Definition rename_table : list (string * string) :=
  [ ("normalized_sql", "digest_text");
    ("sample_sql", "QUERY_SAMPLE_TEXT");
    ("prev_sql", "prev_sample_text");
    ("sample_plan", "plan");
    ("sample_binary_plan", "binary_plan");
    ("resource_group_name", "resource_group");
    ("sum_num_cop_tasks", "sum_cop_task_num");
    ("max_prewrite_region_num", "max_prewrite_regions");
    ("sum_rru", "AVG_REQUEST_UNIT_READ");
    ("sum_wru", "AVG_REQUEST_UNIT_WRITE");
    ("max_rru", "MAX_REQUEST_UNIT_READ");
    ("max_wru", "MAX_REQUEST_UNIT_WRITE");
    ("sum_ru_wait_duration", "AVG_QUEUED_RC_TIME");
    ("max_ru_wait_duration", "MAX_QUEUED_RC_TIME");
    ("max_local_latch_time", "max_local_latch_wait_time") ].

(** [avg_columns_map], in order. *)
Definition avg_columns_map : list (string * string) :=
  [ ("sum_latency", "avg_latency");
    ("sum_parse_latency", "avg_parse_latency");
    ("sum_compile_latency", "avg_compile_latency");
    ("sum_process_time", "avg_process_time");
    ("sum_wait_time", "avg_wait_time");
    ("sum_backoff_time", "avg_backoff_time");
    ("sum_total_keys", "avg_total_keys");
    ("sum_processed_keys", "avg_processed_keys");
    ("sum_prewrite_time", "avg_prewrite_time");
    ("sum_commit_time", "avg_commit_time");
    ("sum_get_commit_ts_time", "avg_get_commit_ts_time");
    ("sum_commit_backoff_time", "avg_commit_backoff_time");
    ("sum_resolve_lock_time", "avg_resolve_lock_time");
    ("sum_local_latch_time", "avg_local_latch_wait_time");
    ("sum_write_keys", "avg_write_keys");
    ("sum_write_size", "avg_write_size");
    ("sum_prewrite_region_num", "avg_prewrite_regions");
    ("sum_txn_retry", "avg_txn_retry");
    ("sum_mem", "avg_mem");
    ("sum_disk", "avg_disk");
    ("sum_affected_rows", "avg_affected_rows");
    ("sum_rocksdb_delete_skipped_count", "avg_rocksdb_delete_skipped_count");
    ("sum_rocksdb_key_skipped_count", "avg_rocksdb_key_skipped_count");
    ("sum_rocksdb_block_cache_hit_count",
     "avg_rocksdb_block_cache_hit_count");
    ("sum_rocksdb_block_read_count", "avg_rocksdb_block_read_count");
    ("sum_rocksdb_block_read_byte", "avg_rocksdb_block_read_byte");
    ("sum_kv_total", "avg_kv_time");
    ("sum_pd_total", "avg_pd_time");
    ("sum_backoff_total", "avg_backoff_total_time");
    ("sum_write_sql_resp_total", "avg_write_sql_resp_time");
    ("sum_tidb_cpu", "avg_tidb_cpu_time");
    ("sum_tikv_cpu", "avg_tikv_cpu_time");
    ("sum_result_rows", "avg_result_rows") ].

(** Division of floats as numpy does it: no exception, NaN and infinities
    instead. *)
Definition fdiv (x y : pyfloat) : pyfloat :=
  match x, y with
  | FNaN, _ | _, FNaN => FNaN
  | FInf _, FInf _ => FNaN
  | FInf s, FFin q => FInf (xorb s (Qle_bool q 0 && negb (Qeq_bool q 0)))
  | FFin _, FInf _ => FFin 0
  | FFin p, FFin q =>
      if Qeq_bool q 0
      then if Qeq_bool p 0 then FNaN else FInf (Qle_bool p 0)
      else FFin (Qred (p / q))
  end.

(** [series.replace(0, float('nan'))] on one float *)
Definition zero_to_nan (x : pyfloat) : pyfloat :=
  match x with
  | FFin q => if Qeq_bool q 0 then FNaN else x
  | _ => x
  end.

(** Python truth value of a scalar *)
Definition truthy (x : pyval) : bool :=
  match x with
  | PNone => false
  | PBool b => b
  | PInt z => negb (Z.eqb z 0)
  | PFloat (FFin q) => negb (Qeq_bool q 0)
  | PFloat _ => true
  | PStr s => negb (String.eqb s "")
  | PList l => match l with [] => false | _ => true end
  | PDict d => match d with [] => false | _ => true end
  end.

Section Stages.

(** [json.loads(s)]: [None] stands for the exception it raises. *)
Variable json_loads : string -> option pyval.
(** [float(s)] on a string, [None] for [ValueError]. *)
Variable float_of_str : string -> option pyfloat.
(** [pd.to_datetime(x, unit='s', errors='coerce')] and
    [pd.to_datetime(x, errors='coerce')] on one cell. *)
Variable to_datetime_s : pyval -> pyval.
Variable to_datetime : pyval -> pyval.
(** [datetime.now()] *)
Variable now : pyval.

(** Lines 469-474: an interval bound, converted then renamed. *)
Definition convert_bound (df : DataFrame) (name new_name : string)
  : DataFrame :=
  match get_col df name with
  | None => df
  | Some c =>
      rename_col (set_col df name dt_datetime64
                          (map to_datetime_s (c_cells c)))
                 name new_name
  end.

(** Lines 477-514: [if old in df.columns: df = df.rename(...)], in order. *)
Definition apply_renames (df : DataFrame) : DataFrame :=
  fold_left (fun d r => if has_col d (fst r)
                        then rename_col d (fst r) (snd r) else d)
            rename_table df.

(** [extract_first_user(auth_users_str)]: the body of the [try], then the
    bare [except]; [json.loads] raises [TypeError] on what is no text. *)
Definition extract_first_user (auth_users_str : pyval) : pyval :=
  if negb (isna auth_users_str) && truthy auth_users_str then
    match auth_users_str with
    | PStr s =>
        match json_loads s with
        | Some (PDict ((k, _) :: _)) => PStr k
        | _ => PNone
        end
    | _ => PNone
    end
  else PNone.

(** Lines 517-530 *)
Definition add_sample_user (df : DataFrame) : DataFrame :=
  match get_col df "auth_users" with
  | None => df
  | Some c =>
      set_col df "sample_user" dt_object (map extract_first_user (c_cells c))
  end.

(** Lines 534-537 *)
Definition convert_seen (df : DataFrame) (name : string) : DataFrame :=
  match get_col df name with
  | None => df
  | Some c => set_col df name dt_datetime64 (map to_datetime (c_cells c))
  end.

(** [float(x)] on one cell of [series.astype(float)]; [None] stands for the
    exception. *)
Definition cell_to_float (x : pyval) : option pyfloat :=
  match x with
  | PNone => Some FNaN
  | PBool b => Some (FFin (if b then 1 else 0))
  | PInt z => Some (FFin (inject_Z z))
  | PFloat f => Some f
  | PStr s => float_of_str s
  | PList _ | PDict _ => None
  end.

(** [series.astype(float)] *)
Fixpoint astype_float (cells : list pyval) : Py.exn + list pyfloat :=
  match cells with
  | [] => inr []
  | x :: rest =>
      match cell_to_float x with
      | None => inl "could not convert to float"
      | Some f =>
          match astype_float rest with
          | inl e => inl e
          | inr fs => inr (f :: fs)
          end
      end
  end.

(** [a / b] on two series with the same index *)
Definition series_div (a b : list pyfloat) : list pyval :=
  map (fun p => PFloat (fdiv (fst p) (snd p))) (combine a b).

(** The loop over [avg_columns_map]; [exec_count] is the denominator
    computed before the loop. *)
Fixpoint derive_loop (exec_count : list pyfloat) (df : DataFrame)
         (pairs : list (string * string)) : Py.exn + DataFrame :=
  match pairs with
  | [] => inr df
  | (sum_col, avg_col) :: rest =>
      match get_col df sum_col with
      | None => derive_loop exec_count df rest
      | Some c =>
          match astype_float (c_cells c) with
          | inl e => inl e
          | inr sums =>
              derive_loop exec_count
                (set_col df avg_col dt_float64 (series_div sums exec_count))
                rest
          end
      end
  end.

(** Lines 541-581 *)
Definition derive_avg_columns (df : DataFrame) : Py.exn + DataFrame :=
  match get_col df "exec_count" with
  | None => inr df
  | Some c =>
      match astype_float (c_cells c) with
      | inl e => inl e
      | inr counts => derive_loop (map zero_to_nan counts) df avg_columns_map
      end
  end.

(** Lines 584-585 *)
Definition add_bookkeeping (df : DataFrame) (batch_num : nat) : DataFrame :=
  set_scalar (set_scalar df "processed_at" dt_datetime64 now)
             "batch_num" dt_int64 (PInt (Z.of_nat batch_num)).

(** Lines 467-588 of [_write_batch_to_delta]: from the DataFrame built from
    the records to the frame written and its schema. *)
Definition frame_and_schema (df : DataFrame) (batch_num : nat)
  : Py.exn + (DataFrame * list (string * arrow_type)) :=
  let df := convert_bound df "begin" "summary_begin_time" in
  let df := convert_bound df "end" "summary_end_time" in
  let df := apply_renames df in
  let df := add_sample_user df in
  let df := convert_seen df "first_seen" in
  let df := convert_seen df "last_seen" in
  match derive_avg_columns df with
  | inl e => inl e
  | inr df =>
      let df := add_bookkeeping df batch_num in
      inr (df, _get_delta_schema df)
  end.

(* ------------------------------------------------------------------ *)
(** *** Concrete batches *)

(** The examples hold no date column; a cell that is no date is coerced to
    NaT. *)
Definition no_date (x : pyval) : pyval := PNone.

(** 2026-01-01T00:00:00, in nanoseconds since the epoch. *)
Definition a_moment : pyval := PInt 1767225600000000000.

(** Two statements, the first one never executed. *)
Definition latency_frame : DataFrame :=
  {| df_len := 2;
     df_columns :=
       [ {| c_name := "exec_count"; c_dtype := dt_int64;
            c_cells := [PInt 0; PInt 5] |};
         {| c_name := "sum_latency"; c_dtype := dt_int64;
            c_cells := [PInt 500; PInt 500] |} ] |}.

(** The blobs of an [auth_users] column: an object with the key "root" as
    [json.dumps] writes it, the same without the space, the empty object, a
    null, and a text that is no JSON. *)
Definition root_blob : string :=
  "{" ++ PyLib.dq ++ "root" ++ PyLib.dq ++ ": {}}".

Definition compact_root_blob : string :=
  "{" ++ PyLib.dq ++ "root" ++ PyLib.dq ++ ":{}}".

Definition users_frame : DataFrame :=
  {| df_len := 5;
     df_columns :=
       [ {| c_name := "auth_users"; c_dtype := dt_object;
            c_cells := [PStr root_blob; PStr compact_root_blob; PStr "{}";
                        PNone; PStr "root"] |} ] |}.

(** *** Properties of the DataFrame stage *)

Lemma has_col_iff (df : DataFrame) (name : string) :
  has_col df name = true <->
  exists c, In c (df_columns df) /\ c_name c = name.
Proof.
  unfold has_col. rewrite existsb_exists.
  split; intros (c & Hin & Hn); exists c; split; auto;
    unfold named in *; now apply String.eqb_eq.
Qed.

Lemma get_col_has (df : DataFrame) (name : string) :
  has_col df name =
  match get_col df name with Some _ => true | None => false end.
Proof.
  unfold has_col, get_col. induction (df_columns df) as [| c l IH]; simpl.
  - reflexivity.
  - destruct (named name c); [reflexivity | exact IH].
Qed.

Lemma get_col_name (df : DataFrame) (name : string) (c : column) :
  get_col df name = Some c -> c_name c = name /\ In c (df_columns df).
Proof.
  unfold get_col. intro H. apply find_some in H. destruct H as [Hin Hn].
  split; [now apply String.eqb_eq | exact Hin].
Qed.

Lemma in_set_col (df : DataFrame) (name : string) (dt : dtype)
      (cells : list pyval) (c : column) :
  In c (df_columns (set_col df name dt cells)) ->
  c = {| c_name := name; c_dtype := dt; c_cells := cells |} \/
  (In c (df_columns df) /\ c_name c <> name).
Proof.
  unfold set_col. simpl. destruct (has_col df name) eqn:E.
  - rewrite in_map_iff. intros (c' & Heq & Hin).
    unfold named in Heq. destruct (String.eqb_spec (c_name c') name).
    + left. now symmetry.
    + right. subst c'. auto.
  - rewrite in_app_iff. intros [Hin | [Heq | []]].
    + right. split; [exact Hin|]. intro Hn.
      assert (has_col df name = true)
        by (apply has_col_iff; now exists c).
      congruence.
    + left. now symmetry.
Qed.

Lemma has_set_col (df : DataFrame) (name : string) (dt : dtype)
      (cells : list pyval) :
  In {| c_name := name; c_dtype := dt; c_cells := cells |}
     (df_columns (set_col df name dt cells)).
Proof.
  unfold set_col. simpl. destruct (has_col df name) eqn:E.
  - apply has_col_iff in E. destruct E as (c & Hin & Hn).
    apply in_map_iff. exists c. split; [| exact Hin].
    unfold named. rewrite Hn, String.eqb_refl. reflexivity.
  - apply in_app_iff. right. now left.
Qed.

Lemma in_schema (df : DataFrame) (name : string) (ty : arrow_type) :
  In (name, ty) (_get_delta_schema df) <->
  exists c, In c (df_columns df) /\ c_name c = name /\
            ty = field_type name (c_dtype c).
Proof.
  unfold _get_delta_schema. rewrite in_map_iff. split.
  - intros (c & Heq & Hin). injection Heq as <- <-. now exists c.
  - intros (c & Hin & <- & ->). now exists c.
Qed.

Lemma in_add_bookkeeping (df : DataFrame) (n : nat) (c : column) :
  In c (df_columns (add_bookkeeping df n)) ->
  c = {| c_name := "batch_num"; c_dtype := dt_int64;
         c_cells := repeat (PInt (Z.of_nat n)) (df_len df) |} \/
  c = {| c_name := "processed_at"; c_dtype := dt_datetime64;
         c_cells := repeat now (df_len df) |} \/
  (In c (df_columns df) /\ c_name c <> "batch_num"
   /\ c_name c <> "processed_at").
Proof.
  unfold add_bookkeeping, set_scalar. intro H.
  apply in_set_col in H. destruct H as [H | [H Hn]]; [now left|].
  apply in_set_col in H. destruct H as [H | [H Hn']]; [right; now left|].
  right. right. auto.
Qed.

Lemma in_convert_seen (df : DataFrame) (name : string) (c : column) :
  In c (df_columns (convert_seen df name)) ->
  (c_name c = name /\ c_dtype c = dt_datetime64) \/
  (In c (df_columns df) /\ c_name c <> name).
Proof.
  unfold convert_seen. destruct (get_col df name) as [c0 |] eqn:E.
  - intro H. apply in_set_col in H. destruct H as [-> | H]; [left | right];
      auto.
  - intro H. right. split; [exact H|]. intro Hn.
    assert (Hh : has_col df name = true) by (apply has_col_iff; now exists c).
    rewrite get_col_has, E in Hh. discriminate.
Qed.

(** The derivation loop only adds or replaces columns named in the second
    component of the pairs. *)
Lemma in_derive_loop (counts : list pyfloat) (pairs : list (string * string))
      (df df' : DataFrame) (c : column) :
  derive_loop counts df pairs = inr df' ->
  In c (df_columns df') ->
  In c (df_columns df) \/ In (c_name c) (map snd pairs).
Proof.
  revert df. induction pairs as [| [sum_col avg_col] rest IH]; intros df H Hin.
  - injection H as <-. now left.
  - simpl in H. destruct (get_col df sum_col) as [sc |].
    + destruct (astype_float (c_cells sc)) as [e | sums]; [discriminate|].
      destruct (IH _ H Hin) as [H' | H']; [| right; now right].
      apply in_set_col in H'. destruct H' as [-> | [H' _]];
        [right; now left | now left].
    + destruct (IH _ H Hin) as [H' | H']; [now left | right; now right].
Qed.

Lemma in_derive_avg_columns (df df' : DataFrame) (c : column) :
  derive_avg_columns df = inr df' ->
  In c (df_columns df') ->
  In c (df_columns df) \/ In (c_name c) (map snd avg_columns_map).
Proof.
  unfold derive_avg_columns. destruct (get_col df "exec_count") as [ec |].
  - destruct (astype_float (c_cells ec)) as [e | counts]; [discriminate|].
    apply in_derive_loop.
  - intros H. injection H as <-. now left.
Qed.

Lemma derive_loop_len (counts : list pyfloat) (pairs : list (string * string))
      (df df' : DataFrame) :
  derive_loop counts df pairs = inr df' -> df_len df' = df_len df.
Proof.
  revert df. induction pairs as [| [sum_col avg_col] rest IH]; intros df H.
  - now injection H as <-.
  - simpl in H. destruct (get_col df sum_col) as [sc |]; [| now apply IH].
    destruct (astype_float (c_cells sc)) as [e | sums]; [discriminate|].
    now rewrite (IH _ H).
Qed.

(** C8 (amended). Bookkeeping columns of a written batch: [batch_num] is in
    the schema of every batch and is declared a microsecond UTC timestamp,
    like [processed_at], although the column holds the integer batch number
    (dtype int64); [summary_begin_time], [summary_end_time], [first_seen] and
    [last_seen], when present, are nanosecond UTC timestamps. *)
Theorem bookkeeping_column_types (df df' : DataFrame) (batch_num : nat)
        (schema : list (string * arrow_type)) :
  frame_and_schema df batch_num = inr (df', schema) ->
  schema = _get_delta_schema df'
  /\ In ("batch_num", pa_timestamp_us) schema
  /\ In ("processed_at", pa_timestamp_us) schema
  /\ (forall c, In c (df_columns df') -> c_name c = "batch_num" ->
        c_dtype c = dt_int64 /\
        Forall (eq (PInt (Z.of_nat batch_num))) (c_cells c))
  /\ (forall name ty,
        In (name, ty) schema ->
        (In name ["batch_num"; "processed_at"] -> ty = pa_timestamp_us) /\
        (In name ["summary_begin_time"; "summary_end_time";
                  "first_seen"; "last_seen"] -> ty = pa_timestamp_ns)).
Proof.
  unfold frame_and_schema.
  set (d4 := add_sample_user _).
  destruct (derive_avg_columns (convert_seen (convert_seen d4 "first_seen")
                                             "last_seen")) as [e | d7] eqn:E;
    [discriminate|].
  intro H. injection H as <- <-.
  split; [reflexivity|]. split; [| split; [| split]].
  - apply in_schema. eexists. split; [apply has_set_col | now split].
  - apply in_schema.
    exists {| c_name := "processed_at"; c_dtype := dt_datetime64;
              c_cells := repeat now (df_len d7) |}.
    split; [| now split].
    unfold add_bookkeeping, set_scalar.
    set (d8 := set_col d7 _ _ _).
    assert (Hin : In {| c_name := "processed_at"; c_dtype := dt_datetime64;
                        c_cells := repeat now (df_len d7) |}
                     (df_columns d8)) by apply has_set_col.
    unfold set_col. simpl. destruct (has_col d8 "batch_num").
    + apply in_map_iff. eexists. split; [| exact Hin]. reflexivity.
    + apply in_app_iff. now left.
  - intros c Hin Hn. apply in_add_bookkeeping in Hin.
    destruct Hin as [-> | [-> | (_ & Hne & _)]]; simpl in *;
      [| discriminate | congruence].
    split; [reflexivity|]. apply Forall_forall.
    intros x Hx. symmetry. exact (repeat_spec _ _ _ Hx).
  - intros name ty Hin. apply in_schema in Hin.
    destruct Hin as (c & Hin & Hn & ->). split.
    + intros [<- | [<- | []]]; reflexivity.
    + intros Hname.
      destruct Hname as [<- | [<- | Hseen]]; [reflexivity | reflexivity |].
      assert (Hdt : c_dtype c = dt_datetime64).
      { apply in_add_bookkeeping in Hin.
        destruct Hin as [-> | [-> | (Hin & _ & _)]];
          [simpl in Hn; subst name;
           destruct Hseen as [H | [H | []]]; discriminate H
          | reflexivity |].
        destruct (in_derive_avg_columns _ _ _ E Hin) as [Hin' | Havg].
        - apply in_convert_seen in Hin'.
          destruct Hin' as [[_ Hd] | [Hin' Hl]]; [exact Hd|].
          apply in_convert_seen in Hin'.
          destruct Hin' as [[_ Hd] | [_ Hf]]; [exact Hd|].
          exfalso. destruct Hseen as [H | [H | []]]; congruence.
        - exfalso. rewrite Hn in Havg.
          destruct Hseen as [<- | [<- | []]]; simpl in Havg;
            repeat (destruct Havg as [Havg | Havg];
                    [discriminate Havg|]); exact Havg. }
      rewrite Hdt.
      destruct Hseen as [<- | [<- | []]]; reflexivity.
Qed.

Lemma find_replaced (name : string) (c : column) (cols : list column) :
  named name c = true ->
  existsb (named name) cols = true ->
  find (named name) (map (fun c' => if named name c' then c else c') cols)
  = Some c.
Proof.
  intros Hc. induction cols as [| c' l IH]; simpl; [discriminate|].
  destruct (named name c') eqn:E; simpl.
  - now rewrite Hc.
  - rewrite E. exact IH.
Qed.

Lemma find_appended (name : string) (c : column) (cols : list column) :
  named name c = true ->
  existsb (named name) cols = false ->
  find (named name) (cols ++ [c]) = Some c.
Proof.
  intros Hc. induction cols as [| c' l IH]; simpl.
  - now rewrite Hc.
  - destruct (named name c'); simpl; [discriminate | exact IH].
Qed.

Lemma find_replaced_other (name name' : string) (c : column)
      (cols : list column) :
  named name' c = false -> name' <> name ->
  find (named name') (map (fun c' => if named name c' then c else c') cols)
  = find (named name') cols.
Proof.
  intros Hc Hne. induction cols as [| c' l IH]; simpl; [reflexivity|].
  destruct (named name c') eqn:E.
  - rewrite Hc. unfold named in E. apply String.eqb_eq in E.
    assert (E' : named name' c' = false).
    { unfold named. apply String.eqb_neq. congruence. }
    rewrite E'. exact IH.
  - destruct (named name' c'); [reflexivity | exact IH].
Qed.

Lemma find_appended_other (name' : string) (c : column)
      (cols : list column) :
  named name' c = false ->
  find (named name') (cols ++ [c]) = find (named name') cols.
Proof.
  intros Hc. induction cols as [| c' l IH]; simpl.
  - now rewrite Hc.
  - destruct (named name' c'); [reflexivity | exact IH].
Qed.

Lemma get_set_col_same (df : DataFrame) (name : string) (dt : dtype)
      (cells : list pyval) :
  get_col (set_col df name dt cells) name =
  Some {| c_name := name; c_dtype := dt; c_cells := cells |}.
Proof.
  unfold get_col, set_col, has_col. simpl.
  destruct (existsb (named name) (df_columns df)) eqn:E.
  - apply find_replaced; [apply String.eqb_refl | exact E].
  - apply find_appended; [apply String.eqb_refl | exact E].
Qed.

Lemma get_set_col_other (df : DataFrame) (name name' : string) (dt : dtype)
      (cells : list pyval) :
  name' <> name ->
  get_col (set_col df name dt cells) name' = get_col df name'.
Proof.
  intro Hne. unfold get_col, set_col. simpl.
  assert (Hc : named name' {| c_name := name; c_dtype := dt;
                              c_cells := cells |} = false).
  { unfold named. simpl. apply String.eqb_neq. congruence. }
  destruct (has_col df name).
  - now apply find_replaced_other.
  - now apply find_appended_other.
Qed.

(** What [extract_first_user] answers, case by case. *)
Lemma extract_first_user_cases (blob : pyval) :
  (forall s k v rest,
      blob = PStr s -> s <> "" ->
      json_loads s = Some (PDict ((k, v) :: rest)) ->
      extract_first_user blob = PStr k)
  /\ (isna blob = true -> extract_first_user blob = PNone)
  /\ (blob = PStr "" -> extract_first_user blob = PNone)
  /\ (forall s, blob = PStr s -> json_loads s = None ->
       extract_first_user blob = PNone)
  /\ (forall s, blob = PStr s -> json_loads s = Some (PDict []) ->
       extract_first_user blob = PNone)
  /\ (forall s v, blob = PStr s -> json_loads s = Some v ->
       is_dict v = false -> extract_first_user blob = PNone)
  /\ ((forall s, blob <> PStr s) -> extract_first_user blob = PNone).
Proof.
  unfold extract_first_user. repeat split.
  - intros s k v rest -> Hne Hl. simpl. rewrite Hl.
    apply String.eqb_neq in Hne. now rewrite Hne.
  - now intros ->.
  - now intros ->.
  - intros s -> Hl. rewrite Hl. now destruct (_ && _).
  - intros s -> Hl. rewrite Hl. now destruct (_ && _).
  - intros s v -> Hl Hd. rewrite Hl. destruct (_ && _); [| reflexivity].
    destruct v as [| | | | | | [| [k x] d]]; try reflexivity; discriminate.
  - intros Hns. destruct blob; try (now destruct (_ && _)).
    now destruct (Hns s).
Qed.

(** C7. Sample-user extraction: when the frame has an [auth_users] column,
    the [sample_user] column holds, row by row, the first key of the object
    the blob parses to, and null when the cell is null, the blob is empty,
    does not parse, or parses to an empty object or to no object; the
    extraction is a total function and raises nothing.  So a blob that parses
    to the object with the single key "root" gives "root" and a blob that
    parses to the empty object gives null. *)
Theorem sample_user_extraction (df : DataFrame) (c : column) :
  get_col df "auth_users" = Some c ->
  exists su,
    get_col (add_sample_user df) "sample_user" = Some su
    /\ List.length (c_cells su) = List.length (c_cells c)
    /\ (forall i blob,
          nth_error (c_cells c) i = Some blob ->
          exists user,
            nth_error (c_cells su) i = Some user
            /\ (forall s k v rest,
                  blob = PStr s -> s <> "" ->
                  json_loads s = Some (PDict ((k, v) :: rest)) ->
                  user = PStr k)
            /\ (isna blob = true -> user = PNone)
            /\ (blob = PStr "" -> user = PNone)
            /\ (forall s, blob = PStr s -> json_loads s = None ->
                 user = PNone)
            /\ (forall s, blob = PStr s -> json_loads s = Some (PDict []) ->
                 user = PNone)
            /\ (forall s v, blob = PStr s -> json_loads s = Some v ->
                 is_dict v = false -> user = PNone)
            /\ ((forall s, blob <> PStr s) -> user = PNone)).
Proof.
  intro Hc. unfold add_sample_user. rewrite Hc.
  eexists. split; [apply get_set_col_same|]. simpl.
  split; [apply length_map|].
  intros i blob Hi. exists (extract_first_user blob).
  split; [now apply map_nth_error|].
  apply extract_first_user_cases.
Qed.

Lemma astype_float_nth (cells : list pyval) (fs : list pyfloat) (i : nat)
      (x : pyval) :
  astype_float cells = inr fs -> nth_error cells i = Some x ->
  exists f, cell_to_float x = Some f /\ nth_error fs i = Some f.
Proof.
  revert fs i. induction cells as [| y l IH]; intros fs i H Hi.
  - now destruct i.
  - simpl in H. destruct (cell_to_float y) as [f |] eqn:Ey; [| discriminate].
    destruct (astype_float l) as [e | fs'] eqn:El; [discriminate|].
    injection H as <-. destruct i as [| i]; simpl in *.
    + injection Hi as <-. now exists f.
    + now apply IH.
Qed.

Lemma astype_float_total (cells : list pyval) :
  Forall (fun x => cell_to_float x <> None) cells ->
  exists fs, astype_float cells = inr fs.
Proof.
  induction 1 as [| x l Hx _ IH]; simpl.
  - now exists [].
  - destruct (cell_to_float x) as [f |]; [| congruence].
    destruct IH as [fs ->]. now exists (f :: fs).
Qed.

Lemma series_div_nth (a b : list pyfloat) (i : nat) (x y : pyfloat) :
  nth_error a i = Some x -> nth_error b i = Some y ->
  nth_error (series_div a b) i = Some (PFloat (fdiv x y)).
Proof.
  unfold series_div. revert b i.
  induction a as [| x' a IH]; intros b i Ha Hb; [now destruct i|].
  destruct b as [| y' b]; [now destruct i|].
  destruct i as [| i]; simpl in *.
  - now injection Ha as ->; injection Hb as ->.
  - now apply IH.
Qed.

Lemma series_div_floats (a b : list pyfloat) :
  Forall (fun x => cell_to_float x <> None) (series_div a b).
Proof.
  unfold series_div. apply Forall_forall. intros x Hx.
  apply in_map_iff in Hx. destruct Hx as (p & <- & _). discriminate.
Qed.

(** What the loop over [avg_columns_map] leaves in the frame. *)
Lemma derive_loop_spec (counts : list pyfloat)
      (pairs : list (string * string)) (df df' : DataFrame) :
  NoDup (map snd pairs) ->
  (forall a, In a (map snd pairs) -> ~ In a (map fst pairs)) ->
  derive_loop counts df pairs = inr df' ->
  (forall name, ~ In name (map snd pairs) ->
                get_col df' name = get_col df name)
  /\
  (forall sum_col avg_col,
      In (sum_col, avg_col) pairs ->
      match get_col df sum_col with
      | None => get_col df' avg_col = get_col df avg_col
      | Some sc =>
          exists sums,
            astype_float (c_cells sc) = inr sums /\
            get_col df' avg_col =
            Some {| c_name := avg_col; c_dtype := dt_float64;
                    c_cells := series_div sums counts |}
      end).
Proof using float_of_str.
  revert df. induction pairs as [| [s0 a0] rest IH]; intros df Hnd Hdis H.
  - injection H as <-. split; [reflexivity | intros ? ? []].
  - simpl in Hnd. inversion Hnd as [| ? ? Ha0 Hnd']; subst.
    assert (Hdis' : forall a, In a (map snd rest) -> ~ In a (map fst rest)).
    { intros a Ha Hf. apply (Hdis a); simpl; auto. }
    assert (Hs_a0 : forall s a, In (s, a) rest -> s <> a0 /\ a <> a0).
    { intros s a Hin. split; intros ->.
      - apply (Hdis a0); simpl; [now left | right].
        apply in_map_iff. now exists (a0, a).
      - apply Ha0. apply in_map_iff. now exists (s, a0). }
    simpl in H. destruct (get_col df s0) as [sc |] eqn:Es.
    + destruct (astype_float (c_cells sc)) as [e | sums] eqn:Ea;
        [discriminate|].
      destruct (IH _ Hnd' Hdis' H) as [IH1 IH2]. split.
      * intros name Hn.
        rewrite IH1 by (intro Hx; apply Hn; right; exact Hx).
        apply get_set_col_other. intro Heq. apply Hn. left.
        symmetry. exact Heq.
      * intros s a [Heq | Hin].
        -- injection Heq as <- <-. rewrite Es. exists sums.
           split; [exact Ea|]. rewrite IH1 by exact Ha0.
           apply get_set_col_same.
        -- destruct (Hs_a0 s a Hin) as [Hs Ha].
           specialize (IH2 s a Hin).
           rewrite get_set_col_other in IH2 by exact Hs.
           destruct (get_col df s); [exact IH2|].
           rewrite IH2. now apply get_set_col_other.
    + destruct (IH _ Hnd' Hdis' H) as [IH1 IH2]. split.
      * intros name Hn. apply IH1. intro Hx. apply Hn. right. exact Hx.
      * intros s a [Heq | Hin].
        -- injection Heq as <- <-. rewrite Es. now apply IH1.
        -- exact (IH2 s a Hin).
Qed.

Lemma derive_loop_total (counts : list pyfloat)
      (pairs : list (string * string)) (df : DataFrame) :
  (forall c, In c (df_columns df) ->
             Forall (fun x => cell_to_float x <> None) (c_cells c)) ->
  exists df', derive_loop counts df pairs = inr df'.
Proof.
  revert df. induction pairs as [| [s0 a0] rest IH]; intros df Hnum.
  - now exists df.
  - simpl. destruct (get_col df s0) as [sc |] eqn:Es; [| now apply IH].
    destruct (astype_float_total (c_cells sc)) as [sums ->].
    + apply Hnum. now apply (get_col_name df s0).
    + apply IH. intros c Hin. apply in_set_col in Hin.
      destruct Hin as [-> | [Hin _]]; [apply series_div_floats | now apply Hnum].
Qed.

Lemma avg_names_distinct : NoDup (map snd avg_columns_map).
Proof.
  apply (NoDup_count_occ' string_dec). intros x Hx.
  simpl in Hx.
  repeat (destruct Hx as [<- | Hx]; [reflexivity|]). destruct Hx.
Qed.

Lemma avg_names_no_sum (a : string) :
  In a (map snd avg_columns_map) -> ~ In a (map fst avg_columns_map).
Proof.
  intro Ha. simpl in Ha.
  repeat (destruct Ha as [<- | Ha];
          [simpl; intro H;
           repeat (destruct H as [H | H]; [discriminate H|]); exact H|]).
  destruct Ha.
Qed.

Lemma fdiv_zero_count (s : pyfloat) (q : Q) :
  (q == 0)%Q -> fdiv s (zero_to_nan (FFin q)) = FNaN.
Proof.
  intro Hq. simpl. apply Qeq_bool_iff in Hq. rewrite Hq.
  now destruct s.
Qed.

Lemma fdiv_nonzero_count (p q : Q) :
  ~ (q == 0)%Q ->
  fdiv (FFin p) (zero_to_nan (FFin q)) = FFin (Qred (p / q)).
Proof.
  intro Hq. simpl.
  destruct (Qeq_bool q 0) eqn:E;
    [exfalso; apply Hq; now apply Qeq_bool_iff|].
  simpl. now rewrite E.
Qed.


End Stages.

(* ------------------------------------------------------------------ *)
(** *** Concrete batches: the examples *)


(** C7, on five rows: "root" for the two blobs with that key, null for the
    others. *)
Lemma sample_user_extraction_witness :
  exists su,
    get_col (add_sample_user PyLib.json_loads users_frame) "sample_user"
    = Some su
    /\ c_cells su = [PStr "root"; PStr "root"; PNone; PNone; PNone].
Proof.
  destruct (sample_user_extraction PyLib.json_loads users_frame
              {| c_name := "auth_users"; c_dtype := dt_object;
                 c_cells := [PStr root_blob; PStr compact_root_blob;
                             PStr "{}"; PNone; PStr "root"] |}
              eq_refl) as (su & Hget & _).
  exists su. split; [exact Hget|].
  assert (H : Some su = Some {| c_name := "sample_user";
                                c_dtype := dt_object;
                                c_cells := [PStr "root"; PStr "root"; PNone;
                                            PNone; PNone] |})
    by (rewrite <- Hget; reflexivity).
  injection H as ->. reflexivity.
Defined.

(** C8: the claim as stated.  In the schema of a written batch [batch_num]
    is a microsecond timestamp, no integer, although the column holds the
    integer 3. *)
Lemma batch_num_integer_counterexample :
  match frame_and_schema PyLib.json_loads PyLib.float_of_str
                         no_date no_date a_moment latency_frame 3 with
  | inr (df', schema) =>
      (Val.dict_get schema "batch_num",
       option_map c_dtype (get_col df' "batch_num"),
       option_map c_cells (get_col df' "batch_num"))
  | inl _ => (None, None, None)
  end
  = (Some pa_timestamp_us, Some dt_int64, Some [PInt 3; PInt 3]).
Proof. vm_compute. reflexivity. Qed.

(** C8 (amended), on the same batch. *)
Lemma bookkeeping_column_types_witness :
  In ("batch_num", pa_timestamp_us)
     (_get_delta_schema
        (add_bookkeeping a_moment
           (set_col latency_frame "avg_latency" dt_float64
                    [PFloat FNaN; PFloat (FFin 100)]) 3))
  /\
  In ("processed_at", pa_timestamp_us)
     (_get_delta_schema
        (add_bookkeeping a_moment
           (set_col latency_frame "avg_latency" dt_float64
                    [PFloat FNaN; PFloat (FFin 100)]) 3)).
Proof.
  assert (E : frame_and_schema PyLib.json_loads PyLib.float_of_str
                no_date no_date a_moment latency_frame 3 =
              inr (add_bookkeeping a_moment
                     (set_col latency_frame "avg_latency" dt_float64
                              [PFloat FNaN; PFloat (FFin 100)]) 3,
                   _get_delta_schema
                     (add_bookkeeping a_moment
                        (set_col latency_frame "avg_latency" dt_float64
                                 [PFloat FNaN; PFloat (FFin 100)]) 3)))
    by (vm_compute; reflexivity).
  destruct (bookkeeping_column_types PyLib.json_loads PyLib.float_of_str
              no_date no_date a_moment latency_frame _ 3 _ E)
    as (_ & H1 & H2 & _).
  split; [exact H1 | exact H2].
Defined.

End Frame.

(* ------------------------------------------------------------------ *)
(** ** Record normalizer *)

Module Normalizer.
Import Val.

(** The fields kept as JSON text. *)
Definition allow_list : list string :=
  ["auth_users"; "backoff_types"; "index_names"].

Definition allow_listed (k : string) : bool :=
  existsb (String.eqb k) allow_list.

(** [f"{parent_key}{sep}{k}" if parent_key else k], with [sep='.'] *)
Definition new_key (parent_key k : string) : string :=
  match parent_key with
  | EmptyString => k
  | _ => parent_key ++ "." ++ k
  end.

(** [_flatten_dict(d, parent_key)] *)
Fixpoint _flatten_dict (d : pyval) (parent_key : string)
  : list (string * pyval) :=
  match d with
  | PDict items =>
      dict_of_items
        ((fix extend (l : list (string * pyval)) : list (string * pyval) :=
            match l with
            | [] => []
            | (k, v) :: rest =>
                (match v with
                 | PDict _ => _flatten_dict v (new_key parent_key k)
                 | _ => [(new_key parent_key k, v)]
                 end ++ extend rest)%list
            end) items)
  | _ => [("value", d)]
  end.

(** What one item of a dict adds to [items] in [_flatten_dict]. *)
Definition item_contrib (parent_key : string) (kv : string * pyval)
  : list (string * pyval) :=
  match snd kv with
  | PDict _ => _flatten_dict (snd kv) (new_key parent_key (fst kv))
  | v => [(new_key parent_key (fst kv), v)]
  end.

Definition has_dot (s : string) : bool :=
  existsb (Ascii.eqb ".") (list_ascii_of_string s).

Section WithJson.

(** [json.loads(s)], [None] for the exception, and
    [json.dumps(v, ensure_ascii=False, default=str)]. *)
Variable json_loads : string -> option pyval.
Variable json_dumps : pyval -> string.

(** [_parse_record(record)]; [None] stands for the [TypeError] raised by
    ['message' in record] or [record['message']] on what is no dict. *)
Definition _parse_record (record : pyval) : option pyval :=
  match record with
  | PDict d =>
      match dict_get d "message" with
      | Some (PStr m) =>
          match json_loads m with
          | Some message_data => Some message_data
          | None => Some record
          end
      | _ => Some record
      end
  | PStr s => if Py.contains "message" s then None else Some record
  | PList l =>
      if existsb (fun x => match x with
                           | PStr t => String.eqb t "message"
                           | _ => false
                           end) l
      then None else Some record
  | _ => None
  end.

(** The value [_preprocess_complex_fields] stores for an allow-listed
    object. *)
Definition stringified (v : pyval) : pyval :=
  if truthy_dict v then PStr (json_dumps v) else PNone.

(** The body of the loop of [_preprocess_complex_fields] *)
Definition preprocess_item (kv : string * pyval) : string * pyval :=
  if allow_listed (fst kv) && is_dict (snd kv)
  then (fst kv, stringified (snd kv))
  else kv.

(** [_preprocess_complex_fields(d)] *)
Definition _preprocess_complex_fields (d : pyval) : pyval :=
  match d with
  | PDict items => PDict (dict_of_items (map preprocess_item items))
  | _ => d
  end.

(** Lines 268-269: an entry of the log, preprocessed then flattened. *)
Definition normalize (parsed : pyval) : list (string * pyval) :=
  _flatten_dict (_preprocess_complex_fields parsed) "".

(** Lines 266-270, for one item of a line. *)
Definition flat_record (item : pyval) : option (list (string * pyval)) :=
  match _parse_record item with
  | Some parsed => Some (normalize parsed)
  | None => None
  end.

(** The exception in the words of the specification: a field with an
    allow-listed name and an object as value is kept as JSON text wherever it
    stands in the record. *)
Fixpoint spec_preprocess (v : pyval) : pyval :=
  match v with
  | PDict items =>
      PDict ((fix each (l : list (string * pyval)) : list (string * pyval) :=
                match l with
                | [] => []
                | (k, x) :: rest =>
                    (if allow_listed k && is_dict x
                     then (k, stringified x)
                     else (k, spec_preprocess x)) :: each rest
                end) items)
  | _ => v
  end.

Definition spec_normalize (parsed : pyval) : list (string * pyval) :=
  _flatten_dict (spec_preprocess parsed) "".

(** *** Properties of the normalizer *)

Lemma append_assoc (a b c : string) : (a ++ b) ++ c = a ++ (b ++ c).
Proof. induction a as [| x a IH]; simpl; [reflexivity | now rewrite IH]. Qed.

Lemma has_dot_app (a b : string) : has_dot (a ++ "." ++ b) = true.
Proof.
  unfold has_dot. induction a as [| x a IH]; simpl in *; [reflexivity|].
  rewrite IH. apply orb_true_r.
Qed.

Lemma allow_listed_no_dot (k : string) :
  allow_listed k = true -> has_dot k = false.
Proof.
  unfold allow_listed, allow_list. simpl.
  rewrite !orb_true_iff, !String.eqb_eq.
  intros [-> | [-> | [-> | H]]]; try reflexivity. discriminate.
Qed.

Lemma new_key_nonempty (parent k : string) :
  parent <> "" -> new_key parent k = parent ++ "." ++ k.
Proof. destruct parent; [congruence | reflexivity]. Qed.

Lemma flatten_dict_eq (items : list (string * pyval)) (parent : string) :
  _flatten_dict (PDict items) parent =
  dict_of_items (flat_map (item_contrib parent) items).
Proof.
  simpl. f_equal. induction items as [| [k v] items IH]; simpl;
    [reflexivity|].
  rewrite IH. unfold item_contrib. simpl. now destruct v.
Qed.

Lemma in_keys_flat_map (parent key : string) (items : list (string * pyval)) :
  In key (map fst (flat_map (item_contrib parent) items)) ->
  exists kv, In kv items /\ In key (map fst (item_contrib parent kv)).
Proof.
  rewrite in_map_iff. intros ([key' x] & Heq & Hin). simpl in Heq. subst key'.
  apply in_flat_map in Hin. destruct Hin as (kv & Hkv & Hin).
  exists kv. split; [exact Hkv|]. apply in_map_iff. now exists (key, x).
Qed.

(** Under a non-empty parent key, the keys of a flattened dict all start
    with the parent key and a dot. *)
Lemma flatten_keys_prefixed (v : pyval) :
  forall parent key,
    parent <> "" -> is_dict v = true ->
    In key (map fst (_flatten_dict v parent)) ->
    exists rest, key = parent ++ "." ++ rest.
Proof.
  induction v as [| | | | | | items IH] using pyval_induction;
    intros parent key Hp Hd Hin; try discriminate.
  rewrite flatten_dict_eq in Hin. apply keys_dict_of_items in Hin.
  apply in_keys_flat_map in Hin. destruct Hin as ([k x] & Hkv & Hin).
  rewrite Forall_forall in IH. specialize (IH _ Hkv). simpl in IH.
  unfold item_contrib in Hin. simpl in Hin.
  rewrite (new_key_nonempty parent k Hp) in Hin.
  assert (Hleaf : In key (map fst [(parent ++ "." ++ k, x)]) ->
                  exists rest, key = parent ++ "." ++ rest).
  { intros [<- | []]. now exists k. }
  destruct x; try (exact (Hleaf Hin)).
  destruct (IH (parent ++ "." ++ k) key) as [rest ->];
    [now destruct parent | reflexivity | exact Hin |].
  exists (k ++ "." ++ rest).
  now rewrite !append_assoc.
Qed.

(** A top-level field with a non-empty name other than [k] adds no item
    with the key [k], when [k] has no dot. *)
Lemma item_contrib_other_key (k : string) (kv : string * pyval) :
  has_dot k = false -> fst kv <> "" -> fst kv <> k ->
  ~ In k (map fst (item_contrib "" kv)).
Proof.
  intros Hdot Hne Hk Hin. destruct kv as [k' v]. simpl in *.
  unfold item_contrib in Hin. simpl in Hin.
  assert (Hleaf : ~ In k (map fst [(k', v)])).
  { intros [H | []]. simpl in H. congruence. }
  destruct v; try (exact (Hleaf Hin)).
  destruct (flatten_keys_prefixed (PDict d) k' k Hne eq_refl Hin) as [rest ->].
  rewrite has_dot_app in Hdot. discriminate.
Qed.

Lemma keys_preprocess (l : list (string * pyval)) :
  map fst (map preprocess_item l) = map fst l.
Proof.
  induction l as [| [k v] l IH]; simpl; [reflexivity|].
  rewrite IH. unfold preprocess_item. simpl.
  now destruct (allow_listed k && is_dict v).
Qed.

Lemma contribs_other_key (k : string) (l : list (string * pyval)) :
  has_dot k = false -> ~ In "" (map fst l) -> ~ In k (map fst l) ->
  ~ In k (map fst (flat_map (item_contrib "") (map preprocess_item l))).
Proof.
  intros Hdot He Hk Hin. apply in_keys_flat_map in Hin.
  destruct Hin as (kv & Hkv & Hin).
  assert (Hfst : In (fst kv) (map fst l)).
  { rewrite <- keys_preprocess. now apply in_map. }
  apply (item_contrib_other_key k kv Hdot); [| | exact Hin].
  - intro H. apply He. now rewrite <- H.
  - intro H. apply Hk. now rewrite <- H.
Qed.


End WithJson.



End Normalizer.

(* ------------------------------------------------------------------ *)
(** ** The ingestion pipeline *)

Module Pipeline.
Section WithBatches.

(** A flattened record (one element of [batch_data]) and the Arrow table
    built from a batch.  [prepare] stands for lines 437-608 of
    [_write_batch_to_delta]: the clean-up of the items, the DataFrame, the
    renames, the derived columns and the schema; it may raise.  The batch
    number only ends up in the [batch_num] column, so it is recorded with
    the append. *)
Variable Flat : Type.
Variable Batch : Type.
Variable prepare : list Flat -> Py.exn + Batch.

(** What the storage layer answers to one [write_deltalake] call. *)
Inductive write_outcome : Type :=
| WriteOk
| WriteFails (msg : string).

(** The converter object together with the object store behind [self.s3].
    [processed_files] is the set [__init__] loaded from the ledger files;
    [s3_find prefix] is the answer of [self.s3.find]; [s3_read path] is the
    [batch_data] obtained from opening, decompressing, decoding and parsing
    the file, or the exception that raised; [delta_write path attempt] is the
    storage layer's answer to the [attempt]-th [write_deltalake] call for the
    batch built from [path]; [s3_save path] tells whether the ledger file
    could be written for [path]. *)
Record DeltaConverter : Type := {
  bucket_name : string;
  processed_files : list string;
  s3_find : string -> Py.exn + list string;
  s3_read : string -> Py.exn + list Flat;
  delta_write : string -> nat -> write_outcome;
  s3_save : string -> bool
}.

Inductive event : Type :=
| EvSleep (seconds : nat)
| EvAppend (table_name : string) (batch_num : nat) (pa_table : Batch)
| EvMark (log_type : string) (file_path : string).

Definition M := Py.M event.

(** [_save_processed_files(log_type, [file_path])]: any failure is logged
    as a warning and swallowed. *)
Definition _save_processed_files (self : DeltaConverter)
           (log_type file_path : string) : M unit :=
  if s3_save self file_path
  then Py.emit (EvMark log_type file_path)
  else Py.ret tt.

Definition max_retries : nat := 3.
Definition retry_delay : nat := 1.

(** ["Metadata changed" in str(write_err)] *)
Definition is_metadata_conflict (msg : string) : bool :=
  Py.contains "Metadata changed" msg.

(** The [for attempt in range(max_retries)] loop of
    [_write_batch_to_delta]; [attempts] is what is left of the range. *)
Fixpoint retry_loop (storage : nat -> write_outcome)
         (table_name : string) (batch_num : nat) (pa_table : Batch)
         (attempts : list nat) : M unit :=
  match attempts with
  | [] => Py.ret tt
  | attempt :: rest =>
      match storage attempt with
      | WriteOk => Py.emit (EvAppend table_name batch_num pa_table)
      | WriteFails msg =>
          if Nat.ltb attempt (max_retries - 1) && is_metadata_conflict msg
          then Py.emit (EvSleep (retry_delay * 2 ^ attempt)) ;;;
               retry_loop storage table_name batch_num pa_table rest
          else Py.raise msg
      end
  end.

(** [_write_batch_to_delta(batch_data, table_name, batch_num)].  The items
    of [batch_data] are dicts, never [None], so [processed_data] has one
    entry per item and is empty only when [batch_data] is. *)
Definition _write_batch_to_delta (storage : nat -> write_outcome)
           (batch_data : list Flat) (table_name : string) (batch_num : nat)
  : M unit :=
  match batch_data with
  | [] => Py.ret tt
  | _ :: _ =>
      match prepare batch_data with
      | inl e => Py.raise e
      | inr pa_table =>
          retry_loop storage table_name batch_num pa_table
                     (seq 0 max_retries)
      end
  end.

Definition is_log_file (path : string) : bool :=
  Py.endswith path ".json" || Py.endswith path ".json.gz"
  || Py.endswith path ".log.gz".

(** [_find_json_files(prefix)] *)
Definition _find_json_files (self : DeltaConverter) (prefix : string)
  : list string :=
  match s3_find self prefix with
  | inl _ => []
  | inr paths => filter is_log_file paths
  end.

Definition in_set (x : string) (s : list string) : bool :=
  existsb (String.eqb x) s.

(** The [for i, file_path in enumerate(new_files)] loop, the same text in
    [convert_statements] and [convert_slowlogs]. *)
Fixpoint convert_loop (self : DeltaConverter) (log_type table_name : string)
         (new_files : list string) (batch_num : nat) : M unit :=
  match new_files with
  | [] => Py.ret tt
  | file_path :: rest =>
      match s3_read self file_path with
      | inl _ => convert_loop self log_type table_name rest batch_num
      | inr [] =>
          _save_processed_files self log_type file_path ;;;
          convert_loop self log_type table_name rest batch_num
      | inr batch_data =>
          _write_batch_to_delta (delta_write self file_path) batch_data
                                table_name batch_num ;;;
          _save_processed_files self log_type file_path ;;;
          convert_loop self log_type table_name rest (S batch_num)
      end
  end.

(** [[f for f in files if f not in self.processed_files]] *)
Definition select_new (processed : list string) (files : list string)
  : list string :=
  filter (fun f => negb (in_set f processed)) files.

(** The body shared by [convert_statements] and [convert_slowlogs]. *)
Definition convert (self : DeltaConverter) (log_type table_name : string)
  : M unit :=
  let source_prefix := bucket_name self ++ "/" ++ log_type ++ "/" in
  let files := _find_json_files self source_prefix in
  let new_files := select_new (processed_files self) files in
  match new_files with
  | [] => Py.ret tt
  | _ :: _ => convert_loop self log_type table_name new_files 1
  end.

Definition convert_statements (self : DeltaConverter) : M unit :=
  convert self "statement" "persisted_statements_summary".

Definition convert_slowlogs (self : DeltaConverter) : M unit :=
  convert self "slowlog" "slowlogs".

Definition run (self : DeltaConverter) : M unit :=
  convert_statements self ;;; convert_slowlogs self.

(** [main]: the exit status of the process. *)
Definition main (self : DeltaConverter) : nat :=
  if Py.raises (run self) then 1 else 0.

(** The files a trace added to the ledgers, in order. *)
Fixpoint marked (t : list event) : list string :=
  match t with
  | [] => []
  | EvMark _ f :: t' => f :: marked t'
  | _ :: t' => marked t'
  end.

(** The batches a trace appended to the tables, in order. *)
Fixpoint appended (t : list event) : list Batch :=
  match t with
  | [] => []
  | EvAppend _ _ b :: t' => b :: appended t'
  | _ :: t' => appended t'
  end.

(** The seconds slept, in order. *)
Fixpoint slept (t : list event) : list nat :=
  match t with
  | [] => []
  | EvSleep s :: t' => s :: slept t'
  | _ :: t' => slept t'
  end.

(** What [_load_processed_files] finds at the start of the next run: the
    ledger as it was, followed by the lines this run added. *)
Definition ledger_after (self : DeltaConverter) (t : list event)
  : list string :=
  (processed_files self ++ marked t)%list.

(** The retry policy in the words of the specification: up to three retries
    after the first attempt, waiting 1s, 2s and 4s; [backoff] is what is left
    of the schedule. *)
Fixpoint spec_retry_loop (storage : nat -> write_outcome)
         (table_name : string) (batch_num : nat) (pa_table : Batch)
         (attempt : nat) (backoff : list nat) {struct backoff} : M unit :=
  match storage attempt with
  | WriteOk => Py.emit (EvAppend table_name batch_num pa_table)
  | WriteFails msg =>
      if is_metadata_conflict msg
      then match backoff with
           | [] => Py.raise msg
           | wait_time :: later =>
               Py.emit (EvSleep wait_time) ;;;
               spec_retry_loop storage table_name batch_num pa_table
                               (S attempt) later
           end
      else Py.raise msg
  end.

Definition spec_write_with_retry (storage : nat -> write_outcome)
           (table_name : string) (batch_num : nat) (pa_table : Batch)
  : M unit :=
  spec_retry_loop storage table_name batch_num pa_table 0 [1; 2; 4].

(** The file loop in the words of the specification (section 7, case b): a
    batch whose write fails is logged and skipped like an unreadable file. *)
Fixpoint spec_convert_loop (self : DeltaConverter)
         (log_type table_name : string)
         (new_files : list string) (batch_num : nat) : M unit :=
  match new_files with
  | [] => Py.ret tt
  | file_path :: rest =>
      match s3_read self file_path with
      | inl _ => spec_convert_loop self log_type table_name rest batch_num
      | inr [] =>
          _save_processed_files self log_type file_path ;;;
          spec_convert_loop self log_type table_name rest batch_num
      | inr batch_data =>
          match _write_batch_to_delta (delta_write self file_path) batch_data
                                      table_name batch_num with
          | (t, inl _) =>
              let (t', r) :=
                spec_convert_loop self log_type table_name rest batch_num in
              ((t ++ t')%list, r)
          | (t, inr _) =>
              let (t', r) :=
                (_save_processed_files self log_type file_path ;;;
                 spec_convert_loop self log_type table_name rest
                                   (S batch_num)) in
              ((t ++ t')%list, r)
          end
      end
  end.

(** The events of a file: what [_save_processed_files] adds. *)
Definition mark_if (self : DeltaConverter) (lt f : string)
  : list event :=
  if s3_save self f then [EvMark lt f] else [].

(** One iteration of the file loop for a file that could be read. *)
Definition process_file (self : DeltaConverter) (lt tbl f : string)
           (bd : list Flat) (n : nat) : M unit :=
  _write_batch_to_delta (delta_write self f) bd tbl n ;;;
  _save_processed_files self lt f.

Inductive file_result (self : DeltaConverter) (lt tbl f : string)
          (bd : list Flat) (n : nat) : M unit -> Prop :=
| fr_raise ss e :
    bd <> [] ->
    Py.raises (_write_batch_to_delta (delta_write self f) bd tbl n)
    = true ->
    file_result self lt tbl f bd n (map EvSleep ss, inl e)
| fr_empty :
    bd = [] ->
    file_result self lt tbl f bd n (mark_if self lt f, inr tt)
| fr_written ss b :
    bd <> [] -> prepare bd = inr b ->
    Py.raises (_write_batch_to_delta (delta_write self f) bd tbl n)
    = false ->
    file_result self lt tbl f bd n
      (((map EvSleep ss ++ [EvAppend tbl n b]) ++ mark_if self lt f)%list,
       inr tt).

(** A ledger line for [f] written after the trace [t1] is in order when [f]
    yielded no record, or when [t1] ends with the append of the batch built
    from the records of [f]. *)
Definition mark_ok (self : DeltaConverter) (t1 : list event) (f : string)
  : Prop :=
  exists bd, s3_read self f = inr bd /\
    (bd = [] \/
     exists t0 tbl n b,
       prepare bd = inr b /\ t1 = (t0 ++ [EvAppend tbl n b])%list).

Definition marks_ok (self : DeltaConverter) (t : list event) : Prop :=
  forall t1 t2 lt f, t = (t1 ++ EvMark lt f :: t2)%list -> mark_ok self t1 f.

(** [path] could be opened, decompressed, decoded and parsed. *)
Definition readable (self : DeltaConverter) (path : string) : bool :=
  match s3_read self path with
  | inl _ => false
  | inr _ => true
  end.

(** The number of files of the list that yield a batch to write. *)
Definition batches_of (self : DeltaConverter) (files : list string) : nat :=
  List.length (filter (fun f => match s3_read self f with
                           | inr (_ :: _) => true
                           | _ => false
                           end) files).

Definition source_prefix (self : DeltaConverter) (log_type : string)
  : string :=
  bucket_name self ++ "/" ++ log_type ++ "/".

(** The storage layer refuses attempt [i] because of a concurrent commit. *)
Definition conflict_at (storage : nat -> write_outcome) (i : nat) : Prop :=
  exists msg, storage i = WriteFails msg /\ is_metadata_conflict msg = true.

End WithBatches.

Arguments EvSleep {Batch} seconds.
Arguments EvAppend {Batch} table_name batch_num pa_table.
Arguments EvMark {Batch} log_type file_path.
Arguments Build_DeltaConverter {Flat}.
Arguments bucket_name {Flat}.
Arguments processed_files {Flat}.
Arguments s3_find {Flat}.
Arguments s3_read {Flat}.
Arguments delta_write {Flat}.
Arguments s3_save {Flat}.
Arguments _save_processed_files {Flat Batch}.
Arguments retry_loop {Batch}.
Arguments _write_batch_to_delta {Flat Batch}.
Arguments _find_json_files {Flat}.
Arguments convert_loop {Flat Batch}.
Arguments convert {Flat Batch}.
Arguments convert_statements {Flat Batch}.
Arguments convert_slowlogs {Flat Batch}.
Arguments run {Flat Batch}.
Arguments main {Flat Batch}.
Arguments marked {Batch}.
Arguments appended {Batch}.
Arguments slept {Batch}.
Arguments ledger_after {Flat Batch}.
Arguments spec_retry_loop {Batch}.
Arguments spec_write_with_retry {Batch}.
Arguments spec_convert_loop {Flat Batch}.
Arguments readable {Flat}.
Arguments batches_of {Flat}.
Arguments source_prefix {Flat}.
Arguments mark_if {Flat Batch}.
Arguments file_result {Flat Batch}.
Arguments fr_raise {Flat Batch}.
Arguments fr_empty {Flat Batch}.
Arguments fr_written {Flat Batch}.
Arguments process_file {Flat Batch}.
Arguments mark_ok {Flat Batch}.
Arguments marks_ok {Flat Batch}.

(* ------------------------------------------------------------------ *)
(** *** Concrete runs *)

(** Two statement files and a file that is no log; the rows of a batch are
    kept as they are. *)
Definition file_a : string := "tidb-logs/statement/a.json".
Definition file_b : string := "tidb-logs/statement/b.json.gz".

Definition demo_prepare (batch_data : list string)
  : Py.exn + list string :=
  inr batch_data.

Definition demo (processed : list string)
           (writes : string -> nat -> write_outcome)
           (saves : string -> bool) : DeltaConverter string :=
  {| bucket_name := "tidb-logs";
     processed_files := processed;
     s3_find := fun prefix =>
       if String.eqb prefix "tidb-logs/statement/"
       then inr [file_a; "tidb-logs/statement/notes.txt"; file_b]
       else inr [];
     s3_read := fun path =>
       if String.eqb path file_a then inr ["row a"]
       else if String.eqb path file_b then inr ["row b"]
       else inl "NoSuchKey";
     delta_write := writes;
     s3_save := saves |}.

(** Another writer commits during the first two attempts for [file_a]. *)
Definition two_conflicts (path : string) (attempt : nat) : write_outcome :=
  if String.eqb path file_a && Nat.ltb attempt 2
  then WriteFails "Generic DeltaTable error: Metadata changed since last commit"
  else WriteOk.

(** Another writer commits during every attempt but the fourth. *)
Definition three_conflicts (attempt : nat) : write_outcome :=
  if Nat.ltb attempt 3
  then WriteFails "Generic DeltaTable error: Metadata changed since last commit"
  else WriteOk.

(** The store refuses the batch of [file_a] for another reason. *)
Definition disk_full (path : string) (attempt : nat) : write_outcome :=
  if String.eqb path file_a then WriteFails "OSError: disk full" else WriteOk.

Definition always_ok (path : string) (attempt : nat) : write_outcome :=
  WriteOk.

Definition save_all (path : string) : bool := true.

(** The ledger file cannot be written for [file_a]. *)
Definition save_but_a (path : string) : bool :=
  negb (String.eqb path file_a).

Definition statements : string := "persisted_statements_summary".

(* ------------------------------------------------------------------ *)
(** *** Properties of the pipeline *)

Section Properties.

Variable Flat : Type.
Variable Batch : Type.
Variable prepare : list Flat -> Py.exn + Batch.

Lemma bind_ret_l (A : Type) (k : unit -> Py.M (event Batch) A) :
  Py.bind (Py.ret tt) k = k tt.
Proof. unfold Py.bind, Py.ret. destruct (k tt). reflexivity. Qed.

Lemma bind_events (A B : Type) (c : Py.M (event Batch) A)
      (k : A -> Py.M (event Batch) B) :
  Py.events (Py.bind c k) =
  (Py.events c ++
   match Py.outcome c with
   | inl _ => []
   | inr a => Py.events (k a)
   end)%list.
Proof.
  destruct c as [t [e | a]]; simpl.
  - now rewrite app_nil_r.
  - destruct (k a); reflexivity.
Qed.

Lemma bind_outcome (A B : Type) (c : Py.M (event Batch) A)
      (k : A -> Py.M (event Batch) B) :
  Py.outcome (Py.bind c k) =
  match Py.outcome c with
  | inl e => inl e
  | inr a => Py.outcome (k a)
  end.
Proof.
  destruct c as [t [e | a]]; simpl; [reflexivity|].
  destruct (k a); reflexivity.
Qed.

Lemma marked_app (t1 t2 : list (event Batch)) :
  marked (t1 ++ t2) = (marked t1 ++ marked t2)%list.
Proof.
  induction t1 as [| [s | tb n b | lt f] t1 IH]; simpl; congruence.
Qed.

Lemma appended_app (t1 t2 : list (event Batch)) :
  appended (t1 ++ t2) = (appended t1 ++ appended t2)%list.
Proof.
  induction t1 as [| [s | tb n b | lt f] t1 IH]; simpl; congruence.
Qed.

Lemma slept_app (t1 t2 : list (event Batch)) :
  slept (t1 ++ t2) = (slept t1 ++ slept t2)%list.
Proof.
  induction t1 as [| [s | tb n b | lt f] t1 IH]; simpl; congruence.
Qed.

(** The three attempts of the writer, case by case. *)
Lemma retry_loop_cases (storage : nat -> write_outcome)
      (tbl : string) (n : nat) (b : Batch) :
  exists k, k <= 2 /\
    (forall i, i < k -> conflict_at storage i) /\
    match storage k with
    | WriteOk =>
        retry_loop storage tbl n b (seq 0 max_retries) =
        ((map EvSleep (firstn k [1; 2]) ++ [EvAppend tbl n b])%list, inr tt)
    | WriteFails msg =>
        (k = 2 \/ is_metadata_conflict msg = false) /\
        retry_loop storage tbl n b (seq 0 max_retries) =
        (map EvSleep (firstn k [1; 2]), inl msg)
    end.
Proof.
  assert (Hlt : forall k i, i < k -> k <= 2 -> i = 0 \/ i = 1) by (intros; lia).
  destruct (storage 0) as [| m0] eqn:H0.
  { exists 0. rewrite H0. repeat split; [lia | intros; lia | ].
    simpl. now rewrite H0. }
  destruct (is_metadata_conflict m0) eqn:C0.
  2:{ exists 0. rewrite H0. repeat split; [lia | intros; lia | now right | ].
      simpl. rewrite H0, C0. reflexivity. }
  destruct (storage 1) as [| m1] eqn:H1.
  { exists 1. rewrite H1. repeat split; [lia | | ].
    - intros i Hi. assert (i = 0) by lia. subst. now exists m0.
    - simpl. rewrite H0, C0, H1. reflexivity. }
  destruct (is_metadata_conflict m1) eqn:C1.
  2:{ exists 1. rewrite H1. repeat split; [lia | | now right | ].
      - intros i Hi. assert (i = 0) by lia. subst. now exists m0.
      - simpl. rewrite H0, C0, H1, C1. reflexivity. }
  exists 2. repeat split; [lia | | ].
  - intros i Hi. destruct (Hlt 2 i Hi (le_n 2)); subst;
      [now exists m0 | now exists m1].
  - destruct (storage 2) as [| m2] eqn:H2; simpl; rewrite H0, C0, H1, C1, H2.
    + reflexivity.
    + split; [now left | ]. simpl. reflexivity.
Qed.

Lemma retry_loop_shape (storage : nat -> write_outcome)
      (tbl : string) (n : nat) (b : Batch) :
  exists ss,
    (exists e, retry_loop storage tbl n b (seq 0 max_retries) =
               (map EvSleep ss, inl e)) \/
    retry_loop storage tbl n b (seq 0 max_retries) =
    ((map EvSleep ss ++ [EvAppend tbl n b])%list, inr tt).
Proof.
  destruct (retry_loop_cases storage tbl n b) as (k & _ & _ & H).
  exists (firstn k [1; 2]).
  destruct (storage k) as [| msg].
  - now right.
  - left. exists msg. apply H.
Qed.

(** Whether the writer raises depends on the storage layer's answers only. *)
Lemma retry_loop_raises_indep (storage : nat -> write_outcome)
      (tbl tbl' : string) (n n' : nat) (b b' : Batch) :
  Py.raises (retry_loop storage tbl n b (seq 0 max_retries)) =
  Py.raises (retry_loop storage tbl' n' b' (seq 0 max_retries)).
Proof.
  simpl.
  destruct (storage 0) as [| m0]; [reflexivity|].
  destruct (is_metadata_conflict m0); [|reflexivity].
  destruct (storage 1) as [| m1]; [reflexivity|].
  destruct (is_metadata_conflict m1); [|reflexivity].
  destruct (storage 2) as [| m2]; reflexivity.
Qed.

Lemma write_batch_raises_indep (storage : nat -> write_outcome)
      (bd : list Flat) (tbl tbl' : string) (n n' : nat) :
  Py.raises (_write_batch_to_delta prepare storage bd tbl n) =
  Py.raises (_write_batch_to_delta prepare storage bd tbl' n').
Proof.
  unfold _write_batch_to_delta.
  destruct bd; [reflexivity|].
  destruct (prepare (f :: bd)); [reflexivity|].
  apply retry_loop_raises_indep.
Qed.

Lemma save_processed_files_eq (self : DeltaConverter Flat) (lt f : string) :
  _save_processed_files (Batch := Batch) self lt f = (mark_if self lt f, inr tt).
Proof.
  unfold _save_processed_files, mark_if. destruct (s3_save self f); reflexivity.
Qed.

Lemma process_file_cases (self : DeltaConverter Flat) (lt tbl f : string)
      (bd : list Flat) (n : nat) :
  file_result prepare self lt tbl f bd n (process_file prepare self lt tbl f bd n).
Proof.
  unfold process_file. rewrite save_processed_files_eq.
  destruct bd as [| r bd].
  - simpl. now apply fr_empty.
  - assert (Hne : r :: bd <> []) by discriminate.
    remember (_write_batch_to_delta prepare (delta_write self f)
                                    (r :: bd) tbl n) as w eqn:Hw.
    pose proof Hw as Hw'.
    unfold _write_batch_to_delta in Hw.
    destruct (prepare (r :: bd)) as [e | b] eqn:Hp.
    + subst w. simpl. apply (fr_raise prepare self lt tbl f (r :: bd) n [] e Hne).
      rewrite <- Hw'. reflexivity.
    + destruct (retry_loop_shape (delta_write self f) tbl n b)
        as (ss & [(e & He) | Hok]).
      * rewrite He in Hw. subst w. simpl.
        apply (fr_raise prepare self lt tbl f (r :: bd) n ss e Hne).
        rewrite <- Hw'. reflexivity.
      * rewrite Hok in Hw. subst w. simpl.
        apply (fr_written prepare self lt tbl f (r :: bd) n ss b Hne Hp).
        rewrite <- Hw'. reflexivity.
Qed.

Lemma bind_assoc (A B C : Type) (c : Py.M (event Batch) A)
      (k : A -> Py.M (event Batch) B) (h : B -> Py.M (event Batch) C) :
  Py.bind (Py.bind c k) h = Py.bind c (fun a => Py.bind (k a) h).
Proof.
  destruct c as [t [e | a]]; simpl; [reflexivity|].
  destruct (k a) as [t' [e' | b]]; simpl; [reflexivity|].
  destruct (h b) as [t'' r]. now rewrite app_assoc.
Qed.

(** The file loop, one file at a time. *)
Lemma convert_loop_cons (self : DeltaConverter Flat) (lt tbl f : string)
      (rest : list string) (n : nat) :
  convert_loop prepare self lt tbl (f :: rest) n =
  match s3_read self f with
  | inl _ => convert_loop prepare self lt tbl rest n
  | inr bd =>
      process_file prepare self lt tbl f bd n ;;;
      convert_loop prepare self lt tbl rest
                   (match bd with [] => n | _ :: _ => S n end)
  end.
Proof.
  simpl. destruct (s3_read self f) as [e | [| r bd]]; [reflexivity | |].
  - unfold process_file. simpl (_write_batch_to_delta _ _ [] _ _).
    now rewrite bind_ret_l.
  - unfold process_file. now rewrite bind_assoc.
Qed.

Lemma convert_eq (self : DeltaConverter Flat) (lt tbl : string) :
  convert prepare self lt tbl =
  convert_loop prepare self lt tbl
    (select_new (processed_files self)
       (_find_json_files self (source_prefix self lt))) 1.
Proof.
  unfold convert.
  destruct (select_new _ _); reflexivity.
Qed.

Lemma marked_sleeps (ss : list nat) :
  marked (Batch := Batch) (map EvSleep ss) = [].
Proof. induction ss; simpl; auto. Qed.

Lemma appended_sleeps (ss : list nat) :
  appended (Batch := Batch) (map EvSleep ss) = [].
Proof. induction ss; simpl; auto. Qed.

Lemma marked_mark_if (self : DeltaConverter Flat) (lt f g : string) :
  In g (marked (Batch := Batch) (mark_if self lt f)) ->
  g = f /\ s3_save self f = true.
Proof.
  unfold mark_if. destruct (s3_save self f); simpl; intuition.
Qed.

Lemma appended_mark_if (self : DeltaConverter Flat) (lt f : string) :
  appended (Batch := Batch) (mark_if self lt f) = [].
Proof. unfold mark_if. destruct (s3_save self f); reflexivity. Qed.

Lemma in_marked (t : list (event Batch)) (f : string) :
  In f (marked t) <-> exists lt, In (EvMark lt f) t.
Proof.
  induction t as [| [s | tb n b | lt g] t IH]; simpl.
  - split; [tauto | intros [? []]].
  - rewrite IH. split; intros [lt H]; exists lt; [now right|].
    destruct H; [discriminate | assumption].
  - rewrite IH. split; intros [lt H]; exists lt; [now right|].
    destruct H; [discriminate | assumption].
  - rewrite IH. split.
    + intros [-> | [lt' H]]; [exists lt; now left | exists lt'; now right].
    + intros [lt' [H | H]]; [left; congruence | right; now exists lt'].
Qed.

Lemma split_last_mark (tw t1 t2 : list (event Batch)) (lt lt' f f' : string) :
  marked tw = [] ->
  (tw ++ [EvMark lt f])%list = (t1 ++ EvMark lt' f' :: t2)%list ->
  t1 = tw /\ f' = f.
Proof.
  revert t1. induction tw as [| x tw IH]; intros t1 Hm Heq.
  - destruct t1 as [| y t1]; simpl in Heq.
    + injection Heq as -> -> ->. auto.
    + injection Heq as _ Heq. now destruct t1.
  - destruct t1 as [| y t1]; simpl in Heq.
    + injection Heq as -> _. discriminate Hm.
    + injection Heq as -> Heq.
      assert (Hm' : marked tw = []) by (destruct y; simpl in Hm; congruence).
      destruct (IH t1 Hm' Heq) as [-> ->]. auto.
Qed.

Lemma no_mark_split (t t1 t2 : list (event Batch)) (lt f : string) :
  marked t = [] -> t = (t1 ++ EvMark lt f :: t2)%list -> False.
Proof.
  intros Hm ->. rewrite marked_app in Hm. simpl in Hm.
  now destruct (marked t1).
Qed.

Lemma mark_ok_prefix (self : DeltaConverter Flat)
      (ta t1 : list (event Batch)) (f : string) :
  mark_ok prepare self t1 f -> mark_ok prepare self (ta ++ t1) f.
Proof.
  intros (bd & Hr & [Hnil | (t0 & tbl & n & b & Hp & ->)]);
    exists bd; split; auto.
  right. exists (ta ++ t0)%list, tbl, n, b. split; auto.
  now rewrite app_assoc.
Qed.

Lemma marks_ok_app (self : DeltaConverter Flat) (ta tb : list (event Batch)) :
  marks_ok prepare self ta -> marks_ok prepare self tb ->
  marks_ok prepare self (ta ++ tb).
Proof.
  intros Ha Hb t1 t2 lt f Heq.
  apply app_eq_app in Heq. destruct Heq as (l & [[H1 H2] | [H1 H2]]).
  - destruct l as [| x l].
    + simpl in H2. rewrite app_nil_r in H1. subst ta.
      rewrite <- (app_nil_r t1). apply mark_ok_prefix.
      apply (Hb [] t2 lt f). now rewrite <- H2.
    + simpl in H2. injection H2 as <- H2.
      apply (Ha t1 l lt f). exact H1.
  - subst t1. apply mark_ok_prefix. apply (Hb l t2 lt f). exact H2.
Qed.

Lemma marks_ok_file (self : DeltaConverter Flat) (lt tbl f : string)
      (bd : list Flat) (n : nat) :
  s3_read self f = inr bd ->
  marks_ok prepare self (Py.events (process_file prepare self lt tbl f bd n)).
Proof.
  intros Hr t1 t2 lt' f' Heq.
  destruct (process_file_cases self lt tbl f bd n)
    as [ss e Hne Hw | Hnil | ss b Hne Hp Hw]; simpl in Heq.
  - exfalso. eapply no_mark_split; [apply marked_sleeps | exact Heq].
  - unfold mark_if in Heq. destruct (s3_save self f).
    + destruct (split_last_mark [] t1 t2 lt lt' f f' eq_refl Heq) as [_ ->].
      exists bd. auto.
    + now destruct t1.
  - unfold mark_if in Heq. destruct (s3_save self f).
    + apply split_last_mark in Heq.
      * destruct Heq as [-> ->]. exists bd. split; auto. right.
        exists (map EvSleep ss), tbl, n, b. auto.
      * rewrite marked_app, marked_sleeps. reflexivity.
    + exfalso. rewrite app_nil_r in Heq.
      eapply no_mark_split; [| exact Heq].
      rewrite marked_app, marked_sleeps. reflexivity.
Qed.

Lemma marks_ok_loop (self : DeltaConverter Flat) (lt tbl : string)
      (files : list string) (n : nat) :
  marks_ok prepare self (Py.events (convert_loop prepare self lt tbl files n)).
Proof.
  revert n. induction files as [| f rest IH]; intro n.
  - intros t1 t2 lt' f' Heq. now destruct t1.
  - rewrite convert_loop_cons.
    destruct (s3_read self f) as [e | bd] eqn:Hr; [apply IH|].
    rewrite bind_events. apply marks_ok_app.
    + now apply marks_ok_file.
    + destruct (Py.outcome _); [| apply IH].
      intros t1 t2 lt' f' Heq. now destruct t1.
Qed.

Lemma write_batch_nil_ok (storage : nat -> write_outcome) (tbl : string)
      (n : nat) :
  Py.raises (_write_batch_to_delta prepare storage [] tbl n) = false.
Proof. reflexivity. Qed.

(** A file whose batch cannot be written is never given a ledger line. *)
Lemma failed_write_not_marked (self : DeltaConverter Flat) (lt tbl : string)
      (files : list string) (n : nat) (f : string) (bd : list Flat)
      (tbl' : string) (n' : nat) :
  s3_read self f = inr bd ->
  Py.raises (_write_batch_to_delta prepare (delta_write self f) bd tbl' n')
  = true ->
  ~ In f (marked (Py.events (convert_loop prepare self lt tbl files n))).
Proof.
  intros Hr Hw. revert n. induction files as [| g rest IH]; intro n.
  - simpl. tauto.
  - rewrite convert_loop_cons.
    destruct (s3_read self g) as [e | bdg] eqn:Hg; [apply IH|].
    rewrite bind_events, marked_app, in_app_iff. intros [H | H].
    + destruct (process_file_cases self lt tbl g bdg n)
        as [ss e Hne Hwg | Hnil | ss b Hne Hp Hwg]; simpl in H.
      * now rewrite marked_sleeps in H.
      * apply marked_mark_if in H. destruct H as [-> _].
        rewrite Hr in Hg. injection Hg as ->. subst bdg.
        discriminate Hw.
      * rewrite marked_app, marked_app, marked_sleeps in H. simpl in H.
        apply marked_mark_if in H. destruct H as [-> _].
        rewrite Hr in Hg. injection Hg as ->.
        rewrite (write_batch_raises_indep _ _ tbl' tbl n' n) in Hw.
        congruence.
    + destruct (Py.outcome _); [exact H | exact (IH _ H)].
Qed.

(** C1. Ledger-write ordering: in the events of a run, every line added to a
    ledger for a file [f] comes directly after the successful append of the
    batch built from the records of [f], unless [f] yielded no record (then
    there is no batch and the line is written without an append); and a file
    whose batch write raises gets no ledger line in that run. *)
Theorem ledger_only_after_write (self : DeltaConverter Flat) :
  (forall t1 t2 lt f,
      Py.events (run prepare self) = (t1 ++ EvMark lt f :: t2)%list ->
      exists bd, s3_read self f = inr bd /\
        (bd = [] \/
         exists t0 tbl n b,
           prepare bd = inr b /\ t1 = (t0 ++ [EvAppend tbl n b])%list))
  /\
  (forall f bd tbl n,
      s3_read self f = inr bd ->
      Py.raises (_write_batch_to_delta prepare (delta_write self f) bd tbl n)
      = true ->
      ~ In f (marked (Py.events (run prepare self)))).
Proof.
  unfold run, convert_statements, convert_slowlogs.
  rewrite !convert_eq, bind_events. split.
  - apply (marks_ok_app self).
    + apply marks_ok_loop.
    + destruct (Py.outcome _); [| apply marks_ok_loop].
      intros t1 t2 lt' f' Heq. now destruct t1.
  - intros f bd tbl n Hr Hw. rewrite marked_app, in_app_iff. intros [H | H].
    + exact (failed_write_not_marked self _ _ _ _ f bd tbl n Hr Hw H).
    + destruct (Py.outcome _); [exact H|].
      exact (failed_write_not_marked self _ _ _ _ f bd tbl n Hr Hw H).
Qed.

(** C2 (amended). Retry policy of the writer: an append is attempted at most
    three times (so retried at most twice); after a failure whose message
    contains "Metadata changed" on the first or the second attempt the writer
    sleeps 1s, then 2s, and tries again; a failure with another message, and
    any failure of the third attempt, is raised at once.  In a run, conflicts
    on attempts 1 and 2 followed by success on attempt 3 give exactly one
    append and, the ledger being writable, the ledger line of the file; a
    failure of attempt 1 that is no conflict gives no append and no ledger
    line, and the run raises. *)
Theorem writer_retry_policy (self : DeltaConverter Flat) (lt tbl f : string)
        (rest : list string) (n : nat) (storage : nat -> write_outcome)
        (b : Batch) :
  (exists k, k <= 2 /\
     (forall i, i < k -> conflict_at storage i) /\
     match storage k with
     | WriteOk =>
         retry_loop storage tbl n b (seq 0 max_retries) =
         ((map EvSleep (firstn k [1; 2]) ++ [EvAppend tbl n b])%list, inr tt)
     | WriteFails msg =>
         (k = 2 \/ is_metadata_conflict msg = false) /\
         retry_loop storage tbl n b (seq 0 max_retries) =
         (map EvSleep (firstn k [1; 2]), inl msg)
     end)
  /\
  (forall bd,
      s3_read self f = inr bd -> bd <> [] -> prepare bd = inr b ->
      conflict_at (delta_write self f) 0 ->
      conflict_at (delta_write self f) 1 ->
      delta_write self f 2 = WriteOk ->
      s3_save self f = true ->
      convert_loop prepare self lt tbl (f :: rest) n =
      (([EvSleep 1; EvSleep 2; EvAppend tbl n b; EvMark lt f], inr tt) ;;;
       convert_loop prepare self lt tbl rest (S n)))
  /\
  (forall bd msg,
      s3_read self f = inr bd -> bd <> [] -> prepare bd = inr b ->
      delta_write self f 0 = WriteFails msg ->
      is_metadata_conflict msg = false ->
      convert_loop prepare self lt tbl (f :: rest) n = ([], inl msg)).
Proof.
  split; [apply retry_loop_cases | split].
  - intros bd Hr Hne Hp (m0 & H0 & C0) (m1 & H1 & C1) H2 Hs.
    simpl. rewrite Hr. destruct bd as [| r bd]; [congruence|].
    unfold _write_batch_to_delta, _save_processed_files. rewrite Hp, Hs.
    simpl. rewrite H0, C0, H1, C1, H2. simpl.
    destruct (convert_loop prepare self lt tbl rest (S n)). reflexivity.
  - intros bd msg Hr Hne Hp H0 C0.
    simpl. rewrite Hr. destruct bd as [| r bd]; [congruence|].
    unfold _write_batch_to_delta. rewrite Hp.
    simpl. rewrite H0, C0. reflexivity.
Qed.

Lemma convert_loop_app (self : DeltaConverter Flat) (lt tbl : string)
      (pre post : list string) (n : nat) :
  convert_loop prepare self lt tbl (pre ++ post) n =
  (convert_loop prepare self lt tbl pre n ;;;
   convert_loop prepare self lt tbl post (n + batches_of self pre)).
Proof.
  revert n. induction pre as [| g pre IH]; intro n.
  - unfold batches_of. cbn [app convert_loop filter List.length].
    now rewrite Nat.add_0_r, bind_ret_l.
  - rewrite <- app_comm_cons, !convert_loop_cons.
    unfold batches_of in *. simpl filter.
    destruct (s3_read self g) as [e | [| r bd]].
    + apply IH.
    + rewrite IH, bind_assoc. reflexivity.
    + rewrite IH, bind_assoc. cbn [List.length].
      now rewrite Nat.add_succ_r.
Qed.

Lemma convert_loop_skips_unreadable (self : DeltaConverter Flat)
      (lt tbl : string) (files : list string) (n : nat) :
  convert_loop prepare self lt tbl files n =
  convert_loop prepare self lt tbl (filter (readable self) files) n.
Proof.
  revert n. induction files as [| f rest IH]; intro n; [reflexivity|].
  simpl filter. unfold readable at 1.
  destruct (s3_read self f) as [e | bd] eqn:Hr.
  - rewrite convert_loop_cons, Hr. apply IH.
  - rewrite !convert_loop_cons, Hr. now rewrite !IH.
Qed.

Lemma marked_is_readable (self : DeltaConverter Flat) (lt tbl : string)
      (files : list string) (n : nat) (f : string) :
  In f (marked (Py.events (convert_loop prepare self lt tbl files n))) ->
  readable self f = true.
Proof.
  intro H. apply in_marked in H. destruct H as [lt' H].
  apply in_split in H. destruct H as (t1 & t2 & Heq).
  destruct (marks_ok_loop self lt tbl files n t1 t2 lt' f Heq) as (bd & Hr & _).
  unfold readable. now rewrite Hr.
Qed.


Lemma marked_implies_saved (self : DeltaConverter Flat) (lt tbl : string)
      (files : list string) (n : nat) (f : string) :
  In f (marked (Py.events (convert_loop prepare self lt tbl files n))) ->
  s3_save self f = true.
Proof.
  revert n. induction files as [| g rest IH]; intros n H.
  - destruct H.
  - rewrite convert_loop_cons in H.
    destruct (s3_read self g) as [e | bd]; [exact (IH _ H)|].
    rewrite bind_events, marked_app, in_app_iff in H. destruct H as [H | H].
    + destruct (process_file_cases self lt tbl g bd n)
        as [ss e Hne Hw | Hnil | ss b Hne Hp Hw]; simpl in H.
      * now rewrite marked_sleeps in H.
      * apply marked_mark_if in H. now destruct H as [-> ?].
      * rewrite marked_app, marked_app, marked_sleeps in H. simpl in H.
        apply marked_mark_if in H. now destruct H as [-> ?].
    + destruct (Py.outcome _); [destruct H | exact (IH _ H)].
Qed.

Lemma in_set_In (x : string) (l : list string) :
  in_set x l = true <-> In x l.
Proof.
  unfold in_set. rewrite existsb_exists. split.
  - intros (y & Hy & Heq). apply String.eqb_eq in Heq. now subst.
  - intro H. exists x. split; [assumption | apply String.eqb_refl].
Qed.

Lemma select_new_In (processed files : list string) (f : string) :
  In f (select_new processed files) <-> In f files /\ ~ In f processed.
Proof.
  unfold select_new. rewrite filter_In, negb_true_iff.
  split; intros [H1 H2]; split; auto.
  - intro H. apply in_set_In in H. congruence.
  - destruct (in_set f processed) eqn:E; auto.
    exfalso. apply H2. now apply in_set_In.
Qed.

(** A loop that ends normally has appended the batch of every listed file
    that yields records. *)
Lemma completed_loop_appends (self : DeltaConverter Flat) (lt tbl : string)
      (files : list string) (n : nat) (f : string) (bd : list Flat)
      (b : Batch) :
  Py.outcome (convert_loop prepare self lt tbl files n) = inr tt ->
  In f files -> s3_read self f = inr bd -> bd <> [] -> prepare bd = inr b ->
  In b (appended (Py.events (convert_loop prepare self lt tbl files n))).
Proof.
  intros Hok Hin Hr Hne Hp. revert n Hok.
  induction files as [| g rest IH]; intros n Hok; [destruct Hin|].
  rewrite convert_loop_cons in *.
  destruct (s3_read self g) as [e | bdg] eqn:Hg.
  - destruct Hin as [-> | Hin]; [congruence | now apply IH].
  - rewrite bind_outcome in Hok. rewrite bind_events, appended_app, in_app_iff.
    destruct (process_file_cases self lt tbl g bdg n)
      as [ss e Hneg Hw | Hnil | ss b' Hneg Hp' Hw]; simpl in Hok |- *.
    + discriminate Hok.
    + destruct Hin as [-> | Hin]; [congruence|].
      right. now apply IH.
    + destruct Hin as [-> | Hin].
      * left. rewrite Hr in Hg. injection Hg as <-.
        rewrite Hp in Hp'. injection Hp' as <-.
        rewrite !appended_app, appended_sleeps. simpl. now left.
      * right. now apply IH.
Qed.

(** C9. A failure while writing the ledger line of a file is swallowed:
    [_save_processed_files] returns normally and adds nothing; the append
    already made for the file stays and the loop goes on with the next file.
    The file is then missing from the ledger the next run loads, so the next
    run selects it again and, when that run completes, has appended its
    batch once more. *)
Theorem ledger_failure_swallowed (self self' : DeltaConverter Flat)
        (lt tbl f : string) :
  (s3_save self f = false ->
   _save_processed_files (Batch := Batch) self lt f = Py.ret tt)
  /\
  (forall rest n bd,
      s3_read self f = inr bd -> bd <> [] ->
      Py.raises (_write_batch_to_delta prepare (delta_write self f) bd tbl n)
      = false ->
      s3_save self f = false ->
      exists ss b,
        prepare bd = inr b /\
        convert_loop prepare self lt tbl (f :: rest) n =
        ((((map EvSleep ss ++ [EvAppend tbl n b])%list, inr tt) : M Batch unit)
         ;;; convert_loop prepare self lt tbl rest (S n)))
  /\
  (s3_save self f = false ->
   In f (select_new (processed_files self)
                    (_find_json_files self (source_prefix self lt))) ->
   processed_files self' =
   ledger_after self (Py.events (run prepare self)) ->
   _find_json_files self' (source_prefix self' lt) =
   _find_json_files self (source_prefix self lt) ->
   In f (select_new (processed_files self')
                    (_find_json_files self' (source_prefix self' lt)))
   /\
   (forall bd b,
       s3_read self' f = inr bd -> bd <> [] -> prepare bd = inr b ->
       Py.outcome (convert prepare self' lt tbl) = inr tt ->
       In b (appended (Py.events (convert prepare self' lt tbl))))).
Proof.
  split; [| split].
  - intro Hs. unfold _save_processed_files. now rewrite Hs.
  - intros rest n bd Hr Hne Hw Hs.
    rewrite convert_loop_cons, Hr.
    destruct (process_file_cases self lt tbl f bd n)
      as [ss e Hne' Hw' | Hnil | ss b Hne' Hp Hw']; [congruence.. |].
    exists ss, b. split; [assumption|].
    unfold mark_if. rewrite Hs, app_nil_r.
    destruct bd; [congruence | reflexivity].
  - intros Hs Hsel Hled Hfind.
    assert (Hsel' : In f (select_new (processed_files self')
                     (_find_json_files self' (source_prefix self' lt)))).
    { rewrite Hfind, Hled. apply select_new_In in Hsel.
      destruct Hsel as [Hin Hnot]. apply select_new_In. split; [assumption|].
      unfold ledger_after. rewrite in_app_iff. intros [H | H]; [tauto|].
      unfold run, convert_statements, convert_slowlogs in H.
      rewrite !convert_eq, bind_events, marked_app, in_app_iff in H.
      destruct H as [H | H].
      - apply marked_implies_saved in H. congruence.
      - destruct (Py.outcome _); [destruct H|].
        apply marked_implies_saved in H. congruence. }
    split; [exact Hsel'|].
    intros bd b Hr Hne Hp Hok. rewrite convert_eq in *.
    eapply completed_loop_appends; eauto.
Qed.

End Properties.

(* ------------------------------------------------------------------ *)
(** *** Concrete runs: the scenarios *)

(** C1, on a run: the ledger line of [file_b] comes directly after the
    append of its batch. *)
Lemma ledger_only_after_write_witness :
  exists bd, s3_read (demo [file_a] always_ok save_all) file_b = inr bd /\
    (bd = [] \/
     exists t0 tbl n b,
       demo_prepare bd = inr b /\
       [EvAppend statements 1 ["row b"]] = (t0 ++ [EvAppend tbl n b])%list).
Proof.
  exact (proj1 (ledger_only_after_write string (list string) demo_prepare
                  (demo [file_a] always_ok save_all))
               [EvAppend statements 1 ["row b"]] [] "statement" file_b
               eq_refl).
Defined.

(** C2: the claim as stated.  With a conflict on each of the first three
    attempts and a storage layer ready to accept the fourth, the writer raises
    after the third attempt, having slept 1s and 2s; the policy of the
    specification sleeps 1s, 2s and 4s and appends on the fourth attempt. *)
Lemma retry_three_times_counterexample :
  retry_loop three_conflicts statements 1 ["row a"] (seq 0 max_retries) =
  ([EvSleep 1; EvSleep 2],
   inl "Generic DeltaTable error: Metadata changed since last commit")
  /\
  spec_write_with_retry three_conflicts statements 1 ["row a"] =
  ([EvSleep 1; EvSleep 2; EvSleep 4; EvAppend statements 1 ["row a"]],
   inr tt).
Proof. split; reflexivity. Qed.

(** C2 (amended), on two runs: two conflicts then success, and a failure
    that is no conflict. *)
Lemma writer_retry_policy_witness :
  convert_loop demo_prepare (demo [] two_conflicts save_all)
               "statement" statements [file_a; file_b] 1 =
  ([EvSleep 1; EvSleep 2; EvAppend statements 1 ["row a"];
    EvMark "statement" file_a;
    EvAppend statements 2 ["row b"]; EvMark "statement" file_b], inr tt)
  /\
  convert_loop demo_prepare (demo [] disk_full save_all)
               "statement" statements [file_a; file_b] 1 =
  ([], inl "OSError: disk full").
Proof.
  split.
  - exact (proj1 (proj2 (writer_retry_policy string (list string) demo_prepare
                   (demo [] two_conflicts save_all) "statement" statements
                   file_a [file_b] 1 (always_ok file_a) ["row a"]))
                 ["row a"] eq_refl
                 (fun H => eq_ind (["row a"]) (fun l => match l with
                                                        | [] => False
                                                        | _ :: _ => True
                                                        end) I [] H)
                 eq_refl
                 (ex_intro _ _ (conj eq_refl eq_refl))
                 (ex_intro _ _ (conj eq_refl eq_refl))
                 eq_refl eq_refl).
  - exact (proj2 (proj2 (writer_retry_policy string (list string) demo_prepare
                   (demo [] disk_full save_all) "statement" statements
                   file_a [file_b] 1 (always_ok file_a) ["row a"]))
                 ["row a"] "OSError: disk full" eq_refl
                 (fun H => eq_ind (["row a"]) (fun l => match l with
                                                        | [] => False
                                                        | _ :: _ => True
                                                        end) I [] H)
                 eq_refl eq_refl eq_refl).
Defined.



(** C9, on two runs: the ledger line of [file_a] cannot be written in the
    first run, which still completes; the second run selects [file_a] again
    and appends its batch a second time. *)
Lemma ledger_failure_swallowed_witness :
  run demo_prepare (demo [] always_ok save_but_a) =
  ([EvAppend statements 1 ["row a"];
    EvAppend statements 2 ["row b"]; EvMark "statement" file_b], inr tt)
  /\
  In file_a
     (select_new (processed_files (demo [file_b] always_ok save_all))
        (_find_json_files (demo [file_b] always_ok save_all)
           (source_prefix (demo [file_b] always_ok save_all) "statement")))
  /\
  In ["row a"]
     (appended (Py.events (convert demo_prepare
                             (demo [file_b] always_ok save_all)
                             "statement" statements))).
Proof.
  split; [reflexivity|].
  pose proof (proj2 (proj2 (ledger_failure_swallowed string (list string)
                demo_prepare (demo [] always_ok save_but_a)
                (demo [file_b] always_ok save_all)
                "statement" statements file_a))) as H.
  specialize (H eq_refl (or_introl eq_refl) eq_refl eq_refl).
  destruct H as [H1 H2]. split; [exact H1|].
  apply (H2 ["row a"] ["row a"] eq_refl); [discriminate | reflexivity..].
Defined.

End Pipeline.

(* ------------------------------------------------------------------ *)
(** ** More of the normalizer: flat records *)

Module NormalizerFacts.
Import Val Normalizer.

(** No value of the record is a dict. *)
Definition dict_free (l : list (string * pyval)) : Prop :=
  Forall (fun kv => is_dict (snd kv) = false) l.

Lemma nodup_dict_set (V : Type) (d : list (string * V)) (k : string) (v : V) :
  NoDup (map fst d) -> NoDup (map fst (dict_set d k v)).
Proof.
  induction d as [| [k' v'] d IH]; simpl; intro H.
  - constructor; [intros [] | constructor].
  - inversion H as [| ? ? Hk Hd]; subst.
    destruct (String.eqb_spec k' k) as [-> | Hne]; simpl.
    + now constructor.
    + constructor; [| now apply IH].
      intro Hin. apply keys_dict_set in Hin. destruct Hin as [Hin | ->];
        [exact (Hk Hin) | congruence].
Qed.

Lemma nodup_fold_set (V : Type) (l acc : list (string * V)) :
  NoDup (map fst acc) ->
  NoDup (map fst (fold_left (fun d kv => dict_set d (fst kv) (snd kv))
                            l acc)).
Proof.
  revert acc. induction l as [| [k v] l IH]; intros acc H; simpl;
    [exact H|].
  apply IH. now apply nodup_dict_set.
Qed.

Lemma nodup_dict_of_items (V : Type) (l : list (string * V)) :
  NoDup (map fst (dict_of_items l)).
Proof. apply nodup_fold_set. constructor. Qed.

Lemma in_dict_set (V : Type) (d : list (string * V)) (k : string) (v : V)
      (kv : string * V) :
  In kv (dict_set d k v) -> In kv d \/ kv = (k, v).
Proof.
  induction d as [| [k' v'] d IH]; simpl.
  - intros [<- | []]. now right.
  - destruct (String.eqb_spec k' k) as [-> | Hne]; simpl.
    + intros [<- | H]; [now right | left; now right].
    + intros [<- | H]; [left; now left|].
      destruct (IH H) as [H' | H']; [left; now right | now right].
Qed.

Lemma in_fold_set (V : Type) (l acc : list (string * V)) (kv : string * V) :
  In kv (fold_left (fun d x => dict_set d (fst x) (snd x)) l acc) ->
  In kv acc \/ In kv l.
Proof.
  revert acc. induction l as [| [k v] l IH]; intros acc H; simpl in *.
  - now left.
  - destruct (IH _ H) as [H' | H']; [| right; now right].
    apply in_dict_set in H'. destruct H' as [H' | ->];
      [now left | right; now left].
Qed.

Lemma in_dict_of_items (V : Type) (l : list (string * V)) (kv : string * V) :
  In kv (dict_of_items l) -> In kv l.
Proof. intro H. apply in_fold_set in H. now destruct H. Qed.

Lemma flatten_dict_free (v : pyval) :
  forall parent, dict_free (_flatten_dict v parent).
Proof.
  induction v as [| | | | | | items IH] using pyval_induction;
    intro parent; try (repeat constructor).
  rewrite flatten_dict_eq. apply Forall_forall. intros kv Hin.
  apply in_dict_of_items in Hin. apply in_flat_map in Hin.
  destruct Hin as ([k x] & Hx & Hin).
  rewrite Forall_forall in IH. specialize (IH _ Hx). simpl in IH.
  unfold item_contrib in Hin. simpl in Hin.
  destruct x; try (destruct Hin as [<- | []]; reflexivity).
  specialize (IH (new_key parent k)). unfold dict_free in IH.
  rewrite Forall_forall in IH. now apply IH.
Qed.

(** On a record that is flat already, the loop of [_flatten_dict] adds the
    items as they are. *)
Lemma flat_map_contrib_flat (l : list (string * pyval)) :
  dict_free l -> flat_map (item_contrib "") l = l.
Proof.
  induction 1 as [| [k x] l Hx _ IH]; simpl; [reflexivity|].
  rewrite IH. unfold item_contrib. simpl in *.
  destruct x; try reflexivity. discriminate.
Qed.

Lemma preprocess_flat (json_dumps : pyval -> string)
      (l : list (string * pyval)) :
  dict_free l -> map (preprocess_item json_dumps) l = l.
Proof.
  induction 1 as [| [k x] l Hx _ IH]; simpl; [reflexivity|].
  rewrite IH. unfold preprocess_item. simpl in *.
  now rewrite Hx, andb_false_r.
Qed.

(** X1. A flattened record is flat: its keys are distinct and none of its
    values is a dict, whatever was parsed and under whatever parent key. *)
Theorem flatten_is_flat (v : pyval) (parent : string) :
  NoDup (map fst (_flatten_dict v parent))
  /\ Forall (fun kv => is_dict (snd kv) = false) (_flatten_dict v parent).
Proof.
  split; [| apply flatten_dict_free].
  destruct v; try (repeat constructor; intros []).
  rewrite flatten_dict_eq. apply nodup_dict_of_items.
Qed.

(** X2. Normalising is idempotent: a record that went through
    [_preprocess_complex_fields] and [_flatten_dict] is left as it is by a
    second pass. *)
Theorem normalize_idempotent (json_dumps : pyval -> string) (parsed : pyval) :
  normalize json_dumps (PDict (normalize json_dumps parsed))
  = normalize json_dumps parsed.
Proof.
  set (flat := normalize json_dumps parsed).
  assert (Hnd : NoDup (map fst flat)).
  { unfold flat, normalize.
    destruct (_preprocess_complex_fields json_dumps parsed);
      try (repeat constructor; intros []).
    rewrite flatten_dict_eq. apply nodup_dict_of_items. }
  assert (Hfree : dict_free flat) by apply flatten_dict_free.
  unfold normalize at 1. unfold _preprocess_complex_fields.
  rewrite (preprocess_flat json_dumps flat Hfree).
  rewrite (dict_of_items_nodup _ flat Hnd).
  rewrite flatten_dict_eq, (flat_map_contrib_flat flat Hfree).
  now apply dict_of_items_nodup.
Qed.

Section WithJson.
Variable json_loads : string -> option pyval.
Variable json_dumps : pyval -> string.

Lemma preprocess_item_twice (kv : string * pyval) :
  preprocess_item json_dumps (preprocess_item json_dumps kv)
  = preprocess_item json_dumps kv.
Proof.
  destruct kv as [k v]. unfold preprocess_item. simpl.
  destruct (allow_listed k) eqn:Ek; simpl; [| now rewrite Ek].
  destruct (is_dict v) eqn:Ev; simpl.
  - rewrite Ek. unfold stringified. now destruct (truthy_dict v).
  - now rewrite Ek, Ev.
Qed.

(** X3. [_preprocess_complex_fields] on a record: the keys stay the same,
    in the same order; a field that is not allow-listed, or whose value is no
    object, keeps its value; afterwards no allow-listed field holds an
    object, so a second pass changes nothing. *)
Theorem preprocess_complex_fields_shape (d : list (string * pyval)) :
  NoDup (map fst d) ->
  exists d',
    _preprocess_complex_fields json_dumps (PDict d) = PDict d'
    /\ map fst d' = map fst d
    /\ (forall k v, In (k, v) d ->
                    allow_listed k = false \/ is_dict v = false ->
                    In (k, v) d')
    /\ (forall k v, In (k, v) d' -> allow_listed k = true ->
                    is_dict v = false)
    /\ _preprocess_complex_fields json_dumps (PDict d') = PDict d'.
Proof.
  intro Hnd. exists (map (preprocess_item json_dumps) d).
  assert (Hkeys : map fst (map (preprocess_item json_dumps) d) = map fst d)
    by apply keys_preprocess.
  unfold _preprocess_complex_fields.
  rewrite dict_of_items_nodup by (now rewrite Hkeys).
  split; [reflexivity|]. split; [exact Hkeys|]. split; [| split].
  - intros k v Hin Hor. apply in_map_iff. exists (k, v). split; [| exact Hin].
    unfold preprocess_item. simpl.
    destruct Hor as [-> | ->]; [reflexivity | now rewrite andb_false_r].
  - intros k v Hin Hal. apply in_map_iff in Hin.
    destruct Hin as ([k0 v0] & Heq & _). unfold preprocess_item in Heq.
    simpl in Heq. destruct (allow_listed k0 && is_dict v0) eqn:E.
    + injection Heq as <- <-. unfold stringified.
      now destruct (truthy_dict v0).
    + injection Heq as <- <-. now rewrite Hal in E.
  - rewrite dict_of_items_nodup
      by (rewrite keys_preprocess; now rewrite Hkeys).
    f_equal. rewrite map_map. apply map_ext. apply preprocess_item_twice.
Qed.


End WithJson.

(** X3, on a statement record. *)
Lemma preprocess_complex_fields_shape_witness :
  exists d',
    _preprocess_complex_fields PyLib.json_dumps
      (PDict [("digest", PStr "d1"); ("index_names", PDict []);
              ("plan", PDict [("cost", PInt 7)])]) = PDict d'
    /\ map fst d' = ["digest"; "index_names"; "plan"].
Proof.
  destruct (preprocess_complex_fields_shape PyLib.json_dumps
              [("digest", PStr "d1"); ("index_names", PDict []);
               ("plan", PDict [("cost", PInt 7)])])
    as (d' & H1 & H2 & _).
  - repeat constructor; simpl; intuition discriminate.
  - exists d'. split; [exact H1 | exact H2].
Defined.


End NormalizerFacts.

(* ------------------------------------------------------------------ *)
(** ** Lines of text: reading a log file *)

Module Lines.
Import Val Normalizer.

(** [s.split(c)] for a one-character separator *)
Fixpoint split_on (c : ascii) (s : string) : list string :=
  match s with
  | EmptyString => [EmptyString]
  | String a s' =>
      if Ascii.eqb a c then EmptyString :: split_on c s'
      else match split_on c s' with
           | [] => [String a EmptyString]
           | piece :: pieces => String a piece :: pieces
           end
  end.

(** [sep.join(parts)] *)
Fixpoint join_with (sep : string) (parts : list string) : string :=
  match parts with
  | [] => ""
  | [p] => p
  | p :: rest => p ++ sep ++ join_with sep rest
  end.

(** The line feed, as a character and as a text. *)
Definition nl_char : ascii := ascii_of_nat 10.
Definition nl : string := String nl_char EmptyString.

(** The character does not occur in the text. *)
Fixpoint lacks (c : ascii) (s : string) : bool :=
  match s with
  | EmptyString => true
  | String a s' => negb (Ascii.eqb a c) && lacks c s'
  end.

(** White space for [str.strip()]; a character outside ASCII counts as
    none. *)
Definition str_space (a : ascii) : bool :=
  let n := nat_of_ascii a in
  Nat.eqb n 32 || (Nat.leb 9 n && Nat.leb n 13)
  || (Nat.leb 28 n && Nat.leb n 31).

(** [not s.strip()] *)
Fixpoint blank (s : string) : bool :=
  match s with
  | EmptyString => true
  | String a s' => str_space a && blank s'
  end.

Section WithJson.
Variable json_loads : string -> option pyval.
Variable json_dumps : pyval -> string.

(** The [for item in data] loop of a line that holds a JSON array: a
    [TypeError] raised by [_parse_record] leaves the loop, the records
    appended before it stay in [batch_data]. *)
Fixpoint parse_items (items : list pyval) : list (list (string * pyval)) :=
  match items with
  | [] => []
  | item :: rest =>
      match _parse_record json_loads item with
      | None => []
      | Some parsed => normalize json_dumps parsed :: parse_items rest
      end
  end.

(** The body of [for line in content.split('\n')], lines 261-279: what the
    line adds to [batch_data]. *)
Definition parse_line (line : string) : list (list (string * pyval)) :=
  if blank line then []
  else
    match json_loads line with
    | None => []
    | Some (PList items) => parse_items items
    | Some data =>
        match _parse_record json_loads data with
        | Some parsed => [normalize json_dumps parsed]
        | None => []
        end
    end.

(** Lines 260-279: the [batch_data] of a decoded file. *)
Definition parse_content (content : string)
  : list (list (string * pyval)) :=
  flat_map parse_line (split_on nl_char content).

End WithJson.

(** *** Properties of the lines *)

Lemma split_on_nonempty (c : ascii) (s : string) : split_on c s <> [].
Proof.
  destruct s as [| a s]; simpl; [discriminate|].
  destruct (Ascii.eqb a c); [discriminate|].
  destruct (split_on c s); discriminate.
Qed.

Lemma split_on_lacks (c : ascii) (s : string) :
  lacks c s = true -> split_on c s = [s].
Proof.
  induction s as [| a s IH]; simpl; [reflexivity|].
  rewrite andb_true_iff, negb_true_iff. intros [Ha Hs].
  now rewrite Ha, (IH Hs).
Qed.

Lemma split_on_line (c : ascii) (a rest : string) :
  lacks c a = true ->
  split_on c (a ++ String c rest) = a :: split_on c rest.
Proof.
  induction a as [| x a IH]; simpl.
  - intros _. now rewrite Ascii.eqb_refl.
  - rewrite andb_true_iff, negb_true_iff. intros [Hx Ha].
    now rewrite Hx, (IH Ha).
Qed.

Lemma split_join (c : ascii) (parts : list string) :
  parts <> [] -> Forall (fun p => lacks c p = true) parts ->
  split_on c (join_with (String c EmptyString) parts) = parts.
Proof.
  intros Hne Hall. induction Hall as [| p rest Hp Hrest IH]; [congruence|].
  destruct rest as [| q rest].
  - simpl. now apply split_on_lacks.
  - change (join_with (String c "") (p :: q :: rest))
      with (p ++ String c (join_with (String c "") (q :: rest))).
    rewrite split_on_line by exact Hp.
    f_equal. apply IH. discriminate.
Qed.

Section Facts.
Variable json_loads : string -> option pyval.
Variable json_dumps : pyval -> string.

Lemma parse_record_dict (d : list (string * pyval)) :
  exists parsed, _parse_record json_loads (PDict d) = Some parsed.
Proof.
  unfold _parse_record.
  destruct (dict_get d "message") as [x |]; [| eauto].
  destruct x; eauto. destruct (json_loads s); eauto.
Qed.

Lemma parse_items_cons (item parsed : pyval) (rest : list pyval) :
  _parse_record json_loads item = Some parsed ->
  parse_items json_loads json_dumps (item :: rest)
  = normalize json_dumps parsed :: parse_items json_loads json_dumps rest.
Proof.
  intro H.
  change (parse_items json_loads json_dumps (item :: rest))
    with (match _parse_record json_loads item with
          | None => []
          | Some p => normalize json_dumps p
                      :: parse_items json_loads json_dumps rest
          end).
  now rewrite H.
Qed.



End Facts.



End Lines.

(* ------------------------------------------------------------------ *)
(** ** The ledger files *)

Module Ledger.
Import Lines.

(** The part of the converter object the ledger paths are built from. *)
Record site : Type := {
  bucket_name : string;
  tenant_id : string;
  cluster_id : string
}.

(** [_get_processed_files_path(log_type)] *)
Definition _get_processed_files_path (self : site) (log_type : string)
  : string :=
  bucket_name self ++ "/deltalake/" ++ tenant_id self ++ "/"
  ++ cluster_id self ++ "/_processed_files_" ++ log_type ++ ".txt".

(** The objects of the store: the text of an object by path, [None] when
    there is no such object. *)
Definition store : Type := string -> option string.

Definition cr_char : ascii := ascii_of_nat 13.

(** What [f.read()] returns for a file opened in mode ['r']: a carriage
    return, alone or followed by a line feed, is read as a line feed. *)
Fixpoint universal_newlines (s : string) : string :=
  match s with
  | EmptyString => EmptyString
  | String a s' =>
      if Ascii.eqb a cr_char
      then match s' with
           | String b s'' =>
               if Ascii.eqb b nl_char
               then String nl_char (universal_newlines s'')
               else String nl_char (universal_newlines s')
           | EmptyString => String nl_char EmptyString
           end
      else String a (universal_newlines s')
  end.

(** [[f for f in files if f.strip()]] over [f.read().split('\n')] *)
Definition entries (text : string) : list string :=
  filter (fun f => negb (blank f)) (split_on nl_char text).

Definition log_types : list string := ["statement"; "slowlog"].

(** [_load_processed_files()]: the names added to [self.processed_files],
    a set, so that only membership matters. *)
Definition _load_processed_files (self : site) (s3 : store) : list string :=
  flat_map (fun log_type =>
              match s3 (_get_processed_files_path self log_type) with
              | Some raw => entries (universal_newlines raw)
              | None => []
              end) log_types.

(** [_save_processed_files(log_type, new_files)] when the store accepts the
    write: the object is extended or created. *)
Definition _save_processed_files (self : site) (s3 : store)
           (log_type : string) (new_files : list string) : store :=
  let path := _get_processed_files_path self log_type in
  let content := join_with nl new_files ++ nl in
  fun p => if String.eqb p path
           then Some (match s3 path with
                      | Some old => old ++ content
                      | None => content
                      end)
           else s3 p.

(** A text holds a character between ['!'] and ['~']. *)
Definition visible (s : string) : bool :=
  existsb (fun a => Nat.leb 33 (nat_of_ascii a)
                    && Nat.leb (nat_of_ascii a) 126)
          (list_ascii_of_string s).

(** A file name that survives a line of the ledger: no line break inside,
    and not made of white space only. *)
Definition plain_name (f : string) : Prop :=
  lacks nl_char f = true /\ lacks cr_char f = true /\ visible f = true.

(** A ledger text a name can be appended to: it holds no carriage return
    and is empty or ends with a line feed. *)
Definition closed_text (raw : string) : Prop :=
  lacks cr_char raw = true /\ (raw = "" \/ exists body, raw = body ++ nl).

(** Every ledger of the store is such a text. *)
Definition closed_store (self : site) (s3 : store) : Prop :=
  forall log_type raw,
    In log_type log_types ->
    s3 (_get_processed_files_path self log_type) = Some raw ->
    closed_text raw.

Definition tc_site : site :=
  {| bucket_name := "tidb-logs"; tenant_id := "default"; cluster_id := "tc" |}.

(** A store with a statement ledger edited by hand: a name, an empty line
    and a name between spaces. *)
Definition edited_store : store :=
  fun p =>
    if String.eqb p (_get_processed_files_path tc_site "statement")
    then Some ("tidb-logs/statement/0.json" ++ nl ++ nl
               ++ " tidb-logs/statement/1.json " ++ nl)
    else None.

(** *** Properties of the ledger files *)

Lemma append_cancel_l (p a b : string) : p ++ a = p ++ b -> a = b.
Proof.
  induction p as [| x p IH]; simpl; [auto|].
  intro H. injection H as H. auto.
Qed.

Lemma path_types_differ (self : site) :
  _get_processed_files_path self "statement"
  <> _get_processed_files_path self "slowlog".
Proof.
  unfold _get_processed_files_path. intro H.
  apply append_cancel_l in H.
  apply (append_cancel_l "/deltalake/") in H.
  apply append_cancel_l in H.
  apply (append_cancel_l "/") in H.
  apply append_cancel_l in H.
  apply (append_cancel_l "/_processed_files_") in H.
  discriminate H.
Qed.

Lemma visible_not_blank (s : string) : visible s = true -> blank s = false.
Proof.
  unfold visible.
  induction s as [| a s IH]; simpl; [discriminate|].
  rewrite orb_true_iff. intros [Ha | Hs].
  - assert (Hsp : str_space a = false).
    { revert Ha.
      destruct a as [[] [] [] [] [] [] [] []]; vm_compute; congruence. }
    now rewrite Hsp.
  - rewrite (IH Hs). apply andb_false_r.
Qed.

Lemma lacks_app (c : ascii) (a b : string) :
  lacks c (a ++ b) = lacks c a && lacks c b.
Proof.
  induction a as [| x a IH]; simpl; [reflexivity|].
  now rewrite IH, andb_assoc.
Qed.

Lemma universal_newlines_plain (s : string) :
  lacks cr_char s = true -> universal_newlines s = s.
Proof.
  induction s as [| a s IH]; simpl; [reflexivity|].
  rewrite andb_true_iff, negb_true_iff. intros [Ha Hs].
  rewrite Ha. now rewrite (IH Hs).
Qed.

Lemma split_on_app (c : ascii) (a rest : string) :
  split_on c (a ++ String c rest) = (split_on c a ++ split_on c rest)%list.
Proof.
  induction a as [| x a IH]; simpl.
  - now rewrite Ascii.eqb_refl.
  - destruct (Ascii.eqb x c); [now rewrite IH|].
    rewrite IH. pose proof (split_on_nonempty c a) as Hne.
    now destruct (split_on c a).
Qed.

Lemma entries_app (a rest : string) :
  entries (a ++ nl ++ rest) = (entries a ++ entries rest)%list.
Proof.
  unfold entries.
  change (a ++ nl ++ rest) with (a ++ String nl_char rest).
  now rewrite split_on_app, filter_app.
Qed.

Lemma entries_closed_app (raw content : string) :
  raw = "" \/ (exists body, raw = body ++ nl) ->
  entries (raw ++ content) = (entries raw ++ entries content)%list.
Proof.
  intros [-> | (body & ->)]; [reflexivity|].
  rewrite Normalizer.append_assoc, entries_app.
  change (body ++ nl) with (body ++ nl ++ "").
  rewrite entries_app. simpl. now rewrite app_nil_r.
Qed.

Lemma join_lacks (c : ascii) (names : list string) :
  lacks c nl = true -> Forall (fun f => lacks c f = true) names ->
  lacks c (join_with nl names) = true.
Proof.
  intros Hc. induction 1 as [| f rest Hf _ IH]; [reflexivity|].
  destruct rest as [| g rest]; [exact Hf|].
  change (join_with nl (f :: g :: rest))
    with (f ++ nl ++ join_with nl (g :: rest)).
  now rewrite !lacks_app, Hf, Hc, IH.
Qed.

Lemma content_entries (names : list string) :
  Forall plain_name names -> entries (join_with nl names ++ nl) = names.
Proof.
  intro H. destruct names as [| f rest]; [reflexivity|].
  change (join_with nl (f :: rest) ++ nl)
    with (join_with nl (f :: rest) ++ nl ++ "").
  rewrite entries_app. simpl (entries ""). rewrite app_nil_r.
  unfold entries. unfold nl at 1. rewrite split_join; [| discriminate |].
  - induction H as [| g more (_ & _ & Hv) _ IH]; [reflexivity|].
    simpl. rewrite (visible_not_blank g Hv). simpl. now rewrite IH.
  - eapply Forall_impl; [| exact H]. now intros g (Hg & _).
Qed.

Lemma content_closed (names : list string) :
  Forall plain_name names -> closed_text (join_with nl names ++ nl).
Proof.
  intro H. split; [| right; now exists (join_with nl names)].
  rewrite lacks_app. rewrite join_lacks; [reflexivity | reflexivity |].
  eapply Forall_impl; [| exact H]. now intros g (_ & Hg & _).
Qed.

(** The text of a ledger after a save, and what a load reads in it. *)
Lemma saved_text (old : option string) (names : list string) :
  (forall raw, old = Some raw -> closed_text raw) ->
  Forall plain_name names ->
  closed_text (match old with
               | Some raw => raw ++ join_with nl names ++ nl
               | None => join_with nl names ++ nl
               end)
  /\ entries (universal_newlines
                (match old with
                 | Some raw => raw ++ join_with nl names ++ nl
                 | None => join_with nl names ++ nl
                 end))
     = (match old with
        | Some raw => entries (universal_newlines raw)
        | None => []
        end ++ names)%list.
Proof.
  intros Hold Hnames.
  destruct (content_closed names Hnames) as [Hcr Hend].
  destruct old as [raw |].
  - destruct (Hold raw eq_refl) as [Hraw Hshape].
    assert (Hall : lacks cr_char (raw ++ join_with nl names ++ nl) = true)
      by now rewrite lacks_app, Hraw, Hcr.
    split.
    + split; [exact Hall|]. right. exists (raw ++ join_with nl names).
      now rewrite Normalizer.append_assoc.
    + rewrite !universal_newlines_plain by assumption.
      rewrite entries_closed_app by exact Hshape.
      now rewrite content_entries.
  - split; [now split|].
    rewrite universal_newlines_plain by exact Hcr.
    now rewrite content_entries.
Qed.

Lemma save_keeps_closed (self : site) (s3 : store) (log_type : string)
      (names : list string) :
  In log_type log_types -> Forall plain_name names -> closed_store self s3 ->
  closed_store self (_save_processed_files self s3 log_type names).
Proof.
  intros Hlt Hnames Hclosed lt raw Hin Hraw.
  unfold _save_processed_files in Hraw.
  destruct (String.eqb_spec (_get_processed_files_path self lt)
              (_get_processed_files_path self log_type)) as [E | E].
  - injection Hraw as <-.
    apply (saved_text (s3 (_get_processed_files_path self log_type)) names);
      [| exact Hnames].
    intros old Hold. now apply (Hclosed log_type).
  - now apply (Hclosed lt).
Qed.

Lemma load_after_save (self : site) (s3 : store) (log_type : string)
      (names : list string) (g : string) :
  In log_type log_types -> Forall plain_name names -> closed_store self s3 ->
  In g (_load_processed_files self
          (_save_processed_files self s3 log_type names))
  <-> In g names \/ In g (_load_processed_files self s3).
Proof.
  intros Hlt Hnames Hclosed.
  pose proof (path_types_differ self) as Hdiff.
  destruct (saved_text (s3 (_get_processed_files_path self log_type)) names)
    as [_ Htext]; [| exact Hnames |].
  { intros raw Hraw. now apply (Hclosed log_type). }
  unfold _load_processed_files, _save_processed_files, log_types.
  cbn [flat_map]. rewrite !app_nil_r, !in_app_iff.
  destruct Hlt as [<- | [<- | []]].
  - rewrite String.eqb_refl.
    destruct (String.eqb_spec (_get_processed_files_path self "slowlog")
                (_get_processed_files_path self "statement")) as [E | _];
      [symmetry in E; contradiction|].
    rewrite Htext, in_app_iff. tauto.
  - rewrite String.eqb_refl.
    destruct (String.eqb_spec (_get_processed_files_path self "statement")
                (_get_processed_files_path self "slowlog")) as [E | _];
      [contradiction|].
    rewrite Htext, in_app_iff. tauto.
Qed.

(** X7. The ledger round trip.  In a store whose ledgers hold no carriage
    return and are empty or end with a line feed, saving file names that
    hold no line break and a visible character each leaves the ledgers in
    that form, and the next [_load_processed_files] finds exactly those names
    beside every name it found before, whichever of the two ledgers they
    stand in. *)
Theorem ledger_round_trip (self : site) (s3 : store)
        (log_type : string) (new_files : list string) :
  In log_type log_types -> Forall plain_name new_files ->
  closed_store self s3 ->
  closed_store self (_save_processed_files self s3 log_type new_files)
  /\ (forall g,
         In g (_load_processed_files self
                 (_save_processed_files self s3 log_type new_files))
         <-> In g new_files \/ In g (_load_processed_files self s3)).
Proof.
  intros Hlt Hnames Hclosed. split.
  - now apply save_keeps_closed.
  - intro g. now apply load_after_save.
Qed.

(** X7, on a slowlog file recorded beside a statement ledger edited by
    hand. *)
Lemma ledger_round_trip_witness :
  In "tidb-logs/slowlog/a.json"
     (_load_processed_files tc_site
        (_save_processed_files tc_site edited_store "slowlog"
           ["tidb-logs/slowlog/a.json"]))
  /\ In " tidb-logs/statement/1.json "
        (_load_processed_files tc_site
           (_save_processed_files tc_site edited_store "slowlog"
              ["tidb-logs/slowlog/a.json"])).
Proof.
  assert (Hclosed : closed_store tc_site edited_store).
  { intros lt raw [<- | [<- | []]] H; vm_compute in H;
      [| discriminate H].
    injection H as <-. split; [reflexivity|]. right.
    exists ("tidb-logs/statement/0.json" ++ nl ++ nl
            ++ " tidb-logs/statement/1.json ").
    reflexivity. }
  pose proof (proj2 (ledger_round_trip tc_site edited_store "slowlog"
                       ["tidb-logs/slowlog/a.json"]
                       (or_intror (or_introl eq_refl))
                       ltac:(constructor;
                             [repeat split; reflexivity | constructor])
                       Hclosed)) as H.
  split; apply H.
  - left. now left.
  - right. vm_compute. tauto.
Defined.

End Ledger.

(* ------------------------------------------------------------------ *)
(** ** More of the inferrer: what the answer depends on *)

Module SchemaFacts.
Import Val Schema.

(** How wide a type is: an integer column can be read as a float column, and
    either as a string column. *)
Definition width (t : arrow_type) : nat :=
  match t with
  | pa_int64 => 0
  | pa_float64 => 1
  | _ => 2
  end.

Lemma existsb_same (A : Type) (f : A -> bool) (l1 l2 : list A) :
  (forall x, In x l1 <-> In x l2) -> existsb f l1 = existsb f l2.
Proof.
  intro H. apply eq_true_iff_eq. rewrite !existsb_exists.
  split; intros (x & Hx & Hf); exists x; split; auto; now apply H.
Qed.

Lemma forallb_same (A : Type) (f : A -> bool) (l1 l2 : list A) :
  (forall x, In x l1 <-> In x l2) -> forallb f l1 = forallb f l2.
Proof.
  intro H. apply eq_true_iff_eq. rewrite !forallb_forall.
  split; intros Hall x Hx; apply Hall; now apply H.
Qed.

Lemma filter_same (A : Type) (f : A -> bool) (l1 l2 : list A) :
  (forall x, In x l1 <-> In x l2) ->
  forall x, In x (filter f l1) <-> In x (filter f l2).
Proof.
  intros H x. rewrite !filter_In. now rewrite H.
Qed.

Section Inferrer.
Variable float_of_str : string -> option pyfloat.

(** X8. The inferred type depends on the set of values of the column only:
    neither the order of the rows nor how often a value occurs matters. *)
Theorem infer_by_membership (s1 s2 : list pyval) :
  (forall x, In x s1 <-> In x s2) ->
  _infer_column_type float_of_str s1 = _infer_column_type float_of_str s2.
Proof.
  intro H. unfold _infer_column_type.
  pose proof (filter_same _ (fun x => negb (isna x)) s1 s2 H) as Hn.
  fold (dropna s1) in Hn. fold (dropna s2) in Hn.
  pose proof (filter_same _ not_none_text _ _ Hn) as Hc.
  rewrite (existsb_same _ is_collection _ _ Hn).
  rewrite (forallb_same _ int_candidate _ _ Hc).
  rewrite (forallb_same _ (float_candidate float_of_str) _ _ Hc).
  destruct (dropna s1) as [| x l1], (dropna s2) as [| y l2];
    try reflexivity.
  - destruct (proj2 (Hn y) (or_introl eq_refl)).
  - destruct (proj1 (Hn x) (or_introl eq_refl)).
Qed.

(** X9. Widening: once a column holds a value that is not null, more rows
    never narrow its type; an integer column can become a float or a string
    column, a float column a string column, never the other way round. *)
Theorem infer_widens (series more : list pyval) :
  dropna series <> [] ->
  width (_infer_column_type float_of_str series)
  <= width (_infer_column_type float_of_str (series ++ more)).
Proof.
  intro Hne. unfold _infer_column_type.
  assert (Happ : dropna (series ++ more)
                 = (dropna series ++ dropna more)%list)
    by apply filter_app.
  rewrite Happ.
  destruct (dropna series) as [| x l]; [congruence|].
  rewrite <- app_comm_cons.
  rewrite (app_comm_cons l (dropna more) x).
  rewrite existsb_app, filter_app, !forallb_app.
  destruct (existsb is_collection (x :: l)),
           (existsb is_collection (dropna more)),
           (forallb int_candidate (filter not_none_text (x :: l))),
           (forallb int_candidate (filter not_none_text (dropna more))),
           (forallb (float_candidate float_of_str)
                    (filter not_none_text (x :: l))),
           (forallb (float_candidate float_of_str)
                    (filter not_none_text (dropna more)));
    simpl; lia.
Qed.

End Inferrer.

(** X8, on a column and the same column shuffled, with a row repeated. *)
Lemma infer_by_membership_witness :
  _infer_column_type PyLib.float_of_str [PInt 1; PStr "2.5"; PInt 1]
  = _infer_column_type PyLib.float_of_str [PStr "2.5"; PInt 1].
Proof.
  apply (infer_by_membership PyLib.float_of_str
           [PInt 1; PStr "2.5"; PInt 1] [PStr "2.5"; PInt 1]).
  intro x. simpl. tauto.
Defined.

(** X9, on a column of integers that meets a decimal and a word. *)
Lemma infer_widens_witness :
  width (_infer_column_type PyLib.float_of_str [PInt 1; PStr "7"])
  <= width (_infer_column_type PyLib.float_of_str
              ([PInt 1; PStr "7"] ++ [PStr "1.5"; PStr "n/a"])).
Proof.
  apply (infer_widens PyLib.float_of_str
           [PInt 1; PStr "7"] [PStr "1.5"; PStr "n/a"]).
  discriminate.
Defined.

End SchemaFacts.

(* ------------------------------------------------------------------ *)
(** ** The clean-up of a batch before the DataFrame *)

Module Cleanup.
Import Val Normalizer.

(** [v is None] *)
Definition is_none (x : pyval) : bool :=
  match x with PNone => true | _ => false end.

(** What a cell of the DataFrame can hold after the clean-up: no list and no
    dict. *)
Definition scalar (x : pyval) : Prop := is_collection x = false.

Section WithJson.
Variable json_dumps : pyval -> string.

(** Lines 446-457: the value stored under a key of [processed_item]. *)
Definition clean_value (value : pyval) : pyval :=
  match value with
  | PNone => PNone
  | PDict d =>
      match filter (fun kv => negb (is_none (snd kv))) d with
      | [] => PNone
      | cleaned_dict => PStr (json_dumps (PDict cleaned_dict))
      end
  | PList l =>
      match filter (fun v => negb (is_none v)) l with
      | [] => PNone
      | cleaned_list => PStr (json_dumps (PList cleaned_list))
      end
  | _ => value
  end.

(** Lines 444-457: [processed_item], built key by key. *)
Definition clean_item (item : list (string * pyval))
  : list (string * pyval) :=
  dict_of_items (map (fun kv => (fst kv, clean_value (snd kv))) item).

(** Lines 439-458: [processed_data]; the items of [batch_data] are the
    dicts [_flatten_dict] returned, none is [None]. *)
Definition processed_data (batch_data : list (list (string * pyval)))
  : list (list (string * pyval)) :=
  map clean_item batch_data.

(** *** Properties of the clean-up *)

Lemma clean_value_scalar (value : pyval) : scalar (clean_value value).
Proof.
  unfold scalar. destruct value; simpl; try reflexivity.
  - now destruct (filter _ l).
  - now destruct (filter _ d).
Qed.

Lemma clean_value_fixed (value : pyval) :
  scalar value -> clean_value value = value.
Proof.
  unfold scalar. destruct value; simpl; congruence.
Qed.

Lemma keys_clean (item : list (string * pyval)) :
  map fst (map (fun kv => (fst kv, clean_value (snd kv))) item)
  = map fst item.
Proof.
  rewrite map_map. now apply map_ext.
Qed.

Lemma clean_item_nodup (item : list (string * pyval)) :
  NoDup (map fst item) ->
  clean_item item = map (fun kv => (fst kv, clean_value (snd kv))) item.
Proof.
  intro H. unfold clean_item. apply dict_of_items_nodup.
  now rewrite keys_clean.
Qed.

Lemma normalize_keys_nodup (parsed : pyval) :
  NoDup (map fst (normalize json_dumps parsed)).
Proof.
  unfold normalize.
  destruct (_preprocess_complex_fields json_dumps parsed);
    try (repeat constructor; intros []).
  rewrite flatten_dict_eq. apply NormalizerFacts.nodup_dict_of_items.
Qed.

(** X10. From a parsed entry to the rows of the DataFrame: the cleaned
    record has the keys of the flattened record, in the same order; every
    value is a scalar (null, boolean, number or text), never a list or a
    dict; a value that is no list is the value of the flattened record; a
    list became the JSON text of its items that are not null, or null when
    none is left; and a second clean-up changes nothing. *)
Theorem cleaned_record_is_scalar (parsed : pyval) :
  let flat := normalize json_dumps parsed in
  map fst (clean_item flat) = map fst flat
  /\ Forall (fun kv => scalar (snd kv)) (clean_item flat)
  /\ (forall k v, In (k, v) flat -> (forall l, v <> PList l) ->
                  In (k, v) (clean_item flat))
  /\ (forall k l, In (k, PList l) flat ->
                  In (k, match filter (fun v => negb (is_none v)) l with
                         | [] => PNone
                         | kept => PStr (json_dumps (PList kept))
                         end) (clean_item flat))
  /\ clean_item (clean_item flat) = clean_item flat.
Proof.
  intro flat.
  assert (Hnd : NoDup (map fst flat)) by apply normalize_keys_nodup.
  assert (Hfree : NormalizerFacts.dict_free flat)
    by apply NormalizerFacts.flatten_dict_free.
  rewrite (clean_item_nodup flat Hnd).
  split; [apply keys_clean|]. split; [| split; [| split]].
  - apply Forall_forall. intros kv Hin. apply in_map_iff in Hin.
    destruct Hin as (kv0 & <- & _). apply clean_value_scalar.
  - intros k v Hin Hv. apply in_map_iff. exists (k, v). split; [| exact Hin].
    simpl. f_equal. apply clean_value_fixed. unfold scalar.
    unfold NormalizerFacts.dict_free in Hfree. rewrite Forall_forall in Hfree.
    specialize (Hfree _ Hin). simpl in Hfree.
    destruct v; try reflexivity; [now destruct (Hv l) | discriminate].
  - intros k l Hin. apply in_map_iff. exists (k, PList l).
    split; [reflexivity | exact Hin].
  - rewrite clean_item_nodup by (now rewrite keys_clean).
    rewrite map_map. apply map_ext. intros [k v]. simpl. f_equal.
    apply clean_value_fixed. apply clean_value_scalar.
Qed.

End WithJson.

End Cleanup.

(* ------------------------------------------------------------------ *)
(** ** More of the pipeline: a whole run *)

Module PipelineFacts.
Import Pipeline.

(** The batch numbers of the appends of a trace, in order. *)
Fixpoint batch_numbers {Batch : Type} (t : list (event Batch)) : list nat :=
  match t with
  | [] => []
  | EvAppend _ n _ :: t' => n :: batch_numbers t'
  | _ :: t' => batch_numbers t'
  end.

(** An event of the conversion of [log_type] into [table_name] out of
    [files]: a wait, an append to that table, or a line for one of the files
    in the ledger of that log type. *)
Definition own_event {Batch : Type} (log_type table_name : string)
           (files : list string) (ev : event Batch) : Prop :=
  match ev with
  | EvSleep _ => True
  | EvAppend tbl _ _ => tbl = table_name
  | EvMark lt f => lt = log_type /\ In f files
  end.

(** The files one conversion of a run starts from. *)
Definition new_files {Flat : Type} (self : DeltaConverter Flat)
           (log_type : string) : list string :=
  select_new (processed_files self)
             (_find_json_files self (source_prefix self log_type)).

(** A world with a file that is listed but cannot be read. *)
Definition file_gone : string := "tidb-logs/statement/gone.json".

Definition demo_gone : DeltaConverter string :=
  {| bucket_name := "tidb-logs";
     processed_files := [];
     s3_find := fun prefix =>
       if String.eqb prefix "tidb-logs/statement/"
       then inr [file_a; file_gone; file_b]
       else inr [];
     s3_read := fun path =>
       if String.eqb path file_a then inr ["row a"]
       else if String.eqb path file_b then inr ["row b"]
       else inl "NoSuchKey";
     delta_write := always_ok;
     s3_save := save_all |}.

(** A world whose only file holds no usable line. *)
Definition noise : string :=
  "time=12:00 level=info" ++ Lines.nl ++ "   " ++ Lines.nl ++ "{broken".

Definition demo_noise : DeltaConverter (list (string * Val.pyval)) :=
  {| bucket_name := "tidb-logs";
     processed_files := [];
     s3_find := fun prefix => inr [file_a];
     s3_read := fun path =>
       inr (Lines.parse_content PyLib.json_loads PyLib.json_dumps noise);
     delta_write := always_ok;
     s3_save := save_all |}.

Definition keep_rows (batch_data : list (list (string * Val.pyval)))
  : Py.exn + list (list (string * Val.pyval)) :=
  inr batch_data.

Section Properties.

Variable Flat : Type.
Variable Batch : Type.
Variable prepare : list Flat -> Py.exn + Batch.

(** The write of the batch of [f] raises, after the retries. *)
Definition write_raises (self : DeltaConverter Flat) (f : string) : Prop :=
  exists bd,
    s3_read self f = inr bd /\
    Py.raises (_write_batch_to_delta prepare (delta_write self f) bd "" 0)
    = true.

(** The batch a conversion appends for a file: none when the file cannot be
    read or yields no record. *)
Definition batch_of (self : DeltaConverter Flat) (f : string) : list Batch :=
  match s3_read self f with
  | inr (r :: bd) =>
      match prepare (r :: bd) with
      | inr b => [b]
      | inl _ => []
      end
  | _ => []
  end.

Lemma batch_numbers_app (t1 t2 : list (event Batch)) :
  batch_numbers (t1 ++ t2) = (batch_numbers t1 ++ batch_numbers t2)%list.
Proof.
  induction t1 as [| [s | tbl n b | lt f] t1 IH]; simpl; congruence.
Qed.

Lemma batch_numbers_sleeps (ss : list nat) :
  batch_numbers (Batch := Batch) (map EvSleep ss) = [].
Proof. induction ss; simpl; auto. Qed.

Lemma batch_numbers_mark_if (self : DeltaConverter Flat) (lt f : string) :
  batch_numbers (Batch := Batch) (mark_if self lt f) = [].
Proof. unfold mark_if. now destruct (s3_save self f). Qed.

Lemma loop_batch_numbers (self : DeltaConverter Flat) (lt tbl : string)
      (files : list string) (n : nat) :
  batch_numbers (Py.events (convert_loop prepare self lt tbl files n))
  = seq n (List.length
             (appended
                (Py.events (convert_loop prepare self lt tbl files n)))).
Proof.
  revert n. induction files as [| f rest IH]; intro n; [reflexivity|].
  rewrite convert_loop_cons.
  destruct (s3_read self f) as [e | bd]; [apply IH|].
  rewrite bind_events, batch_numbers_app, appended_app, length_app.
  destruct (process_file_cases _ _ prepare self lt tbl f bd n)
    as [ss e Hne Hw | Hnil | ss b Hne Hp Hw];
    cbn [Py.events Py.outcome fst snd].
  - now rewrite batch_numbers_sleeps, appended_sleeps.
  - subst bd. rewrite batch_numbers_mark_if, appended_mark_if. apply IH.
  - rewrite !batch_numbers_app, !appended_app, batch_numbers_sleeps,
      appended_sleeps, batch_numbers_mark_if, appended_mark_if.
    destruct bd as [| r bd]; [congruence|].
    cbn [app batch_numbers appended List.length seq].
    now rewrite IH.
Qed.

(** X11. Batch numbers: within one conversion the appends carry the numbers
    1, 2, 3, ... in order, without gap or repeat, whatever files were
    skipped, empty or refused along the way and whether or not the loop ran
    to its end; the number of a batch is one more than the number of batches
    appended before it. *)
Theorem batch_numbers_consecutive (self : DeltaConverter Flat)
        (lt tbl : string) :
  batch_numbers (Py.events (convert prepare self lt tbl))
  = seq 1 (List.length (appended (Py.events (convert prepare self lt tbl))))
  /\ (forall t1 t2 tb n b,
         Py.events (convert prepare self lt tbl)
         = (t1 ++ EvAppend tb n b :: t2)%list ->
         n = S (List.length (appended t1))).
Proof.
  assert (Hnum : batch_numbers (Py.events (convert prepare self lt tbl))
                 = seq 1 (List.length
                            (appended
                               (Py.events (convert prepare self lt tbl)))))
    by (rewrite convert_eq; apply loop_batch_numbers).
  split; [exact Hnum|].
  intros t1 t2 tb n b Heq. rewrite Heq in Hnum.
  rewrite batch_numbers_app, appended_app, length_app in Hnum.
  cbn [batch_numbers appended List.length] in Hnum.
  rewrite seq_app in Hnum.
  assert (Hlen : List.length (batch_numbers t1) = List.length (appended t1)).
  { clear. induction t1 as [| [s | tb' m b' | l g] t1 IH]; simpl; congruence. }
  apply (f_equal (fun l => nth_error l (List.length (batch_numbers t1))))
    in Hnum.
  rewrite nth_error_app2 in Hnum by lia.
  rewrite Nat.sub_diag in Hnum. cbn [nth_error] in Hnum.
  rewrite Hlen in Hnum.
  rewrite nth_error_app2 in Hnum by (rewrite length_seq; lia).
  rewrite length_seq, Nat.sub_diag in Hnum. cbn [seq nth_error] in Hnum.
  injection Hnum as ->. lia.
Qed.

Lemma write_raises_any (self : DeltaConverter Flat) (f : string)
      (bd : list Flat) (tbl : string) (n : nat) :
  s3_read self f = inr bd ->
  Py.raises (_write_batch_to_delta prepare (delta_write self f) bd tbl n)
  = true ->
  write_raises self f.
Proof.
  intros Hr Hw. exists bd. split; [exact Hr|].
  now rewrite (write_batch_raises_indep _ _ prepare _ _ "" tbl 0 n).
Qed.

Lemma loop_raises_iff (self : DeltaConverter Flat) (lt tbl : string)
      (files : list string) (n : nat) :
  Py.raises (convert_loop prepare self lt tbl files n) = true <->
  exists f, In f files /\ write_raises self f.
Proof.
  revert n. induction files as [| f rest IH]; intro n.
  - split; [discriminate | intros (f & [] & _)].
  - assert (Hrest : forall m,
               (forall bd, s3_read self f = inr bd ->
                  Py.raises (_write_batch_to_delta prepare (delta_write self f)
                                                   bd tbl n) = false) ->
               (Py.raises (convert_loop prepare self lt tbl rest m) = true <->
                exists g, In g (f :: rest) /\ write_raises self g)).
    { intros m Hf. destruct (IH m) as [I1 I2]. split.
      - intro H. destruct (I1 H) as (g & Hg & Hw).
        exists g. split; [now right | exact Hw].
      - intros (g & [<- | Hg] & Hw); [| apply I2; now exists g].
        destruct Hw as (bd & Hbd & Hw).
        rewrite (write_batch_raises_indep _ _ prepare _ _ "" tbl 0 n) in Hw.
        rewrite (Hf bd Hbd) in Hw. discriminate. }
    rewrite convert_loop_cons.
    destruct (s3_read self f) as [e | bd] eqn:Hr.
    + apply Hrest. intros bd Hbd. discriminate.
    + unfold Py.raises at 1. rewrite bind_outcome.
      destruct (process_file_cases _ _ prepare self lt tbl f bd n)
        as [ss e Hne Hw | Hnil | ss b Hne Hp Hw];
        cbn [Py.outcome snd].
      * split; [intros _ | reflexivity].
        exists f. split; [now left | now apply (write_raises_any _ _ bd tbl n)].
      * subst bd. apply Hrest. intros bd Hbd. injection Hbd as <-.
        apply write_batch_nil_ok.
      * destruct bd as [| r bd]; [congruence|].
        apply Hrest. intros bd' Hbd. injection Hbd as <-. exact Hw.
Qed.

Lemma convert_raises_iff (self : DeltaConverter Flat) (lt tbl : string) :
  Py.raises (convert prepare self lt tbl) = true <->
  exists f, In f (new_files self lt) /\ write_raises self f.
Proof. rewrite convert_eq. apply loop_raises_iff. Qed.

Lemma run_raises (self : DeltaConverter Flat) :
  Py.raises (run prepare self) =
  Py.raises (convert_statements prepare self)
  || Py.raises (convert_slowlogs prepare self).
Proof.
  unfold run, Py.raises. rewrite bind_outcome.
  now destruct (Py.outcome (convert_statements prepare self)).
Qed.

(** X12. The exit status: the process exits with 1 exactly when the write
    of the batch of some new statement or slowlog file raises, and with 0
    otherwise; a listing that fails, a file that cannot be read and a ledger
    line that cannot be written never change the status.  When a statement
    batch is refused the slowlogs are not looked at. *)
Theorem exit_status_counts_writes (self : DeltaConverter Flat) :
  (main prepare self = 1 <->
   exists lt f, In lt ["statement"; "slowlog"]
                /\ In f (new_files self lt) /\ write_raises self f)
  /\ (main prepare self = 0 <->
      forall lt f, In lt ["statement"; "slowlog"] ->
                   In f (new_files self lt) -> ~ write_raises self f)
  /\ (Py.raises (convert_statements prepare self) = true ->
      run prepare self = convert_statements prepare self).
Proof.
  assert (Hraise : Py.raises (run prepare self) = true <->
                   exists lt f, In lt ["statement"; "slowlog"]
                     /\ In f (new_files self lt) /\ write_raises self f).
  { rewrite run_raises, orb_true_iff. unfold convert_statements,
      convert_slowlogs. rewrite !convert_raises_iff. split.
    - intros [(f & Hf & Hw) | (f & Hf & Hw)].
      + exists "statement", f. simpl. auto.
      + exists "slowlog", f. simpl. auto.
    - intros (lt & f & [<- | [<- | []]] & Hf & Hw);
        [left | right]; now exists f. }
  unfold main. split; [| split].
  - rewrite <- Hraise. destruct (Py.raises (run prepare self));
      split; congruence.
  - split.
    + intros H0 lt f Hlt Hf Hw.
      assert (Hr : Py.raises (run prepare self) = true)
        by (apply Hraise; now exists lt, f).
      rewrite Hr in H0. discriminate.
    + intro Hnone. destruct (Py.raises (run prepare self)) eqn:E;
        [| reflexivity].
      destruct (proj1 Hraise eq_refl) as (lt & f & Hlt & Hf & Hw).
      destruct (Hnone lt f Hlt Hf Hw).
  - unfold run, Py.raises, Py.bind.
    destruct (convert_statements prepare self) as [t [e | []]];
      simpl; [intros _; reflexivity | discriminate].
Qed.

Lemma own_event_mono (lt tbl : string) (files files' : list string)
      (ev : event Batch) :
  incl files files' -> own_event lt tbl files ev -> own_event lt tbl files' ev.
Proof.
  intros Hincl. destruct ev; simpl; auto. intros [-> H]. auto.
Qed.

Lemma loop_events_own (self : DeltaConverter Flat) (lt tbl : string)
      (files : list string) (n : nat) :
  Forall (own_event lt tbl files)
         (Py.events (convert_loop prepare self lt tbl files n)).
Proof.
  revert n. induction files as [| f rest IH]; intro n; [constructor|].
  assert (Hrest : forall m,
             Forall (own_event lt tbl (f :: rest))
                    (Py.events (convert_loop prepare self lt tbl rest m))).
  { intro m. eapply Forall_impl; [| apply IH].
    intro ev. apply own_event_mono. now apply incl_tl. }
  assert (Hmark : Forall (own_event lt tbl (f :: rest))
                         (mark_if (Batch := Batch) self lt f)).
  { unfold mark_if. destruct (s3_save self f); repeat constructor. }
  assert (Hsleep : forall ss, Forall (own_event (Batch := Batch) lt tbl
                                                 (f :: rest))
                                     (map EvSleep ss)).
  { intro ss. apply Forall_forall. intros ev Hin. apply in_map_iff in Hin.
    destruct Hin as (s & <- & _). exact I. }
  rewrite convert_loop_cons.
  destruct (s3_read self f) as [e | bd]; [apply Hrest|].
  rewrite bind_events. apply Forall_app. split.
  - destruct (process_file_cases _ _ prepare self lt tbl f bd n)
      as [ss e Hne Hw | Hnil | ss b Hne Hp Hw]; cbn [Py.events fst].
    + apply Hsleep.
    + exact Hmark.
    + apply Forall_app. split; [| exact Hmark].
      apply Forall_app. split; [apply Hsleep|].
      repeat constructor.
  - destruct (Py.outcome _); [constructor | apply Hrest].
Qed.

Lemma find_json_files_log (self : DeltaConverter Flat) (prefix f : string) :
  In f (_find_json_files self prefix) -> is_log_file f = true.
Proof.
  unfold _find_json_files. destruct (s3_find self prefix); [intros []|].
  intro H. apply filter_In in H. now destruct H.
Qed.

Lemma run_events (self : DeltaConverter Flat) (ev : event Batch) :
  In ev (Py.events (run prepare self)) ->
  In ev (Py.events (convert_statements prepare self))
  \/ In ev (Py.events (convert_slowlogs prepare self)).
Proof.
  unfold run. rewrite bind_events, in_app_iff.
  intros [H | H]; [now left|].
  destruct (Py.outcome _); [destruct H | now right].
Qed.

Lemma convert_events_own (self : DeltaConverter Flat) (lt tbl : string) :
  Forall (own_event lt tbl (new_files self lt))
         (Py.events (convert prepare self lt tbl)).
Proof. rewrite convert_eq. apply loop_events_own. Qed.

(** A ledger line of a run stands in the ledger of the log type whose
    conversion wrote it, for one of the new files of that conversion. *)
Lemma run_mark_found (self : DeltaConverter Flat) (lt f : string) :
  In (EvMark lt f) (Py.events (run prepare self)) ->
  (lt = "statement" \/ lt = "slowlog") /\ In f (new_files self lt).
Proof.
  intro Hin. apply run_events in Hin.
  assert (Hone : forall lt0 tbl,
             In (EvMark lt f) (Py.events (convert prepare self lt0 tbl)) ->
             lt = lt0 /\ In f (new_files self lt0)).
  { intros lt0 tbl H. pose proof (convert_events_own self lt0 tbl) as Ho.
    rewrite Forall_forall in Ho. exact (Ho _ H). }
  destruct Hin as [Hin | Hin]; apply Hone in Hin; destruct Hin as [-> Hin].
  - split; [now left | exact Hin].
  - split; [now right | exact Hin].
Qed.

Lemma new_files_found (self : DeltaConverter Flat) (lt f : string) :
  In f (new_files self lt) ->
  In f (_find_json_files self (source_prefix self lt))
  /\ is_log_file f = true /\ ~ In f (processed_files self).
Proof.
  intro H. apply select_new_In in H. destruct H as [H1 H2].
  split; [exact H1|]. split; [| exact H2].
  now apply (find_json_files_log self (source_prefix self lt)).
Qed.

(** X13. What a run touches: every append goes to the table of statements
    or to the table of slowlogs, with a batch number from 1 on; every ledger
    line is written to the ledger of the log type under whose prefix the file
    was listed, for a file with a log suffix that was not in the ledgers
    when the run began. *)
Theorem run_touches_own_targets (self : DeltaConverter Flat) :
  (forall tbl n b,
      In (EvAppend tbl n b) (Py.events (run prepare self)) ->
      (tbl = "persisted_statements_summary" \/ tbl = "slowlogs") /\ 1 <= n)
  /\ (forall lt f,
         In (EvMark lt f) (Py.events (run prepare self)) ->
         (lt = "statement" \/ lt = "slowlog")
         /\ In f (_find_json_files self (source_prefix self lt))
         /\ is_log_file f = true
         /\ ~ In f (processed_files self)).
Proof.
  pose proof (convert_events_own self) as Hown.
  assert (Hnum : forall lt tb n b,
             In (EvAppend tb n b) (Py.events (convert prepare self lt tb)) ->
             1 <= n).
  { intros lt tb n b H.
    assert (Hn : In n (batch_numbers
                         (Py.events (convert prepare self lt tb)))).
    { apply in_split in H. destruct H as (t1 & t2 & ->).
      rewrite batch_numbers_app, in_app_iff. right. now left. }
    rewrite convert_eq, loop_batch_numbers in Hn.
    apply in_seq in Hn. lia. }
  split.
  - intros tbl n b Hin. apply run_events in Hin.
    destruct Hin as [Hin | Hin].
    + pose proof (Hown "statement" "persisted_statements_summary") as H.
      rewrite Forall_forall in H. pose proof (H _ Hin) as Htbl.
      simpl in Htbl. subst tbl. split; [now left|].
      exact (Hnum _ _ _ _ Hin).
    + pose proof (Hown "slowlog" "slowlogs") as H.
      rewrite Forall_forall in H. pose proof (H _ Hin) as Htbl.
      simpl in Htbl. subst tbl. split; [now right|].
      exact (Hnum _ _ _ _ Hin).
  - intros lt f Hin. apply run_mark_found in Hin.
    destruct Hin as [Hlt Hin]. split; [exact Hlt|].
    now apply new_files_found.
Qed.

(** A loop that ends normally has written the ledger line of every listed
    file that could be read, when the ledger accepts it. *)
Lemma completed_loop_marks (self : DeltaConverter Flat) (lt tbl : string)
      (files : list string) (n : nat) (f : string) :
  Py.outcome (convert_loop prepare self lt tbl files n) = inr tt ->
  In f files -> readable self f = true -> s3_save self f = true ->
  In f (marked (Py.events (convert_loop prepare self lt tbl files n))).
Proof.
  intros Hok Hin Hr Hs. revert n Hok.
  induction files as [| g rest IH]; intros n Hok; [destruct Hin|].
  assert (Hmark : g = f -> In f (marked (Batch := Batch) (mark_if self lt g))).
  { intros ->. unfold mark_if. rewrite Hs. now left. }
  rewrite convert_loop_cons in *. unfold readable in Hr.
  destruct (s3_read self g) as [e | bdg] eqn:Hg.
  - destruct Hin as [-> | Hin]; [now rewrite Hg in Hr | now apply IH].
  - rewrite bind_outcome in Hok. rewrite bind_events, marked_app, in_app_iff.
    destruct (process_file_cases _ _ prepare self lt tbl g bdg n)
      as [ss e Hneg Hw | Hnil | ss b' Hneg Hp' Hw]; simpl in Hok |- *.
    + discriminate Hok.
    + destruct Hin as [E | Hin]; [left; now apply Hmark|].
      right. now apply IH.
    + destruct Hin as [E | Hin].
      * left. rewrite !marked_app, in_app_iff. right. now apply Hmark.
      * right. now apply IH.
Qed.

Lemma in_set_app (x : string) (l1 l2 : list string) :
  in_set x (l1 ++ l2) = in_set x l1 || in_set x l2.
Proof. unfold in_set. apply existsb_app. Qed.

Lemma filter_filter (A : Type) (p q : A -> bool) (l : list A) :
  filter q (filter p l) = filter (fun x => p x && q x) l.
Proof.
  induction l as [| x l IH]; simpl; [reflexivity|].
  destruct (p x); simpl; [| exact IH].
  destruct (q x); now rewrite IH.
Qed.

(** X14. The next run: after a run that ended normally in a world whose
    ledger accepts every line, the files the next run selects under a prefix
    are exactly the new files of this run that could not be read, in listing
    order; every other file is in the ledgers and is not converted twice. *)
Theorem next_run_selects_unread (self : DeltaConverter Flat)
        (lt : string) :
  Py.outcome (run prepare self) = inr tt ->
  (forall f, s3_save self f = true) ->
  In lt ["statement"; "slowlog"] ->
  select_new (ledger_after self (Py.events (run prepare self)))
             (_find_json_files self (source_prefix self lt))
  = filter (fun f => negb (readable self f)) (new_files self lt).
Proof.
  intros Hok Hsave Hlt.
  assert (Hboth : Py.outcome (convert_statements prepare self) = inr tt
                  /\ Py.outcome (convert_slowlogs prepare self) = inr tt
                  /\ Py.events (run prepare self)
                     = (Py.events (convert_statements prepare self)
                        ++ Py.events (convert_slowlogs prepare self))%list).
  { unfold run in *. rewrite bind_outcome in Hok. rewrite bind_events.
    destruct (Py.outcome (convert_statements prepare self)) as [e | []];
      [discriminate|].
    destruct (Py.outcome (convert_slowlogs prepare self)) as [e | []];
      [discriminate|]. auto. }
  destruct Hboth as (Hst & Hsl & Hev).
  unfold new_files, select_new, ledger_after.
  rewrite filter_filter. apply filter_ext_in. intros f Hf.
  rewrite in_set_app.
  destruct (in_set f (processed_files self)) eqn:Hp; [reflexivity|].
  cbn [orb negb andb]. f_equal.
  assert (Hnew : In f (new_files self lt)).
  { apply select_new_In. split; [exact Hf|].
    intro H. apply in_set_In in H. congruence. }
  destruct (readable self f) eqn:Hr.
  - apply in_set_In. rewrite Hev, marked_app, in_app_iff.
    destruct Hlt as [<- | [<- | []]]; [left | right];
      unfold convert_statements, convert_slowlogs in *;
      rewrite convert_eq in *;
      now apply completed_loop_marks.
  - apply not_true_iff_false. intro H. apply in_set_In in H.
    rewrite Hev, marked_app, in_app_iff in H.
    unfold convert_statements, convert_slowlogs in H.
    rewrite !convert_eq in H.
    destruct H as [H | H]; apply marked_is_readable in H; congruence.
Qed.

Lemma marked_mark_if_eq (self : DeltaConverter Flat) (lt f : string) :
  marked (Batch := Batch) (mark_if self lt f)
  = if s3_save self f then [f] else [].
Proof. unfold mark_if. now destruct (s3_save self f). Qed.

(** X20. Exactly once: a conversion that ends normally has appended one
    batch for every new file that yields records, and none for any other, in
    listing order; it has recorded every new file that could be read and
    whose ledger line could be written, and no other, in listing order. *)
Theorem completed_conversion_exactly_once (self : DeltaConverter Flat)
        (lt tbl : string) :
  (forall files n,
      Py.outcome (convert_loop prepare self lt tbl files n) = inr tt ->
      appended (Py.events (convert_loop prepare self lt tbl files n))
      = flat_map (batch_of self) files
      /\ marked (Py.events (convert_loop prepare self lt tbl files n))
         = filter (fun f => readable self f && s3_save self f) files)
  /\ (Py.outcome (convert prepare self lt tbl) = inr tt ->
      appended (Py.events (convert prepare self lt tbl))
      = flat_map (batch_of self) (new_files self lt)
      /\ marked (Py.events (convert prepare self lt tbl))
         = filter (fun f => readable self f && s3_save self f)
                  (new_files self lt)).
Proof.
  assert (Hloop : forall files n,
      Py.outcome (convert_loop prepare self lt tbl files n) = inr tt ->
      appended (Py.events (convert_loop prepare self lt tbl files n))
      = flat_map (batch_of self) files
      /\ marked (Py.events (convert_loop prepare self lt tbl files n))
         = filter (fun f => readable self f && s3_save self f) files).
  { induction files as [| f rest IH]; intros n Hok; [now split|].
    rewrite convert_loop_cons in *.
    cbn [flat_map filter]. unfold batch_of at 1, readable at 1.
    destruct (s3_read self f) as [e | bd] eqn:Hr; [now apply IH|].
    rewrite bind_outcome in Hok.
    rewrite bind_events, appended_app, marked_app.
    destruct (process_file_cases _ _ prepare self lt tbl f bd n)
      as [ss e Hne Hw | Hnil | ss b Hne Hp Hw];
      cbn [Py.events Py.outcome fst snd] in Hok |- *.
    - discriminate Hok.
    - subst bd. destruct (IH _ Hok) as [-> ->].
      rewrite appended_mark_if, marked_mark_if_eq.
      now destruct (s3_save self f).
    - destruct bd as [| r bd]; [congruence|].
      destruct (IH _ Hok) as [-> ->]. rewrite Hp.
      rewrite !appended_app, !marked_app, appended_sleeps, marked_sleeps,
        appended_mark_if, marked_mark_if_eq.
      now destruct (s3_save self f). }
  split; [exact Hloop|].
  rewrite convert_eq. apply Hloop.
Qed.

End Properties.

Section Reading.

Variable Batch : Type.
Variable prepare : list (list (string * Val.pyval)) -> Py.exn + Batch.
Variable json_loads : string -> option Val.pyval.
Variable json_dumps : Val.pyval -> string.


End Reading.

(** X12, on the world whose store refuses the batch of the first file. *)
Lemma exit_status_counts_writes_witness :
  main demo_prepare (demo [] disk_full save_all) = 1.
Proof.
  apply (proj1 (exit_status_counts_writes string (list string) demo_prepare
                  (demo [] disk_full save_all))).
  exists "statement", file_a. split; [now left|]. split.
  - vm_compute. now left.
  - exists ["row a"]. split; reflexivity.
Defined.

(** X20, on the statements of a world whose ledger refuses the line of the
    first file. *)
Lemma completed_conversion_exactly_once_witness :
  appended (Py.events (convert_statements demo_prepare
                         (demo [] always_ok save_but_a)))
  = [["row a"]; ["row b"]]
  /\ marked (Py.events (convert_statements demo_prepare
                          (demo [] always_ok save_but_a)))
     = [file_b].
Proof.
  destruct (proj2 (completed_conversion_exactly_once
                     string (list string) demo_prepare
                     (demo [] always_ok save_but_a)
                     "statement" "persisted_statements_summary"))
    as [H1 H2].
  - vm_compute. reflexivity.
  - unfold convert_statements. rewrite H1, H2.
    split; vm_compute; reflexivity.
Defined.

(** X14, on a run over three files, the second of which cannot be read. *)
Lemma next_run_selects_unread_witness :
  select_new (ledger_after demo_gone
                           (Py.events (run demo_prepare demo_gone)))
             (_find_json_files demo_gone
                               (source_prefix demo_gone "statement"))
  = [file_gone].
Proof.
  rewrite (next_run_selects_unread string (list string) demo_prepare
             demo_gone "statement"
             ltac:(vm_compute; reflexivity)
             (fun _ => eq_refl)
             (or_introl eq_refl)).
  vm_compute. reflexivity.
Defined.


End PipelineFacts.

(* ------------------------------------------------------------------ *)
(** ** More of the DataFrame stage: renames and shape *)

Module FrameFacts.
Import Val Schema Frame.

(** A column under another name. *)
Definition renamed (new : string) (c : column) : column :=
  {| c_name := new; c_dtype := c_dtype c; c_cells := c_cells c |}.

(** One [if old in df.columns: df = df.rename(columns={old: new})]. *)
Definition rename_step (d : DataFrame) (r : string * string) : DataFrame :=
  if has_col d (fst r) then rename_col d (fst r) (snd r) else d.

(** Every column has one cell per row. *)
Definition well_formed (df : DataFrame) : Prop :=
  Forall (fun c => List.length (c_cells c) = df_len df) (df_columns df).

(** [df'] has the rows of [df] and at least its number of columns. *)
Definition grows (df df' : DataFrame) : Prop :=
  well_formed df' /\ df_len df' = df_len df
  /\ List.length (df_columns df) <= List.length (df_columns df').

(** Three statements with their request units. *)
Definition units_frame : DataFrame :=
  {| df_len := 3;
     df_columns :=
       [ {| c_name := "digest"; c_dtype := dt_object;
            c_cells := [PStr "d1"; PStr "d2"; PStr "d3"] |};
         {| c_name := "sum_rru"; c_dtype := dt_int64;
            c_cells := [PInt 40; PInt 2; PInt 0] |};
         {| c_name := "max_wru"; c_dtype := dt_int64;
            c_cells := [PInt 7; PInt 1; PInt 0] |} ] |}.

(** *** Renames *)

Lemma rename_absent (df : DataFrame) (o n : string) :
  has_col df o = false -> rename_col df o n = df.
Proof.
  destruct df as [len cols]. unfold has_col, rename_col. simpl.
  intro H. f_equal. induction cols as [| c cols IH]; [reflexivity|].
  simpl in H. apply orb_false_iff in H. destruct H as [Hc Hcols].
  simpl. now rewrite Hc, (IH Hcols).
Qed.

Lemma rename_step_eq (d : DataFrame) (r : string * string) :
  rename_step d r = rename_col d (fst r) (snd r).
Proof.
  unfold rename_step. destruct (has_col d (fst r)) eqn:E; [reflexivity|].
  symmetry. now apply rename_absent.
Qed.

Lemma apply_renames_fold (df : DataFrame) :
  apply_renames df = fold_left rename_step rename_table df.
Proof. reflexivity. Qed.

Lemma named_renamed (x n : string) (c : column) :
  named x (renamed n c) = String.eqb n x.
Proof. reflexivity. Qed.

Lemma get_rename_other (df : DataFrame) (o n x : string) :
  x <> o -> x <> n -> get_col (rename_col df o n) x = get_col df x.
Proof.
  intros Ho Hn. unfold get_col, rename_col. cbn [df_columns].
  induction (df_columns df) as [| c cols IH]; [reflexivity|].
  cbn [map find]. destruct (named o c) eqn:Eo.
  - fold (renamed n c). rewrite named_renamed.
    assert (H1 : String.eqb n x = false)
      by (apply String.eqb_neq; congruence).
    assert (H2 : named x c = false).
    { unfold named in *. apply String.eqb_eq in Eo. apply String.eqb_neq.
      congruence. }
    rewrite H1, H2. exact IH.
  - destruct (named x c); [reflexivity | exact IH].
Qed.

Lemma get_rename_new (df : DataFrame) (o n : string) :
  has_col df n = false ->
  get_col (rename_col df o n) n = option_map (renamed n) (get_col df o).
Proof.
  unfold has_col, get_col, rename_col. cbn [df_columns].
  induction (df_columns df) as [| c cols IH]; [reflexivity|].
  cbn [map find existsb]. intro H. apply orb_false_iff in H.
  destruct H as [Hc Hcols]. destruct (named o c) eqn:Eo.
  - fold (renamed n c). rewrite named_renamed, String.eqb_refl. reflexivity.
  - rewrite Hc. now apply IH.
Qed.

Lemma get_rename_old (df : DataFrame) (o n : string) :
  o <> n -> get_col (rename_col df o n) o = None.
Proof.
  intro Hne. unfold get_col, rename_col. cbn [df_columns].
  induction (df_columns df) as [| c cols IH]; [reflexivity|].
  cbn [map find]. destruct (named o c) eqn:Eo.
  - fold (renamed n c). rewrite named_renamed.
    assert (H1 : String.eqb n o = false)
      by (apply String.eqb_neq; congruence).
    rewrite H1. exact IH.
  - rewrite Eo. exact IH.
Qed.

Lemma has_col_none (df : DataFrame) (name : string) :
  has_col df name = false <-> get_col df name = None.
Proof.
  rewrite get_col_has. destruct (get_col df name); split; congruence.
Qed.

Lemma renames_untouched (tab : list (string * string)) (df : DataFrame)
      (x : string) :
  ~ In x (map fst tab) -> ~ In x (map snd tab) ->
  get_col (fold_left rename_step tab df) x = get_col df x.
Proof.
  revert df. induction tab as [| [o n] rest IH]; intros df Ho Hn;
    [reflexivity|].
  simpl in *. rewrite IH by tauto. rewrite rename_step_eq. simpl.
  apply get_rename_other; intro E; subst; tauto.
Qed.

Lemma renames_spec (tab : list (string * string)) :
  NoDup (map fst tab) -> NoDup (map snd tab) ->
  (forall a, In a (map snd tab) -> ~ In a (map fst tab)) ->
  forall df,
    (forall n, In n (map snd tab) -> has_col df n = false) ->
    forall o n, In (o, n) tab ->
      get_col (fold_left rename_step tab df) o = None
      /\ get_col (fold_left rename_step tab df) n
         = option_map (renamed n) (get_col df o).
Proof.
  induction tab as [| [o1 n1] rest IH]; intros Hold Hnew Hdis df Hfree o n Hin;
    [destruct Hin|].
  simpl in Hold, Hnew, Hdis, Hfree. inversion Hold as [| ? ? Ho1 Hold'].
  inversion Hnew as [| ? ? Hn1 Hnew']. subst.
  assert (Hne : o1 <> n1).
  { intros ->. apply (Hdis n1); now left. }
  cbn [fold_left]. rewrite rename_step_eq. cbn [fst snd].
  destruct Hin as [E | Hin].
  - injection E as <- <-. split.
    + rewrite renames_untouched; [now apply get_rename_old | exact Ho1 |].
      intro H. apply (Hdis o1); [now right | now left].
    + rewrite renames_untouched; [| | exact Hn1].
      * apply get_rename_new. apply Hfree. now left.
      * intro H. apply (Hdis n1); [now left | now right].
  - assert (Ho : In o (map fst rest))
      by (apply in_map_iff; now exists (o, n)).
    assert (Hn : In n (map snd rest))
      by (apply in_map_iff; now exists (o, n)).
    destruct (IH Hold' Hnew'
                 (fun a Ha Hin' => Hdis a (or_intror Ha) (or_intror Hin'))
                 (rename_col df o1 n1)) with (o := o) (n := n)
      as [H1 H2]; [| exact Hin |].
    + intros m Hm. apply has_col_none. rewrite get_rename_other.
      * apply has_col_none. apply Hfree. now right.
      * intros ->. apply (Hdis o1); [now right | now left].
      * intros ->. exact (Hn1 Hm).
    + split; [exact H1|]. rewrite H2. f_equal. apply get_rename_other.
      * intros ->. exact (Ho1 Ho).
      * intros ->. apply (Hdis n1); [now left | now right].
Qed.

Lemma rename_olds_distinct : NoDup (map fst rename_table).
Proof.
  apply (NoDup_count_occ' string_dec). intros x Hx. simpl in Hx.
  repeat (destruct Hx as [<- | Hx]; [reflexivity|]). destruct Hx.
Qed.

Lemma rename_news_distinct : NoDup (map snd rename_table).
Proof.
  apply (NoDup_count_occ' string_dec). intros x Hx. simpl in Hx.
  repeat (destruct Hx as [<- | Hx]; [reflexivity|]). destruct Hx.
Qed.

Lemma rename_news_no_old (a : string) :
  In a (map snd rename_table) -> ~ In a (map fst rename_table).
Proof.
  intro Ha. simpl in Ha.
  repeat (destruct Ha as [<- | Ha];
          [simpl; intro H;
           repeat (destruct H as [H | H]; [discriminate H|]); exact H|]).
  destruct Ha.
Qed.

Lemma rename_col_shape (df : DataFrame) (o n : string) :
  df_len (rename_col df o n) = df_len df
  /\ map c_cells (df_columns (rename_col df o n))
     = map c_cells (df_columns df).
Proof.
  split; [reflexivity|]. unfold rename_col. simpl. rewrite map_map.
  apply map_ext. intro c. now destruct (named o c).
Qed.

Lemma renames_shape (tab : list (string * string)) (df : DataFrame) :
  df_len (fold_left rename_step tab df) = df_len df
  /\ map c_cells (df_columns (fold_left rename_step tab df))
     = map c_cells (df_columns df).
Proof.
  revert df. induction tab as [| r rest IH]; intro df; [now split|].
  cbn [fold_left]. destruct (IH (rename_step df r)) as [H1 H2].
  rewrite H1, H2, rename_step_eq.
  destruct (rename_col_shape df (fst r) (snd r)) as [H3 H4].
  now rewrite H3, H4.
Qed.

(** X16. The renames.  On a frame that holds none of the new names, every
    pair of the rename table is carried out: the old name is gone and the
    new name holds the column the old name held, dtype and cells untouched
    (so [AVG_REQUEST_UNIT_READ] holds the cells of [sum_rru] as they are);
    a column outside the table is left alone, and neither the number of rows
    nor the cells of the frame change. *)
Theorem renames_keep_cells (df : DataFrame) :
  (forall new, In new (map snd rename_table) -> has_col df new = false) ->
  (forall old new,
      In (old, new) rename_table ->
      has_col (apply_renames df) old = false
      /\ get_col (apply_renames df) new
         = option_map (renamed new) (get_col df old))
  /\ (forall x, ~ In x (map fst rename_table) ->
                ~ In x (map snd rename_table) ->
                get_col (apply_renames df) x = get_col df x)
  /\ df_len (apply_renames df) = df_len df
  /\ map c_cells (df_columns (apply_renames df))
     = map c_cells (df_columns df).
Proof.
  intro Hfree. rewrite apply_renames_fold. split; [| split].
  - intros old new Hin.
    destruct (renames_spec rename_table rename_olds_distinct
                rename_news_distinct rename_news_no_old df Hfree old new Hin)
      as [H1 H2].
    split; [now apply has_col_none | exact H2].
  - intros x Ho Hn. now apply renames_untouched.
  - apply renames_shape.
Qed.

(** *** Shape *)

Lemma grows_refl (df : DataFrame) : well_formed df -> grows df df.
Proof. intro H. split; [exact H|]. split; [reflexivity | apply le_n]. Qed.

Lemma grows_trans (a b c : DataFrame) : grows a b -> grows b c -> grows a c.
Proof.
  intros (_ & H2 & H3) (H4 & H5 & H6). split; [exact H4|].
  split; [congruence | lia].
Qed.

Lemma grows_set_col (df : DataFrame) (name : string) (dt : dtype)
      (cells : list pyval) :
  well_formed df -> List.length cells = df_len df ->
  grows df (set_col df name dt cells).
Proof.
  intros Hwf Hlen. split; [| split].
  - apply Forall_forall. intros c Hin. apply in_set_col in Hin.
    destruct Hin as [-> | [Hin _]]; [exact Hlen|].
    unfold well_formed in Hwf. rewrite Forall_forall in Hwf. now apply Hwf.
  - reflexivity.
  - unfold set_col. simpl. destruct (has_col df name).
    + now rewrite length_map.
    + rewrite length_app. lia.
Qed.

Lemma grows_rename_col (df : DataFrame) (o n : string) :
  well_formed df -> grows df (rename_col df o n).
Proof.
  intro Hwf. split; [| split].
  - unfold well_formed in *. rewrite Forall_forall in *. intros c Hin.
    unfold rename_col in Hin. simpl in Hin. apply in_map_iff in Hin.
    destruct Hin as (c0 & <- & Hc0). specialize (Hwf _ Hc0).
    now destruct (named o c0).
  - reflexivity.
  - unfold rename_col. simpl. now rewrite length_map.
Qed.

Lemma wf_cells (df : DataFrame) (name : string) (c : column) :
  well_formed df -> get_col df name = Some c ->
  List.length (c_cells c) = df_len df.
Proof.
  intros Hwf Hc. apply get_col_name in Hc. destruct Hc as [_ Hin].
  unfold well_formed in Hwf. rewrite Forall_forall in Hwf. now apply Hwf.
Qed.

Lemma grows_renames (tab : list (string * string)) (df : DataFrame) :
  well_formed df -> grows df (fold_left rename_step tab df).
Proof.
  revert df. induction tab as [| r rest IH]; intros df Hwf;
    [now apply grows_refl|].
  cbn [fold_left]. rewrite rename_step_eq.
  pose proof (grows_rename_col df (fst r) (snd r) Hwf) as H.
  apply (grows_trans _ _ _ H). apply IH. now destruct H.
Qed.

Lemma astype_float_length (float_of_str : string -> option pyfloat)
      (cells : list pyval) (fs : list pyfloat) :
  astype_float float_of_str cells = inr fs ->
  List.length fs = List.length cells.
Proof.
  revert fs. induction cells as [| x cells IH]; intros fs H; simpl in H.
  - now injection H as <-.
  - destruct (cell_to_float float_of_str x); [| discriminate].
    destruct (astype_float float_of_str cells) as [e | fs']; [discriminate|].
    injection H as <-. simpl. now rewrite (IH fs').
Qed.

Lemma series_div_length (a b : list pyfloat) :
  List.length a = List.length b ->
  List.length (series_div a b) = List.length a.
Proof.
  intro H. unfold series_div. rewrite length_map, length_combine. lia.
Qed.

Lemma grows_derive_loop (float_of_str : string -> option pyfloat)
      (counts : list pyfloat) (pairs : list (string * string))
      (df df' : DataFrame) :
  well_formed df -> List.length counts = df_len df ->
  derive_loop float_of_str counts df pairs = inr df' -> grows df df'.
Proof.
  revert df. induction pairs as [| [s a] rest IH]; intros df Hwf Hlen H;
    simpl in H.
  - injection H as <-. now apply grows_refl.
  - destruct (get_col df s) as [c |] eqn:Hc; [| now apply IH].
    destruct (astype_float float_of_str (c_cells c)) as [e | sums] eqn:Hs;
      [discriminate|].
    assert (Hsum : List.length sums = df_len df).
    { rewrite (astype_float_length _ _ _ Hs). now apply (wf_cells df s). }
    pose proof (grows_set_col df a dt_float64 (series_div sums counts) Hwf)
      as Hstep.
    rewrite series_div_length in Hstep by congruence.
    specialize (Hstep Hsum). apply (grows_trans _ _ _ Hstep).
    apply IH; [now destruct Hstep | exact Hlen | exact H].
Qed.

Section Stages.
Variable json_loads : string -> option pyval.
Variable float_of_str : string -> option pyfloat.
Variable to_datetime_s : pyval -> pyval.
Variable to_datetime : pyval -> pyval.
Variable now : pyval.

Lemma grows_convert_bound (df : DataFrame) (name new_name : string) :
  well_formed df -> grows df (convert_bound to_datetime_s df name new_name).
Proof.
  intro Hwf. unfold convert_bound.
  destruct (get_col df name) as [c |] eqn:Hc; [| now apply grows_refl].
  pose proof (grows_set_col df name dt_datetime64
                (map to_datetime_s (c_cells c)) Hwf) as Hstep.
  rewrite length_map in Hstep. specialize (Hstep (wf_cells df name c Hwf Hc)).
  apply (grows_trans _ _ _ Hstep). apply grows_rename_col. now destruct Hstep.
Qed.

Lemma grows_add_sample_user (df : DataFrame) :
  well_formed df -> grows df (add_sample_user json_loads df).
Proof.
  intro Hwf. unfold add_sample_user.
  destruct (get_col df "auth_users") as [c |] eqn:Hc;
    [| now apply grows_refl].
  apply grows_set_col; [exact Hwf|]. rewrite length_map.
  now apply (wf_cells df "auth_users").
Qed.

Lemma grows_convert_seen (df : DataFrame) (name : string) :
  well_formed df -> grows df (convert_seen to_datetime df name).
Proof.
  intro Hwf. unfold convert_seen.
  destruct (get_col df name) as [c |] eqn:Hc; [| now apply grows_refl].
  apply grows_set_col; [exact Hwf|]. rewrite length_map.
  now apply (wf_cells df name).
Qed.

Lemma grows_derive (df df' : DataFrame) :
  well_formed df -> derive_avg_columns float_of_str df = inr df' ->
  grows df df'.
Proof.
  intros Hwf H. unfold derive_avg_columns in H.
  destruct (get_col df "exec_count") as [c |] eqn:Hc.
  - destruct (astype_float float_of_str (c_cells c)) as [e | counts] eqn:Hs;
      [discriminate|].
    apply (grows_derive_loop float_of_str (map zero_to_nan counts)
             avg_columns_map); [exact Hwf | | exact H].
    rewrite length_map, (astype_float_length _ _ _ Hs).
    now apply (wf_cells df "exec_count").
  - injection H as <-. now apply grows_refl.
Qed.

Lemma grows_bookkeeping (df : DataFrame) (n : nat) :
  well_formed df -> grows df (add_bookkeeping now df n).
Proof.
  intro Hwf. unfold add_bookkeeping, set_scalar.
  pose proof (grows_set_col df "processed_at" dt_datetime64
                (repeat now (df_len df)) Hwf (repeat_length _ _)) as H1.
  apply (grows_trans _ _ _ H1).
  apply grows_set_col; [now destruct H1 | apply repeat_length].
Qed.

Lemma grows_apply_renames (df : DataFrame) :
  well_formed df -> grows df (apply_renames df).
Proof.
  intro Hwf. rewrite apply_renames_fold. now apply grows_renames.
Qed.

Lemma frame_and_schema_inv (df df' : DataFrame) (batch_num : nat)
      (schema : list (string * arrow_type)) :
  frame_and_schema json_loads float_of_str to_datetime_s to_datetime now
                   df batch_num = inr (df', schema) ->
  exists d7,
    derive_avg_columns float_of_str
      (convert_seen to_datetime
         (convert_seen to_datetime
            (add_sample_user json_loads
               (apply_renames
                  (convert_bound to_datetime_s
                     (convert_bound to_datetime_s df
                                    "begin" "summary_begin_time")
                     "end" "summary_end_time")))
            "first_seen")
         "last_seen") = inr d7
    /\ df' = add_bookkeeping now d7 batch_num
    /\ schema = _get_delta_schema df'.
Proof.
  unfold frame_and_schema.
  destruct (derive_avg_columns float_of_str _) as [e | d7];
    [discriminate|].
  intro H. injection H as <- <-. now exists d7.
Qed.

(** X17. The shape of the frame.  When every column of the frame built from
    the records has one cell per row, so has every column of the frame that
    is written; the number of rows is that of the records, no stage drops a
    column, and the schema names the columns of the written frame one by one
    in their order. *)
Theorem frame_shape_preserved (df df' : DataFrame) (batch_num : nat)
        (schema : list (string * arrow_type)) :
  well_formed df ->
  frame_and_schema json_loads float_of_str to_datetime_s to_datetime now
                   df batch_num = inr (df', schema) ->
  well_formed df'
  /\ df_len df' = df_len df
  /\ List.length (df_columns df) <= List.length (df_columns df')
  /\ map fst schema = map c_name (df_columns df').
Proof.
  intros Hwf H. apply frame_and_schema_inv in H.
  destruct H as (d7 & Hd & -> & ->).
  pose proof (grows_convert_bound df "begin" "summary_begin_time" Hwf) as G1.
  pose proof (grows_convert_bound _ "end" "summary_end_time" (proj1 G1))
    as G2.
  pose proof (grows_apply_renames _ (proj1 G2)) as G3.
  pose proof (grows_add_sample_user _ (proj1 G3)) as G4.
  pose proof (grows_convert_seen _ "first_seen" (proj1 G4)) as G5.
  pose proof (grows_convert_seen _ "last_seen" (proj1 G5)) as G6.
  pose proof (grows_derive _ _ (proj1 G6) Hd) as G7.
  pose proof (grows_bookkeeping d7 batch_num (proj1 G7)) as G8.
  destruct (grows_trans _ _ _ G1
             (grows_trans _ _ _ G2
               (grows_trans _ _ _ G3
                 (grows_trans _ _ _ G4
                   (grows_trans _ _ _ G5
                     (grows_trans _ _ _ G6
                       (grows_trans _ _ _ G7 G8))))))) as (W & L & C).
  split; [exact W|]. split; [exact L|]. split; [exact C|].
  unfold _get_delta_schema. rewrite map_map. reflexivity.
Qed.

End Stages.

(** X16, on three statements: the request units read take their new name,
    the digest stays. *)
Lemma renames_keep_cells_witness :
  option_map c_cells (get_col (apply_renames units_frame)
                              "AVG_REQUEST_UNIT_READ")
  = Some [PInt 40; PInt 2; PInt 0]
  /\ has_col (apply_renames units_frame) "sum_rru" = false.
Proof.
  assert (Hfree : forall new, In new (map snd rename_table) ->
                              has_col units_frame new = false).
  { intros new Hin. simpl in Hin.
    repeat (destruct Hin as [<- | Hin]; [reflexivity|]). destruct Hin. }
  destruct (proj1 (renames_keep_cells units_frame Hfree)
              "sum_rru" "AVG_REQUEST_UNIT_READ") as [H1 H2].
  - simpl. tauto.
  - split; [| exact H1]. rewrite H2. reflexivity.
Defined.

(** X17, on two statements with their latencies. *)
Lemma frame_shape_preserved_witness :
  match frame_and_schema PyLib.json_loads PyLib.float_of_str
                         no_date no_date a_moment latency_frame 3 with
  | inr (df', schema) =>
      well_formed df' /\ df_len df' = 2
      /\ map fst schema = map c_name (df_columns df')
  | inl _ => False
  end.
Proof.
  destruct (frame_and_schema PyLib.json_loads PyLib.float_of_str
                             no_date no_date a_moment latency_frame 3)
    as [e | [df' schema]] eqn:E.
  - vm_compute in E. discriminate E.
  - destruct (frame_shape_preserved PyLib.json_loads PyLib.float_of_str
                no_date no_date a_moment latency_frame df' 3 schema)
      as (H1 & H2 & _ & H4).
    + repeat constructor.
    + exact E.
    + split; [exact H1|]. split; [exact H2 | exact H4].
Defined.

End FrameFacts.

(* ------------------------------------------------------------------ *)
(** ** From the [auth_users] of an entry to the sample user *)

Module AuthUsers.
Import Val Normalizer Frame.

Section WithJson.
Variable json_loads : string -> option pyval.
Variable json_dumps : pyval -> string.

(** The way of a top-level [auth_users] object through the converter: made
    a JSON text by [_preprocess_complex_fields] (line 418), passed through
    the clean-up of the batch (line 457), then read by [extract_first_user]
    (line 530). *)
Definition auth_users_cell (auth_users : pyval) : pyval :=
  Cleanup.clean_value json_dumps (stringified json_dumps auth_users).

Definition sample_user_of (auth_users : pyval) : pyval :=
  extract_first_user json_loads (auth_users_cell auth_users).

Lemma auth_users_cell_object (k : string) (x : pyval)
      (rest : list (string * pyval)) :
  auth_users_cell (PDict ((k, x) :: rest))
  = PStr (json_dumps (PDict ((k, x) :: rest))).
Proof. reflexivity. Qed.

(** X18. The sample user of an entry: an [auth_users] object without key
    gives no user; an object with keys gives its first key, provided
    [json.loads] reads back what [json.dumps] wrote for it; the user is a
    text or null in every case. *)
Theorem sample_user_is_first_key (k : string) (x : pyval)
        (rest : list (string * pyval)) :
  json_dumps (PDict ((k, x) :: rest)) <> "" ->
  json_loads (json_dumps (PDict ((k, x) :: rest)))
  = Some (PDict ((k, x) :: rest)) ->
  sample_user_of (PDict ((k, x) :: rest)) = PStr k
  /\ sample_user_of (PDict []) = PNone
  /\ (forall v, sample_user_of v = PNone
                \/ exists user, sample_user_of v = PStr user).
Proof.
  intros Hne Hback. split; [| split].
  - unfold sample_user_of. rewrite auth_users_cell_object.
    unfold extract_first_user. cbn [isna negb andb truthy].
    apply String.eqb_neq in Hne. rewrite Hne. cbn [negb].
    now rewrite Hback.
  - reflexivity.
  - intro v. unfold sample_user_of, extract_first_user.
    destruct (negb (isna (auth_users_cell v)) && truthy (auth_users_cell v));
      [| now left].
    destruct (auth_users_cell v); try (now left).
    destruct (json_loads s) as [[| | | | | | [| [k' x'] d]] |];
      try (now left).
    right. now exists k'.
Qed.

End WithJson.

(** X18, on the object the log holds for the user root. *)
Lemma sample_user_is_first_key_witness :
  sample_user_of PyLib.json_loads PyLib.json_dumps
    (PDict [("root", PDict []); ("app", PDict [])])
  = PStr "root".
Proof.
  apply (sample_user_is_first_key PyLib.json_loads PyLib.json_dumps
           "root" (PDict []) [("app", PDict [])]).
  - vm_compute. discriminate.
  - vm_compute. reflexivity.
Defined.

End AuthUsers.

(* ------------------------------------------------------------------ *)
(** ** The ledger files behind a run *)

Module LedgerRun.
Import Pipeline.

(** The ledger files after a trace: every ledger line of the trace is one
    [_save_processed_files(log_type, [file_path])] on the store. *)
Fixpoint replay {Batch : Type} (site : Ledger.site) (s3 : Ledger.store)
         (t : list (event Batch)) : Ledger.store :=
  match t with
  | [] => s3
  | EvMark lt f :: t' =>
      replay site (Ledger._save_processed_files site s3 lt [f]) t'
  | _ :: t' => replay site s3 t'
  end.

Definition empty_store : Ledger.store := fun _ => None.

Lemma substring_head (s : string) :
  forall n m a t,
    String.substring n m s = String a t -> In a (list_ascii_of_string s).
Proof.
  induction s as [| c s IH]; intros n m a t H.
  - destruct n, m; discriminate H.
  - destruct n as [| n].
    + destruct m as [| m]; [discriminate H|].
      simpl in H. injection H as -> _. now left.
    + simpl in H. right. exact (IH _ _ _ _ H).
Qed.

Lemma endswith_visible (s suffix : string) (a : ascii) (t : string) :
  suffix = String a t ->
  Nat.leb 33 (nat_of_ascii a) && Nat.leb (nat_of_ascii a) 126 = true ->
  Py.endswith s suffix = true -> Ledger.visible s = true.
Proof.
  intros -> Ha H. unfold Py.endswith in H.
  apply andb_true_iff in H. destruct H as [_ H].
  apply String.eqb_eq in H. apply substring_head in H.
  unfold Ledger.visible. apply existsb_exists. now exists a.
Qed.

Lemma log_file_visible (f : string) :
  is_log_file f = true -> Ledger.visible f = true.
Proof.
  unfold is_log_file. rewrite !orb_true_iff.
  intros [[H | H] | H];
    eapply endswith_visible in H; try exact H; reflexivity.
Qed.

Lemma replay_loads (Batch : Type) (site : Ledger.site)
      (t : list (event Batch)) :
  (forall lt f, In (EvMark lt f) t ->
                In lt Ledger.log_types /\ Ledger.plain_name f) ->
  forall s3,
    Ledger.closed_store site s3 ->
    Ledger.closed_store site (replay site s3 t)
    /\ (forall g,
           In g (Ledger._load_processed_files site (replay site s3 t))
           <-> In g (Ledger._load_processed_files site s3)
               \/ In g (marked t)).
Proof.
  induction t as [| ev t IH]; intros Hmarks s3 Hclosed.
  - split; [exact Hclosed|]. intro g. simpl. tauto.
  - assert (Hrest : forall lt f, In (EvMark lt f) t ->
                                 In lt Ledger.log_types
                                 /\ Ledger.plain_name f)
      by (intros lt f H; apply Hmarks; now right).
    destruct ev as [s | tbl n b | lt f]; cbn [replay marked];
      [now apply IH | now apply IH |].
    destruct (Hmarks lt f (or_introl eq_refl)) as [Hlt Hf].
    assert (Hone : Forall Ledger.plain_name [f]) by now constructor.
    destruct (IH Hrest (Ledger._save_processed_files site s3 lt [f])
                 (Ledger.save_keeps_closed site s3 lt [f] Hlt Hone Hclosed))
      as [Hc Hg].
    split; [exact Hc|]. intro g. rewrite Hg.
    rewrite (Ledger.load_after_save site s3 lt [f] g Hlt Hone Hclosed).
    simpl. tauto.
Qed.

Section Run.
Variable Flat : Type.
Variable Batch : Type.
Variable prepare : list Flat -> Py.exn + Batch.

(** X19. The ledger files after a run.  Take a converter whose set of
    processed files was loaded from a store with closed ledgers, and let
    every ledger line of its run be saved to that store.  When the recorded
    names hold no line break, the ledgers stay closed and the next
    [_load_processed_files] finds the processed files of this run together
    with the files it recorded, and nothing else. *)
Theorem ledger_files_after_run (self : DeltaConverter Flat)
        (site : Ledger.site) (s3 : Ledger.store) :
  Ledger.closed_store site s3 ->
  (forall g, In g (processed_files self)
             <-> In g (Ledger._load_processed_files site s3)) ->
  (forall f, In f (marked (Py.events (run prepare self))) ->
             Lines.lacks Lines.nl_char f = true
             /\ Lines.lacks Ledger.cr_char f = true) ->
  Ledger.closed_store site (replay site s3 (Py.events (run prepare self)))
  /\ (forall g,
         In g (Ledger._load_processed_files site
                 (replay site s3 (Py.events (run prepare self))))
         <-> In g (ledger_after self (Py.events (run prepare self)))).
Proof.
  intros Hclosed Hinit Hbreaks.
  destruct (replay_loads Batch site (Py.events (run prepare self)))
    with (s3 := s3) as [Hc Hg]; [| exact Hclosed |].
  - intros lt f Hin.
    assert (Hm : In f (marked (Py.events (run prepare self))))
      by (apply in_marked; now exists lt).
    destruct (Hbreaks f Hm) as [Hnl Hcr].
    apply PipelineFacts.run_mark_found in Hin. destruct Hin as [Hlt Hnew].
    apply PipelineFacts.new_files_found in Hnew.
    destruct Hnew as (_ & Hlog & _). split.
    + destruct Hlt as [-> | ->]; simpl; auto.
    + split; [exact Hnl|]. split; [exact Hcr|]. now apply log_file_visible.
  - split; [exact Hc|]. intro g. rewrite Hg. unfold ledger_after.
    rewrite in_app_iff, Hinit. reflexivity.
Qed.

End Run.

(** X19, on the first run over two files in an empty store. *)
Lemma ledger_files_after_run_witness :
  In file_b
     (Ledger._load_processed_files Ledger.tc_site
        (replay Ledger.tc_site empty_store
           (Py.events (run demo_prepare (demo [] always_ok save_all))))).
Proof.
  apply (proj2 (ledger_files_after_run string (list string) demo_prepare
                  (demo [] always_ok save_all) Ledger.tc_site empty_store
                  (fun lt raw _ H =>
                     match H in (_ = o)
                           return match o with
                                  | None => True
                                  | Some r => Ledger.closed_text r
                                  end
                     with eq_refl => I end)
                  (fun g => conj (fun H => H) (fun H => H))
                  ltac:(intros f H; vm_compute in H;
                        destruct H as [<- | [<- | []]];
                        split; reflexivity))).
  vm_compute. tauto.
Defined.

End LedgerRun.
